(** * ApeX Omni balance checker and deposit flow: a shallow embedding

    The development follows [src/apex.py] (class [ApexBalanceChecker]:
    request signing, the authenticated request client, the balance
    aggregator, the report printer; and [main]) and [src/deposit.py] (the
    account poll loop of the deposit script, and the script as a whole).

    Conventions.
    - A Python [str] is a list of Unicode code points ([N]); [bytes] is a
      list of [Byte.byte].  String literals of the source are written
      [lit "..."].
    - A Python [float] is a primitive IEEE-754 binary64 [float]; [int] is
      [Z].
    - A Python exception is a constructor of [exn]; a computation that may
      raise returns a [result].
    - What the interpreter or the network decides (the clock, environment
      variables, HTTP exchanges, [float(str)], [int(str)], [str(value)]) is
      a method of the class [World]; the code is a function of it.  The
      SDK client of the deposit script is the class [Deposit.Sdk].  The
      terminal and the disk of [main] are the class [Console], the rest of
      the SDK is [Script.Client].
    - [print] appends to the [stdout] of the state; the lines that format
      floats are kept as structured [output] values. *)

From Stdlib Require Import ZArith NArith List Bool Lia.
From Stdlib.Strings Require Import String Ascii Byte.
From Stdlib Require Import Floats DecimalString Permutation Sorted.
Import ListNotations.

Set Implicit Arguments.
Set Warnings "-register-all".

(* ================================================================== *)
(** * Python data *)

(** Python [str]: a sequence of code points. *)
Definition str := list N.

(** Python [bytes]. *)
Definition bytes := list byte.

(** A source literal, as the [str] of its characters (ASCII literals only). *)
Definition lit (s : string) : str := map N_of_ascii (list_ascii_of_string s).

(** The exceptions the modelled code can raise.  A [ValueError] carries its
    message when the source writes it ([None] for one raised by a builtin). *)
Inductive exn : Type :=
| UnicodeEncodeError
| ValueError (msg : option str)
| TypeError
| AttributeError
| OverflowError.

(** Outcome of a Python expression: a value, or a raised exception. *)
Inductive result (A : Type) : Type :=
| Ok (a : A)
| Raise (e : exn).
Arguments Ok {A} a.
Arguments Raise {A} e.

Definition rbind {A B} (r : result A) (k : A -> result B) : result B :=
  match r with
  | Ok a => k a
  | Raise e => Raise e
  end.

Declare Scope py_scope.
Delimit Scope py_scope with py.
Notation "'let?' x ':=' r 'in' k" := (rbind r (fun x => k))
  (at level 10, x pattern, r at level 100, k at level 200) : py_scope.
Open Scope py_scope.

(* ================================================================== *)
(** * [str.encode('utf-8')] *)

Module Utf8.

Definition byte_of_N (n : N) : byte :=
  match Byte.of_N (n mod 256) with
  | Some b => b
  | None => x00
  end.

(** One code point.  Surrogates (U+D800..U+DFFF) cannot be encoded:
    Python raises [UnicodeEncodeError]. *)
Definition encode_char (c : N) : result bytes :=
  (if c <? 0x80 then
     Ok [byte_of_N c]
   else if c <? 0x800 then
     Ok [byte_of_N (N.lor 0xC0 (N.shiftr c 6));
         byte_of_N (N.lor 0x80 (N.land c 0x3F))]
   else if (0xD800 <=? c) && (c <=? 0xDFFF) then
     Raise UnicodeEncodeError
   else if c <? 0x10000 then
     Ok [byte_of_N (N.lor 0xE0 (N.shiftr c 12));
         byte_of_N (N.lor 0x80 (N.land (N.shiftr c 6) 0x3F));
         byte_of_N (N.lor 0x80 (N.land c 0x3F))]
   else if c <? 0x110000 then
     Ok [byte_of_N (N.lor 0xF0 (N.shiftr c 18));
         byte_of_N (N.lor 0x80 (N.land (N.shiftr c 12) 0x3F));
         byte_of_N (N.lor 0x80 (N.land (N.shiftr c 6) 0x3F));
         byte_of_N (N.lor 0x80 (N.land c 0x3F))]
   else Raise UnicodeEncodeError)%N.

Fixpoint encode (s : str) : result bytes :=
  match s with
  | [] => Ok []
  | c :: s' =>
      let? b := encode_char c in
      let? bs := encode s' in
      Ok (b ++ bs)
  end.

(** [bytes.decode()] of ASCII bytes (the only use in the source is on
    base64 output). *)
Definition decode_ascii (b : bytes) : str := map Byte.to_N b.

(** A [str] that Python can hold and encode: Unicode scalar values. *)
Definition scalar (c : N) : Prop :=
  (c < 0x110000 /\ ~ (0xD800 <= c <= 0xDFFF))%N.

End Utf8.

(* ================================================================== *)
(** * [base64.standard_b64encode] *)

Module Base64.

Definition alphabet : list byte :=
  list_byte_of_string
    "ABCDEFGHIJKLMNOPQRSTUVWXYZabcdefghijklmnopqrstuvwxyz0123456789+/".

Definition pad : byte := "="%byte.

Definition digit (n : N) : byte := nth (N.to_nat (n mod 64)) alphabet pad.

Fixpoint standard_b64encode (b : bytes) : bytes :=
  match b with
  | [] => []
  | [x] =>
      let n := (Byte.to_N x * 65536)%N in
      [digit (N.shiftr n 18); digit (N.shiftr n 12); pad; pad]
  | [x; y] =>
      let n := (Byte.to_N x * 65536 + Byte.to_N y * 256)%N in
      [digit (N.shiftr n 18); digit (N.shiftr n 12); digit (N.shiftr n 6); pad]
  | x :: y :: z :: rest =>
      let n := (Byte.to_N x * 65536 + Byte.to_N y * 256 + Byte.to_N z)%N in
      digit (N.shiftr n 18) :: digit (N.shiftr n 12)
        :: digit (N.shiftr n 6) :: digit n :: standard_b64encode rest
  end.

End Base64.

(* ================================================================== *)
(** * [hashlib.sha256] (FIPS 180-4) and [hmac] (RFC 2104) *)

Module SHA256.
Open Scope Z_scope.

Definition w32 (x : Z) : Z := x mod 2 ^ 32.
Definition add32 (x y : Z) : Z := w32 (x + y).
Definition rotr (n x : Z) : Z :=
  w32 (Z.lor (Z.shiftr x n) (Z.shiftl x (32 - n))).
Definition shr (n x : Z) : Z := Z.shiftr x n.
Definition not32 (x : Z) : Z := 2 ^ 32 - 1 - x.

Definition Ch (x y z : Z) : Z := Z.lxor (Z.land x y) (Z.land (not32 x) z).
Definition Maj (x y z : Z) : Z :=
  Z.lxor (Z.lxor (Z.land x y) (Z.land x z)) (Z.land y z).
Definition Sigma0 (x : Z) : Z := Z.lxor (Z.lxor (rotr 2 x) (rotr 13 x)) (rotr 22 x).
Definition Sigma1 (x : Z) : Z := Z.lxor (Z.lxor (rotr 6 x) (rotr 11 x)) (rotr 25 x).
Definition sigma0 (x : Z) : Z := Z.lxor (Z.lxor (rotr 7 x) (rotr 18 x)) (shr 3 x).
Definition sigma1 (x : Z) : Z := Z.lxor (Z.lxor (rotr 17 x) (rotr 19 x)) (shr 10 x).

(** The largest [r] below [2 ^ bits] with [pow r <= n], bit by bit. *)
Fixpoint root (pow : Z -> Z) (n : Z) (bits : nat) (r : Z) : Z :=
  match bits with
  | O => r
  | S b =>
      let r' := r + 2 ^ Z.of_nat b in
      root pow n b (if pow r' <=? n then r' else r)
  end.

Definition is_prime (p : Z) : bool :=
  forallb (fun d => negb (p mod Z.of_nat d =? 0)) (seq 2 (Z.to_nat p - 2)).

(** The primes up to 311: the first sixty-four. *)
Definition primes : list Z := filter is_prime (map Z.of_nat (seq 2 310)).

(** The round constants: the first 32 bits of the fractional parts of the
    cube roots of the first sixty-four primes. *)
Definition K : list Z :=
  map (fun p => w32 (root (fun r => r * r * r) (p * 2 ^ 96) 36 0)) primes.

(** The initial hash value: the first 32 bits of the fractional parts of
    the square roots of the first eight primes. *)
Definition H0 : list Z :=
  map (fun p => w32 (root (fun r => r * r) (p * 2 ^ 64) 36 0)) (firstn 8 primes).

Definition Z_of_byte (b : byte) : Z := Z.of_N (Byte.to_N b).
Definition byte_of_Z (z : Z) : byte := Utf8.byte_of_N (Z.to_N (z mod 256)).

(** Big-endian bytes of a word, [n] bytes wide. *)
Fixpoint be_bytes (n : nat) (x : Z) : bytes :=
  match n with
  | O => []
  | S n' => byte_of_Z (Z.shiftr x (8 * Z.of_nat n')) :: be_bytes n' x
  end.

(** Padding: 0x80, zeros up to 56 mod 64, the bit length on 64 bits. *)
Definition padding (len : Z) : bytes :=
  x80 :: repeat x00 (Z.to_nat ((55 - len) mod 64)) ++ be_bytes 8 (8 * len).

(** Big-endian 32-bit words of a byte string (a whole number of words). *)
Fixpoint words (b : bytes) : list Z :=
  match b with
  | b0 :: b1 :: b2 :: b3 :: rest =>
      (Z_of_byte b0 * 2 ^ 24 + Z_of_byte b1 * 2 ^ 16
       + Z_of_byte b2 * 2 ^ 8 + Z_of_byte b3) :: words rest
  | _ => []
  end.

(** Message schedule: [w] holds W[t-1], W[t-2], ... (latest first). *)
Fixpoint schedule (n : nat) (w : list Z) : list Z :=
  match n with
  | O => w
  | S n' =>
      let wt :=
        add32 (add32 (sigma1 (nth 1 w 0)) (nth 6 w 0))
              (add32 (sigma0 (nth 14 w 0)) (nth 15 w 0)) in
      schedule n' (wt :: w)
  end.

Definition st : Type := (Z * Z * Z * Z * Z * Z * Z * Z)%type.

Definition round (s : st) (kw : Z * Z) : st :=
  let '(a, b, c, d, e, f, g, h) := s in
  let '(k, w) := kw in
  let t1 := add32 (add32 (add32 h (Sigma1 e)) (add32 (Ch e f g) k)) w in
  let t2 := add32 (Sigma0 a) (Maj a b c) in
  (add32 t1 t2, a, b, c, add32 d t1, e, f, g).

Definition compress (s : st) (block : list Z) : st :=
  let w := rev (schedule 48 (rev block)) in
  let '(a, b, c, d, e, f, g, h) := s in
  let '(a', b', c', d', e', f', g', h') := fold_left round (combine K w) s in
  (add32 a a', add32 b b', add32 c c', add32 d d',
   add32 e e', add32 f f', add32 g g', add32 h h').

(** The blocks of 16 words of a word list. *)
Fixpoint blocks (fuel : nat) (w : list Z) : list (list Z) :=
  match fuel, w with
  | S fuel', _ :: _ => firstn 16 w :: blocks fuel' (skipn 16 w)
  | _, _ => []
  end.

Definition digest (msg : bytes) : bytes :=
  let padded := msg ++ padding (Z.of_nat (List.length msg)) in
  let ws := words padded in
  let init : st :=
    (nth 0 H0 0, nth 1 H0 0, nth 2 H0 0, nth 3 H0 0,
     nth 4 H0 0, nth 5 H0 0, nth 6 H0 0, nth 7 H0 0) in
  let '(a, b, c, d, e, f, g, h) :=
    fold_left compress (blocks (List.length ws) ws) init in
  flat_map (be_bytes 4) [a; b; c; d; e; f; g; h].

Definition block_size : nat := 64.

End SHA256.

Module HMAC.

Definition xor_byte (p : Z) (b : byte) : byte :=
  SHA256.byte_of_Z (Z.lxor p (SHA256.Z_of_byte b)).

(** [hmac.new(key, msg, hashlib.sha256).digest()]. *)
Definition hmac_sha256 (key msg : bytes) : bytes :=
  let key0 :=
    if Nat.ltb SHA256.block_size (List.length key) then SHA256.digest key else key in
  let key1 := key0 ++ repeat x00 (SHA256.block_size - List.length key0) in
  let inner := SHA256.digest (map (xor_byte 0x36) key1 ++ msg) in
  SHA256.digest (map (xor_byte 0x5C) key1 ++ inner).

End HMAC.

(* ================================================================== *)
(** * Python values *)

(** The values the client handles: what [response.json()] returns and what
    callers pass as request parameters.  A dict has [str] keys, each once
    (a JSON parser keeps one value per key), in insertion order. *)
Inductive pyval : Type :=
| VNone
| VBool (b : bool)
| VInt (z : Z)
| VFloat (f : float)
| VStr (s : str)
| VList (l : list pyval)
| VDict (d : list (str * pyval)).

(** A Python number built by the aggregator: [int] or [float]. *)
Inductive num : Type :=
| NInt (z : Z)
| NFloat (f : float).

Fixpoint str_eqb (a b : str) : bool :=
  match a, b with
  | [], [] => true
  | x :: a', y :: b' => N.eqb x y && str_eqb a' b'
  | _, _ => false
  end.

(** [a < b] on [str]: lexicographic on code points. *)
Fixpoint str_ltb (a b : str) : bool :=
  match a, b with
  | _, [] => false
  | [], _ :: _ => true
  | x :: a', y :: b' => N.ltb x y || (N.eqb x y && str_ltb a' b')
  end.

Definition str_leb (a b : str) : bool := negb (str_ltb b a).

(** [str(n)] for an [int]. *)
Definition str_of_int (z : Z) : str :=
  lit (NilZero.string_of_int (Z.to_int z)).

(** [sep.join(parts)]. *)
Fixpoint join (sep : str) (parts : list str) : str :=
  match parts with
  | [] => []
  | [p] => p
  | p :: rest => p ++ sep ++ join sep rest
  end.

(** [d.get(key)] on the items of a dict. *)
Fixpoint lookup (key : str) (d : list (str * pyval)) : option pyval :=
  match d with
  | [] => None
  | (k, v) :: d' => if str_eqb k key then Some v else lookup key d'
  end.

(** [obj.get(key, default)]: only a dict has the method. *)
Definition py_get (obj : pyval) (key : str) (default : pyval) : result pyval :=
  match obj with
  | VDict d =>
      match lookup key d with
      | Some v => Ok v
      | None => Ok default
      end
  | _ => Raise AttributeError
  end.

(** Truth value of an object ([if x], [not x]). *)
Definition truthy (v : pyval) : bool :=
  match v with
  | VNone => false
  | VBool b => b
  | VInt z => negb (Z.eqb z 0)
  | VFloat f => negb (PrimFloat.eqb f 0)
  | VStr s => negb (Nat.eqb (List.length s) 0)
  | VList l => negb (Nat.eqb (List.length l) 0)
  | VDict d => negb (Nat.eqb (List.length d) 0)
  end.

(** [for x in obj]: the items iterated over. *)
Definition py_iter (obj : pyval) : result (list pyval) :=
  match obj with
  | VList l => Ok l
  | VDict d => Ok (map (fun kv => VStr (fst kv)) d)
  | VStr s => Ok (map (fun c => VStr [c]) s)
  | VNone | VBool _ | VInt _ | VFloat _ => Raise TypeError
  end.

(** [float(n)] for an [int]: the nearest double, [OverflowError] when the
    integer is too large. *)
Definition float_of_int (z : Z) : result float :=
  let f := SF2Prim (SpecFloat.binary_normalize 53 1024 z 0 false) in
  if PrimFloat.is_infinity f then Raise OverflowError else Ok f.

(** ** Keys of a dict

    Two keys are the same when they are equal ([1], [1.0] and [True] are
    one key, and so are [0.0] and [-0.0]), which [hkey] decides by a normal
    form: an integer for every number with an integral value, the float
    itself otherwise.  A parsed response holds one NaN object, so NaN is
    one key.  Lists and dicts are unhashable. *)
Inductive hkey : Type :=
| KNone
| KStr (s : str)
| KInt (z : Z)
| KFloat (f : SpecFloat.spec_float).

Definition hkey_of_float (f : float) : hkey :=
  match Prim2SF f with
  | SpecFloat.S754_zero _ => KInt 0
  | SpecFloat.S754_finite sg m e =>
      let signed (z : Z) := if sg then Z.opp z else z in
      if (0 <=? e)%Z then KInt (signed (Z.pos m * 2 ^ e)%Z)
      else if (Z.pos m mod 2 ^ (- e) =? 0)%Z then KInt (signed (Z.pos m / 2 ^ (- e))%Z)
      else KFloat (SpecFloat.S754_finite sg m e)
  | sf => KFloat sf
  end.

Definition hash_key (v : pyval) : option hkey :=
  match v with
  | VNone => Some KNone
  | VBool b => Some (KInt (if b then 1 else 0))
  | VInt z => Some (KInt z)
  | VFloat f => Some (hkey_of_float f)
  | VStr s => Some (KStr s)
  | VList _ | VDict _ => None
  end.

Definition hkey_eq_dec (a b : hkey) : {a = b} + {a <> b}.
Proof.
  decide equality.
  - apply (list_eq_dec N.eq_dec).
  - apply Z.eq_dec.
  - decide equality;
      try apply Z.eq_dec; try apply Pos.eq_dec; try apply Bool.bool_dec.
Defined.

Definition hkey_eqb (a b : hkey) : bool :=
  if hkey_eq_dec a b then true else false.

(** A dict built by the code, keyed by arbitrary hashable values: the
    entries in insertion order, each with its key as first inserted. *)
Definition pydict (V : Type) : Type := list (pyval * hkey * V).

Fixpoint dict_get {V} (d : pydict V) (k : hkey) : option V :=
  match d with
  | [] => None
  | (_, k', v) :: d' => if hkey_eqb k' k then Some v else dict_get d' k
  end.

Fixpoint dict_put {V} (d : pydict V) (key : pyval) (k : hkey) (v : V) : pydict V :=
  match d with
  | [] => [(key, k, v)]
  | (key', k', v') :: d' =>
      if hkey_eqb k' k then (key', k', v) :: d'
      else (key', k', v') :: dict_put d' key k v
  end.

(** [d[key] = v]. *)
Definition setitem {V} (d : pydict V) (key : pyval) (v : V) : result (pydict V) :=
  match hash_key key with
  | Some k => Ok (dict_put d key k v)
  | None => Raise TypeError
  end.

(* ================================================================== *)
(** * The world outside the program *)

Inductive http_verb : Type := GET | POST.

(** The call [requests.get(url, headers=..., timeout=...)] or
    [requests.post(url, headers=..., json=..., timeout=...)]. *)
Record http_request : Type := {
  verb : http_verb;
  url : str;
  headers : list (str * str);
  json : option pyval;
  timeout : Z
}.

(** What [response.json()] finds in the payload.  On a payload that is
    not JSON it raises [requests.exceptions.JSONDecodeError], which is a
    [RequestException] (requests 2.27 and later), with message [msg]. *)
Inductive payload : Type :=
| Json (v : pyval)
| NotJson (msg : str).

(** A [requests.exceptions.RequestException] raised by [requests.get] or
    [requests.post] itself, with its [str()]. *)
Inductive transport_error : Type :=
| Timeout (msg : str)
| ConnectionError (msg : str)
| OtherRequestException (msg : str).

(** How a call of [requests.get] or [requests.post] ends: with a response,
    with a [RequestException], or with an exception of another class (a
    [ValueError] for a timeout of 0, say), which the client does not
    catch. *)
Inductive http_outcome : Type :=
| Response (status : Z) (reason response_url : str) (body : payload)
| Fails (e : transport_error)
| Crashes (e : exn).

(** What the interpreter and the network decide.  [tick] counts the
    requests the process has made so far. *)
Class World : Type := {
  (** [int(time.time() * 1000)] *)
  time_ms : forall (tick : nat), Z;
  (** [datetime.now().isoformat()] *)
  now_isoformat : forall (tick : nat), str;
  (** [os.getenv(name)] *)
  getenv : str -> option str;
  (** [requests.get] / [requests.post] *)
  http : forall (tick : nat), http_request -> http_outcome;
  (** [float(s)] for a [str]; [None]: [ValueError] *)
  float_of_str : str -> option float;
  (** [int(s)] for a [str]; [None]: [ValueError] *)
  int_of_str : str -> option Z;
  (** [str(v)] for a float, a list or a dict *)
  str_of_other : pyval -> str
}.

(** A line written by [print]. *)
Inductive output : Type :=
| Line (s : str)
(** [print(f"  {token}: {balance:.6f} (Available: {available:.6f})")] *)
| WalletLine (token : pyval) (balance available : float)
(** [print(f"  {symbol}: {side} {size} @ {entry_price}")] *)
| PositionLine (symbol side : pyval) (size entry_price : float).

(** The state of the process: requests made, lines printed (latest
    first). *)
Record state : Type := {
  tick : nat;
  stdout : list output
}.

(** Effectful code: state passing, with exceptions. *)
Definition M (A : Type) : Type := state -> result A * state.

Definition ret {A} (a : A) : M A := fun st => (Ok a, st).
Definition bind {A B} (m : M A) (k : A -> M B) : M B :=
  fun st =>
    match m st with
    | (Ok a, st') => k a st'
    | (Raise e, st') => (Raise e, st')
    end.
Definition lift {A} (r : result A) : M A := fun st => (r, st).
Definition print (o : output) : M unit :=
  fun st => (Ok tt, {| tick := tick st; stdout := o :: stdout st |}).

Notation "x <- m ;; k" := (bind m (fun x => k))
  (at level 61, m at next level, right associativity) : py_scope.
Notation "m ;;; k" := (bind m (fun _ => k))
  (at level 61, right associativity) : py_scope.

Section Builtins.
Context {W : World}.

(** [str(v)], as an f-string renders a value. *)
Definition py_str (v : pyval) : str :=
  match v with
  | VNone => lit "None"
  | VBool true => lit "True"
  | VBool false => lit "False"
  | VInt z => str_of_int z
  | VStr s => s
  | VFloat _ | VList _ | VDict _ => str_of_other v
  end.

(** [float(v)]. *)
Definition py_float (v : pyval) : result float :=
  match v with
  | VFloat f => Ok f
  | VInt z => float_of_int z
  | VBool b => Ok (if b then 1%float else 0%float)
  | VStr s =>
      match float_of_str s with
      | Some f => Ok f
      | None => Raise (ValueError None)
      end
  | VNone | VList _ | VDict _ => Raise TypeError
  end.

(** [int(os.getenv(name, default))] for an [int] default. *)
Definition int_getenv (name : str) (default : Z) : result Z :=
  match getenv name with
  | None => Ok default
  | Some s =>
      match int_of_str s with
      | Some z => Ok z
      | None => Raise (ValueError None)
      end
  end.

End Builtins.

(* ================================================================== *)
(** * The signer: [ApexBalanceChecker._generate_signature] *)

(** The object built by [__init__] (apex.py lines 21-38). *)
Record ApexBalanceChecker : Type := {
  api_key : str;
  secret : str;
  passphrase : str;
  base_url : str
}.

Definition __init__ (api_key secret passphrase : str) (is_testnet : bool)
  : ApexBalanceChecker :=
  {| api_key := api_key;
     secret := secret;
     passphrase := passphrase;
     base_url :=
       if is_testnet then lit "https://testnet.omni.apex.exchange/api"
       else lit "https://omni.apex.exchange/api" |}.

(** The [message] local of [_generate_signature] (apex.py line 42). *)
Definition message (timestamp method path data : str) : str :=
  timestamp ++ method ++ path ++ data.

(** apex.py lines 44-54: the key, the HMAC and its encoding. *)
Definition sign_message (secret message : str) : result str :=
  let? key :=
    (let? b := Utf8.encode secret in Ok (Base64.standard_b64encode b)) in
  let? msg := Utf8.encode message in
  let signature := HMAC.hmac_sha256 key msg in
  Ok (Utf8.decode_ascii (Base64.standard_b64encode signature)).

(** apex.py lines 40-54. *)
Definition _generate_signature (self : ApexBalanceChecker)
    (timestamp method path data : str) : result str :=
  let message := message timestamp method path data in
  sign_message (secret self) message.

(* ================================================================== *)
(** * The request client: [ApexBalanceChecker._make_request] *)

(** The items of a dict of request parameters, in insertion order. *)
Definition items : Type := list (str * pyval).

(** [sorted(params.items())].  The keys of a dict are distinct, so the
    items are ordered by key alone; the model is the stable insertion sort
    on keys. *)
Fixpoint insert_item (x : str * pyval) (l : items) : items :=
  match l with
  | [] => [x]
  | y :: l' => if str_leb (fst x) (fst y) then x :: l else y :: insert_item x l'
  end.

Fixpoint sorted (l : items) : items :=
  match l with
  | [] => []
  | x :: l' => insert_item x (sorted l')
  end.

(** Response.raise_for_status of the [requests] library: the message of
    the [HTTPError] it raises, if it raises. *)
Definition raise_for_status (status : Z) (reason url : str) : option str :=
  if ((400 <=? status) && (status <? 500))%Z then
    Some (str_of_int status ++ lit " Client Error: " ++ reason
            ++ lit " for url: " ++ url)
  else if ((500 <=? status) && (status <? 600))%Z then
    Some (str_of_int status ++ lit " Server Error: " ++ reason
            ++ lit " for url: " ++ url)
  else None.

Definition transport_msg (e : transport_error) : str :=
  match e with
  | Timeout msg | ConnectionError msg | OtherRequestException msg => msg
  end.

Section Client.
Context {W : World}.

(** apex.py lines 64-67: the rendered pairs, [None] values skipped. *)
Definition query_params (params : items) : list str :=
  flat_map
    (fun kv : str * pyval =>
       let (key, value) := kv in
       match value with
       | VNone => []
       | _ => [key ++ lit "=" ++ py_str value]
       end)
    (sorted params).

(** The canonical query string, ["&".join(query_params)] (lines 69, 70). *)
Definition canonical_query (params : items) : str :=
  join (lit "&") (query_params params).

(** [if params] for an [Optional[Dict]]. *)
Definition params_truthy (params : option items) : bool :=
  match params with
  | None | Some [] => false
  | Some (_ :: _) => true
  end.

(** apex.py lines 59-70: the [path] and [query_string] locals when the
    signature is computed. *)
Definition path_and_query (method endpoint : str) (params : option items)
  : str * str :=
  let path := lit "/v3" ++ endpoint in
  let query_string : str := [] in
  if str_eqb method (lit "GET") && params_truthy params then
    let query_params :=
      query_params (match params with Some p => p | None => [] end) in
    match query_params with
    | _ :: _ =>
        (path ++ lit "?" ++ join (lit "&") query_params,
         lit "&" ++ join (lit "&") query_params)
    | [] => (path, query_string)
    end
  else (path, query_string).

(** apex.py lines 94-96: the handler of [RequestException]. *)
Definition request_failed (e : str) : M pyval :=
  print (Line (lit "API request failed: " ++ e)) ;;;
  ret (VDict []).

(** apex.py lines 74-80. *)
Definition request_headers (self : ApexBalanceChecker)
    (signature timestamp : str) : list (str * str) :=
  [(lit "APEX-SIGNATURE", signature);
   (lit "APEX-TIMESTAMP", timestamp);
   (lit "APEX-API-KEY", api_key self);
   (lit "APEX-PASSPHRASE", passphrase self);
   (lit "Content-Type", lit "application/json")].

(** apex.py lines 86-89: the call made, [requests.get] for GET and
    [requests.post] with [json=params or {}] for every other method. *)
Definition build_request (method url : str) (headers : list (str * str))
    (params : option items) (timeout : Z) : http_request :=
  if str_eqb method (lit "GET") then
    {| verb := GET; url := url; headers := headers;
       json := None; timeout := timeout |}
  else
    {| verb := POST; url := url; headers := headers;
       json := Some (VDict (match params with Some p => p | None => [] end));
       timeout := timeout |}.

(** apex.py lines 84-96: the [try] statement. *)
Definition try_request (method url : str) (headers : list (str * str))
    (params : option items) : M pyval :=
  timeout <- lift (int_getenv (lit "REQUEST_TIMEOUT") 30) ;;
  fun st =>
    let st' := {| tick := S (tick st); stdout := stdout st |} in
    match http (tick st) (build_request method url headers params timeout) with
    | Crashes e => (Raise e, st')
    | Fails e => request_failed (transport_msg e) st'
    | Response status reason response_url body =>
        match raise_for_status status reason response_url with
        | Some e => request_failed e st'
        | None =>
            match body with
            | Json v => (Ok v, st')
            | NotJson e => request_failed e st'
            end
        end
    end.

(** The [message] that line 72 has signed. *)
Definition signed_message (timestamp method endpoint : str)
    (params : option items) : str :=
  let '(path, query_string) := path_and_query method endpoint params in
  message timestamp method path query_string.

(** apex.py lines 56-96. *)
Definition _make_request (self : ApexBalanceChecker) (method endpoint : str)
    (params : option items) : M pyval :=
  fun st =>
    let timestamp := str_of_int (time_ms (tick st)) in
    let '(path, query_string) := path_and_query method endpoint params in
    match _generate_signature self timestamp method path query_string with
    | Raise e => (Raise e, st)
    | Ok signature =>
        let headers := request_headers self signature timestamp in
        let url := base_url self ++ path in
        try_request method url headers params st
    end.

(** apex.py lines 98-100. *)
Definition get_account_data (self : ApexBalanceChecker) : M pyval :=
  _make_request self (lit "GET") (lit "/account") None.

(** apex.py lines 102-104. *)
Definition get_account_balance (self : ApexBalanceChecker) : M pyval :=
  _make_request self (lit "GET") (lit "/account-balance") None.

End Client.

(* ================================================================== *)
(** * The balance aggregator: [ApexBalanceChecker.calculate_total_balance] *)

(** The dict stored per wallet (apex.py lines 140-145 and 166-171). *)
Record wallet_record : Type := {
  balance : float;
  available : float;
  pending_deposit : float;
  pending_withdraw : float
}.

(** apex.py lines 187-193. *)
Record position_info : Type := {
  symbol : pyval;
  side : pyval;
  size : float;
  entry_price : float;
  value : float
}.

(** apex.py lines 206-210. *)
Record totals : Type := {
  spot_total : num;
  contract_total : num;
  combined_liquid_assets : num
}.

(** The [result] dict (apex.py lines 118-125, 199-210).  The two margin
    keys exist only once line 202 and 203 have run. *)
Record report : Type := {
  timestamp : str;
  spot_balances : pydict wallet_record;
  contract_balances : pydict wallet_record;
  total_equity : num;
  available_balance : num;
  positions_summary : list position_info;
  initial_margin : option float;
  maintenance_margin : option float;
  calculated_totals : totals
}.

(** What [calculate_total_balance] returns: [{}] or the report. *)
Inductive balance_report : Type :=
| EmptyReport
| Report (r : report).

Definition newline : str := [10%N].

(** [float(n)] for a number. *)
Definition num_float (n : num) : result float :=
  match n with
  | NInt z => float_of_int z
  | NFloat f => Ok f
  end.

(** [a + b] on numbers. *)
Definition num_add (a b : num) : result num :=
  match a, b with
  | NInt x, NInt y => Ok (NInt (x + y))
  | _, _ =>
      let? x := num_float a in
      let? y := num_float b in
      Ok (NFloat (x + y))
  end.

(** [token in ["1", "17", "140"]] (apex.py line 148). *)
Definition stablecoin (token : pyval) : bool :=
  match token with
  | VStr s => existsb (str_eqb s) [lit "1"; lit "17"; lit "140"]
  | _ => false
  end.

(** [for x in xs: body], threading the variables the body assigns. *)
Fixpoint for_each {A S} (xs : list A) (body : S -> A -> M S) (s : S) : M S :=
  match xs with
  | [] => ret s
  | x :: xs' => s' <- body s x ;; for_each xs' body s'
  end.

Section Aggregator.
Context {W : World}.

(** [float(obj.get(key, 0))]. *)
Definition float_field (obj : pyval) (key : str) : result float :=
  let? v := py_get obj key (VInt 0) in
  py_float v.

(** apex.py lines 134-145, and the same statements at lines 160-171. *)
Definition wallet_amounts (wallet : pyval) : result wallet_record :=
  let? balance := float_field wallet (lit "balance") in
  let? pending_deposit := float_field wallet (lit "pendingDepositAmount") in
  let? pending_withdraw := float_field wallet (lit "pendingWithdrawAmount") in
  let available := (balance - pending_withdraw + pending_deposit)%float in
  Ok {| balance := balance;
        available := available;
        pending_deposit := pending_deposit;
        pending_withdraw := pending_withdraw |}.

(** The wallets a loop goes through: [account_data.get(key, [])], iterated. *)
Definition wallets_of (account_data : pyval) (key : str) : list pyval :=
  match (let? v := py_get account_data key (VList []) in py_iter v) with
  | Ok wallets => wallets
  | Raise _ => []
  end.

(** apex.py lines 133-151: one turn of the spot loop, on
    [result["spot_balances"]] and [total_spot_value]. *)
Definition spot_step (acc : pydict wallet_record * num) (wallet : pyval)
  : M (pydict wallet_record * num) :=
  let '(spot_balances, total_spot_value) := acc in
  token <- lift (py_get wallet (lit "tokenId") (VStr (lit "Unknown"))) ;;
  rec <- lift (wallet_amounts wallet) ;;
  spot_balances <- lift (setitem spot_balances token rec) ;;
  total_spot_value <-
    lift (if stablecoin token
          then num_add total_spot_value (NFloat (available rec))
          else Ok total_spot_value) ;;
  print (WalletLine token (balance rec) (available rec)) ;;;
  ret (spot_balances, total_spot_value).

(** apex.py lines 159-174: one turn of the contract loop. *)
Definition contract_step (acc : pydict wallet_record * num) (wallet : pyval)
  : M (pydict wallet_record * num) :=
  let '(contract_balances, total_contract_value) := acc in
  asset <- lift (py_get wallet (lit "asset") (VStr (lit "Unknown"))) ;;
  rec <- lift (wallet_amounts wallet) ;;
  contract_balances <- lift (setitem contract_balances asset rec) ;;
  total_contract_value <-
    lift (num_add total_contract_value (NFloat (available rec))) ;;
  print (WalletLine asset (balance rec) (available rec)) ;;;
  ret (contract_balances, total_contract_value).

(** apex.py lines 181-196: one turn of the positions loop. *)
Definition position_step (positions_summary : list position_info)
    (position : pyval) : M (list position_info) :=
  sz <- lift (float_field position (lit "size")) ;;
  if negb (PrimFloat.eqb sz 0) then
    symbol <- lift (py_get position (lit "symbol") (VStr (lit "Unknown"))) ;;
    side <- lift (py_get position (lit "side") (VStr (lit "Unknown"))) ;;
    size <- lift (float_field position (lit "size")) ;;
    entry_price <- lift (float_field position (lit "entryPrice")) ;;
    let position_info :=
      {| symbol := symbol; side := side; size := size;
         entry_price := entry_price; value := (size * entry_price)%float |} in
    print (PositionLine symbol side size entry_price) ;;;
    ret (positions_summary ++ [position_info])
  else ret positions_summary.

(** apex.py lines 114-212: the body of [calculate_total_balance] once the
    two responses are fetched. *)
Definition aggregate (account_data balance_data : pyval) : M balance_report :=
  if negb (truthy account_data) || negb (truthy balance_data) then
    print (Line (lit "Failed to fetch account data")) ;;;
    ret EmptyReport
  else
    timestamp <- (fun st => (Ok (now_isoformat (tick st)), st)) ;;
    (* spot wallets *)
    spot_wallets <- lift (py_get account_data (lit "spotWallets") (VList [])) ;;
    print (Line (newline ++ lit "=== SPOT ACCOUNT (OMNI) BALANCES ===")) ;;;
    wallets <- lift (py_iter spot_wallets) ;;
    spot <- for_each wallets spot_step ([], NInt 0) ;;
    let '(spot_balances, total_spot_value) := spot in
    (* contract wallets *)
    contract_wallets <-
      lift (py_get account_data (lit "contractWallets") (VList [])) ;;
    print (Line (newline ++ lit "=== CONTRACT ACCOUNT (PERPETUAL) BALANCES ===")) ;;;
    wallets <- lift (py_iter contract_wallets) ;;
    contract <- for_each wallets contract_step ([], NInt 0) ;;
    let '(contract_balances, total_contract_value) := contract in
    (* positions *)
    positions <- lift (py_get account_data (lit "positions") (VList [])) ;;
    print (Line (newline ++ lit "=== OPEN POSITIONS ===")) ;;;
    positions <- lift (py_iter positions) ;;
    positions_summary <- for_each positions position_step [] ;;
    (* summary from the balance endpoint *)
    summary <-
      (if truthy balance_data then
         total_equity <- lift (float_field balance_data (lit "totalEquityValue")) ;;
         available_balance <- lift (float_field balance_data (lit "availableBalance")) ;;
         initial_margin <- lift (float_field balance_data (lit "initialMargin")) ;;
         maintenance_margin <- lift (float_field balance_data (lit "maintenanceMargin")) ;;
         ret (NFloat total_equity, NFloat available_balance,
              Some initial_margin, Some maintenance_margin)
       else ret (NInt 0, NInt 0, None, None)) ;;
    let '(total_equity, available_balance, initial_margin, maintenance_margin) :=
      summary in
    (* totals *)
    combined <- lift (num_add total_spot_value total_contract_value) ;;
    ret (Report
           {| timestamp := timestamp;
              spot_balances := spot_balances;
              contract_balances := contract_balances;
              total_equity := total_equity;
              available_balance := available_balance;
              positions_summary := positions_summary;
              initial_margin := initial_margin;
              maintenance_margin := maintenance_margin;
              calculated_totals :=
                {| spot_total := total_spot_value;
                   contract_total := total_contract_value;
                   combined_liquid_assets := combined |} |}).

(** apex.py lines 106-212. *)
Definition calculate_total_balance (self : ApexBalanceChecker)
  : M balance_report :=
  print (Line (lit "Fetching account data...")) ;;;
  account_data <- get_account_data self ;;
  balance_data <- get_account_balance self ;;
  aggregate account_data balance_data.

End Aggregator.

(* ================================================================== *)
(** * The deposit script: the account poll loop (deposit.py lines 40-52) *)

Module Deposit.

(** The SDK client: what the [call]-th [client.get_account_v3()] returns
    or raises. *)
Class Sdk : Type := {
  get_account_v3 : forall (call : nat), result pyval
}.

(** The state of the script: lookups made, [time.sleep] calls and lines
    printed (latest first). *)
Record state : Type := {
  lookups : nat;
  sleeps : list Z;
  stdout : list output
}.

Definition max_attempts : Z := 20.

(** [account is None]. *)
Definition is_None (v : pyval) : bool :=
  match v with
  | VNone => true
  | _ => false
  end.

(** The line printed after an empty-handed lookup (deposit.py line 47). *)
Definition waiting_line (attempt : Z) : output :=
  Line (lit "...still waiting (attempt " ++ str_of_int (attempt + 1)
          ++ lit "/" ++ str_of_int max_attempts ++ lit ")").

(** The state after [n] empty-handed turns of the loop, the first of them
    with counter [attempt]: per turn one lookup, one line, one sleep of 6. *)
Fixpoint waited (n : nat) (attempt : Z) (st : state) : state :=
  match n with
  | O => st
  | S n' =>
      waited n' (attempt + 1)%Z
        {| lookups := S (lookups st);
           sleeps := 6%Z :: sleeps st;
           stdout := waiting_line attempt :: stdout st |}
  end.

Section Poll.
Context {C : Sdk}.

(** deposit.py lines 44-49: the [while] loop on [account] and [attempt].
    [None]: the loop is still running when [fuel] turns are done. *)
Fixpoint poll (fuel : nat) (account : pyval) (attempt : Z) (st : state)
  : option (result (pyval * Z) * state) :=
  if is_None account && (attempt <? max_attempts)%Z then
    match fuel with
    | O => None
    | S fuel' =>
        let st1 := {| lookups := S (lookups st); sleeps := sleeps st;
                      stdout := stdout st |} in
        match get_account_v3 (lookups st) with
        | Raise e => Some (Raise e, st1)
        | Ok account' =>
            let st2 :=
              if is_None account' then
                {| lookups := lookups st1;
                   sleeps := 6%Z :: sleeps st1;
                   stdout := waiting_line attempt :: stdout st1 |}
              else st1 in
            poll fuel' account' (attempt + 1)%Z st2
        end
    end
  else Some (Ok (account, attempt), st).

(** The state once line 43 has printed. *)
Definition started (st : state) : state :=
  {| lookups := lookups st; sleeps := sleeps st;
     stdout := Line (lit "Fetching account...") :: stdout st |}.

(** The message of the [ValueError] of line 52. *)
Definition failure_message : str :=
  lit "Failed to fetch account after " ++ str_of_int max_attempts
    ++ lit " attempts. Ensure registration is complete and keys are valid.".

(** deposit.py lines 40-52.  [Ok account]: the script goes on to line 54
    and the deposit. *)
Definition poll_account (fuel : nat) (st : state)
  : option (result pyval * state) :=
  let account := VNone in
  let attempt := 0%Z in
  match poll fuel account attempt (started st) with
  | None => None
  | Some (Raise e, st') => Some (Raise e, st')
  | Some (Ok (account, _), st') =>
      if is_None account then Some (Raise (ValueError (Some failure_message)), st')
      else Some (Ok account, st')
  end.

End Poll.

Definition initial : state := {| lookups := 0; sleeps := []; stdout := [] |}.

(** An SDK whose lookup never finds the account. *)
Definition never : Sdk := {| get_account_v3 := fun _ => Ok VNone |}.

(** An SDK whose lookup finds [account] at the call numbered [n] (from 0)
    and nothing before. *)
Definition found_at (n : nat) (account : pyval) : Sdk :=
  {| get_account_v3 := fun call => if Nat.ltb call n then Ok VNone else Ok account |}.

End Deposit.

(* ================================================================== *)
(** * Inputs of the examples *)

(** The spot wallet of the specification's example. *)
Definition example_wallet : pyval :=
  VDict [(lit "tokenId", VStr (lit "1"));
         (lit "balance", VStr (lit "100.5"));
         (lit "pendingDepositAmount", VStr (lit "0"));
         (lit "pendingWithdrawAmount", VStr (lit "10"))].

Definition example_account : pyval :=
  VDict [(lit "spotWallets", VList [example_wallet])].

(* ================================================================== *)
(** * A concrete world, to run the model *)

Module Demo.

(** The value of a decimal digit. *)
Definition digit_value (c : N) : option Z :=
  if ((48 <=? c) && (c <=? 57))%N then Some (Z.of_N c - 48)%Z else None.

(** [digits] read as a decimal numeral after the prefix value [acc]. *)
Fixpoint numeral (acc : Z) (digits : str) : option Z :=
  match digits with
  | [] => Some acc
  | c :: rest =>
      match digit_value c with
      | Some d => numeral (10 * acc + d) rest
      | None => None
      end
  end.

(** The text before and after the first ["."]. *)
Fixpoint split_point (s : str) : str * option str :=
  match s with
  | [] => ([], None)
  | c :: rest =>
      if (c =? 46)%N then ([], Some rest)
      else let (a, b) := split_point rest in (c :: a, b)
  end.

(** [float(s)] on a plain decimal literal [d.d] of at most fifteen digits:
    mantissa and power of ten are doubles, and one IEEE division rounds
    their quotient correctly.  Every other string is refused. *)
Definition decimal_float (s : str) : option float :=
  let (int_part, frac) := split_point s in
  let frac_part := match frac with Some f => f | None => [] end in
  match int_part ++ frac_part with
  | [] => None
  | all_digits =>
      if Nat.ltb 15 (List.length all_digits) then None
      else
        match numeral 0 all_digits with
        | None => None
        | Some m =>
            match float_of_int m,
                  float_of_int (10 ^ Z.of_nat (List.length frac_part)) with
            | Ok fm, Ok fp => Some (fm / fp)%float
            | _, _ => None
            end
        end
  end.

(** [int(s)] on a plain decimal numeral. *)
Definition decimal_int (s : str) : option Z :=
  match s with
  | [] => None
  | _ => numeral 0 s
  end.

(** A world with a fixed clock, no environment variables, and the HTTP
    exchanges [h].  Its [float] and [int] know plain decimal literals
    only, on which they agree with Python's. *)
Definition world (h : nat -> http_request -> http_outcome) : World :=
  {| time_ms := fun _ => 1700000000000%Z;
     now_isoformat := fun _ => lit "2023-11-14T22:13:20";
     getenv := fun _ => None;
     http := h;
     float_of_str := decimal_float;
     int_of_str := decimal_int;
     str_of_other := fun _ => lit "?" |}.

(** A server that answers every request with status 200 and [body]. *)
Definition always (body : pyval) : nat -> http_request -> http_outcome :=
  fun _ request => Response 200 (lit "OK") (url request) (Json body).

(** A server that answers 300 Multiple Choices, with a JSON payload. *)
Definition multiple_choices : nat -> http_request -> http_outcome :=
  fun _ request =>
    Response 300 (lit "Multiple Choices") (url request)
      (Json (VDict [(lit "choices", VList [VStr (lit "/v3/account")])])).

(** A server that answers 503. *)
Definition unavailable : nat -> http_request -> http_outcome :=
  fun _ request =>
    Response 503 (lit "Service Unavailable") (url request) (NotJson (lit "")).

(** A balance summary with one field. *)
Definition summary : pyval :=
  VDict [(lit "totalEquityValue", VStr (lit "250.75"))].

(** A spot wallet that leaves out its three amounts. *)
Definition bare_wallet : pyval := VDict [(lit "tokenId", VStr (lit "1"))].



(** A spot wallet of an asset outside the allow-list. *)
Definition other_wallet : pyval :=
  VDict [(lit "tokenId", VStr (lit "36")); (lit "balance", VStr (lit "7.25"))].

Definition account_of (spot_wallets : list pyval) : pyval :=
  VDict [(lit "spotWallets", VList spot_wallets)].

(** An account with one spot wallet, one contract wallet, an open position
    and a closed one. *)
Definition full_account : pyval :=
  VDict [(lit "spotWallets", VList [example_wallet]);
         (lit "contractWallets",
          VList [VDict [(lit "asset", VStr (lit "USDT"));
                        (lit "balance", VStr (lit "20.25"))]]);
         (lit "positions",
          VList [VDict [(lit "symbol", VStr (lit "BTC-USDT"));
                        (lit "side", VStr (lit "LONG"));
                        (lit "size", VStr (lit "0.5"));
                        (lit "entryPrice", VStr (lit "30000"))];
                 VDict [(lit "symbol", VStr (lit "ETH-USDT"));
                        (lit "side", VStr (lit "SHORT"));
                        (lit "size", VStr (lit "0"));
                        (lit "entryPrice", VStr (lit "2000"))]])].

(** A checker for the main network. *)
Definition checker : ApexBalanceChecker :=
  __init__ (lit "key") (lit "s3cr3t") (lit "pass") false.

Definition state0 : state := {| tick := 0; stdout := [] |}.

End Demo.

(* ================================================================== *)
(** * Vocabulary of the properties *)

Section Vocabulary.
Context {W : World}.

(** An entry of the parameters is rendered when its value is not [None]. *)
Definition present (kv : str * pyval) : bool :=
  match snd kv with
  | VNone => false
  | _ => true
  end.

(** One rendered entry, [k=v]. *)
Definition render (kv : str * pyval) : str :=
  fst kv ++ lit "=" ++ py_str (snd kv).

(** Entries ordered by key, lexicographically. *)
Definition key_lt (a b : str * pyval) : Prop :=
  str_ltb (fst a) (fst b) = true.

(** The canonical query string as the specification words it: the entries
    with a value, sorted by key, each rendered [k=v], joined by [&]. *)
Definition is_canonical (params : items) (qs : str) : Prop :=
  exists entries,
    Permutation entries (filter present params) /\
    StronglySorted key_lt entries /\
    qs = join (lit "&") (map render entries).

(** A transport failure the client handles: [requests] raised a
    [RequestException] (timeout, connection error, ...), or the status of
    the response is a client or server error. *)
Definition transport_failure (o : http_outcome) : Prop :=
  match o with
  | Fails _ => True
  | Response status _ _ _ => (400 <= status < 600)%Z
  | Crashes _ => False
  end.

(** The identifier under which the spot loop files a wallet (line 133). *)
Definition token_of (wallet : pyval) : pyval :=
  match py_get wallet (lit "tokenId") (VStr (lit "Unknown")) with
  | Ok token => token
  | Raise _ => VNone
  end.

(** The [available] value the loop computes for a wallet (line 138). *)
Definition available_of (wallet : pyval) : float :=
  match wallet_amounts wallet with
  | Ok rec => available rec
  | Raise _ => 0%float
  end.

(** A wallet whose identifier is in the allow-list of line 148. *)
Definition allow_listed (wallet : pyval) : bool := stablecoin (token_of wallet).

(** The total of line 149 when every wallet of [wallets] is added in
    turn, starting from [start]. *)
Definition sum_available (start : num) (wallets : list pyval) : result num :=
  fold_left
    (fun acc wallet => let? total := acc in num_add total (NFloat (available_of wallet)))
    wallets (Ok start).

(** The formula of lines 138 and 164. *)
Definition available_formula (rec : wallet_record) : Prop :=
  available rec = (balance rec - pending_withdraw rec + pending_deposit rec)%float.



End Vocabulary.

(* ================================================================== *)
(** * Vocabulary of the further properties *)

Section AggregatorVocabulary.
Context {W : World}.

(** The positions the loop of apex.py line 180 goes through. *)
Definition positions_of (account_data : pyval) : list pyval :=
  wallets_of account_data (lit "positions").

(** The test of line 181, [float(position.get("size", 0)) != 0]; [false]
    when the conversion raises. *)
Definition open_position (position : pyval) : bool :=
  match float_field position (lit "size") with
  | Ok sz => negb (PrimFloat.eqb sz 0)
  | Raise _ => false
  end.

(** The dict built for a position at lines 182-193. *)
Definition position_entry (position : pyval) : result position_info :=
  let? symbol := py_get position (lit "symbol") (VStr (lit "Unknown")) in
  let? side := py_get position (lit "side") (VStr (lit "Unknown")) in
  let? size := float_field position (lit "size") in
  let? entry_price := float_field position (lit "entryPrice") in
  Ok {| symbol := symbol; side := side; size := size;
        entry_price := entry_price; value := (size * entry_price)%float |}.

(** The identifier under which the contract loop files a wallet (line 159). *)
Definition asset_of (wallet : pyval) : pyval :=
  match py_get wallet (lit "asset") (VStr (lit "Unknown")) with
  | Ok asset => asset
  | Raise _ => VNone
  end.

End AggregatorVocabulary.

(** The key of an entry of a dict built by the code. *)
Definition entry_key {V} (e : pyval * hkey * V) : hkey := snd (fst e).

(** A computation that makes no request and only adds lines to the
    output, whether it returns or raises. *)
Definition prints_only {A} (m : M A) : Prop :=
  forall st,
    tick (snd (m st)) = tick st
    /\ exists out, stdout (snd (m st)) = out ++ stdout st.

(* ================================================================== *)
(** * The report printer and the command line: [print_summary], [main] *)

(** What the interpreter and the machine decide for the printer and for
    [main], beside the [World]. *)
Class Console : Type := {
  (** [f"{x:,.2f}"] for a float *)
  format_amount : float -> str;
  (** [s.lower()] *)
  str_lower : str -> str;
  (** [s.strip()] *)
  str_strip : str -> str;
  (** [input(prompt)]: the line read, or the [str()] of the exception it
      raises (at the end of the input, say) *)
  input : str -> str + str;
  (** [int(time.time())] *)
  time_s : Z;
  (** [os.path.join(a, b)] *)
  path_join : str -> str -> str;
  (** [os.makedirs(path, exist_ok=True)]: [Some e] when it raises an
      exception whose [str()] is [e] *)
  makedirs : str -> option str;
  (** [with open(filename, 'w') as f: json.dump(report, f, indent=2)]:
      [Some e] when it raises *)
  dump : str -> report -> option str;
  (** [str(e)] for an exception *)
  str_of_exn : exn -> str
}.

(** ["=" * 60]. *)
Definition rule : str := List.concat (repeat (lit "=") 60).

(** The sign that opens the error lines of [main] (U+274C). *)
Definition cross : str := [0x274C%N].

Section Printer.
Context {C : Console}.

(** [print(f"label${amount:,.2f}")]: an [int] is turned into a float before
    it is formatted, which raises when it is too large. *)
Definition print_amount (label : str) (amount : num) : M unit :=
  x <- lift (num_float amount) ;;
  print (Line (label ++ lit "$" ++ format_amount x)).

(** [balance_data.get(key, 0)] for a key that line 201 and 202 may not
    have set. *)
Definition margin (field : option float) : num :=
  match field with
  | Some x => NFloat x
  | None => NInt 0
  end.

(** [len([p for p in positions if p["size"] != 0])]. *)
Definition active_positions (positions : list position_info) : list position_info :=
  filter (fun p => negb (PrimFloat.eqb (size p) 0)) positions.

(** apex.py lines 214-242.  A report holds every key the printer reads but
    the two margins, whose default is the [int] 0. *)
Definition print_summary (self : ApexBalanceChecker)
    (balance_data : balance_report) : M unit :=
  match balance_data with
  | EmptyReport => print (Line (lit "No balance data available"))
  | Report r =>
      print (Line (newline ++ rule)) ;;;
      print (Line (lit "           APEX OMNI BALANCE SUMMARY")) ;;;
      print (Line rule) ;;;
      print_amount (lit "Total Account Equity:     ") (total_equity r) ;;;
      print_amount (lit "Available Balance:        ") (available_balance r) ;;;
      print_amount (lit "Initial Margin Used:      ") (margin (initial_margin r)) ;;;
      print_amount (lit "Maintenance Margin:       ") (margin (maintenance_margin r)) ;;;
      let calc_totals := calculated_totals r in
      print (Line (newline ++ lit "BREAKDOWN:")) ;;;
      print_amount (lit "Spot Account (Omni):      ") (spot_total calc_totals) ;;;
      print_amount (lit "Contract Account (Perp):  ") (contract_total calc_totals) ;;;
      print_amount (lit "Combined Liquid Assets:   ") (combined_liquid_assets calc_totals) ;;;
      let positions := positions_summary r in
      print (Line (newline ++ lit "Active Positions:         "
                     ++ str_of_int (Z.of_nat (List.length (active_positions positions))))) ;;;
      print (Line rule)
  end.

End Printer.

(** The state of the machine [main] runs on: the process, and the calls of
    [os.makedirs] and of [open] for writing made so far (latest first). *)
Record machine : Type := {
  process : state;
  directories : list str;
  files : list (str * report)
}.

(** An exception that [except Exception] catches: one of the model, or any
    other, with its [str()]. *)
Inductive exception : Type :=
| Builtin (e : exn)
| Other (msg : str).

Definition with_process (m : machine) (p : state) : machine :=
  {| process := p; directories := directories m; files := files m |}.

(** [print(line)] on the machine. *)
Definition say (line : str) (m : machine) : machine :=
  with_process m
    {| tick := tick (process m); stdout := Line line :: stdout (process m) |}.

Section Main.
Context {W : World} {C : Console}.

(** [os.getenv(name, default)]. *)
Definition getenv_default (name default : str) : str :=
  match getenv name with
  | Some v => v
  | None => default
  end.

(** [os.getenv(name, 'false').lower() == 'true']. *)
Definition flag (name : str) : bool :=
  str_eqb (str_lower (getenv_default name (lit "false"))) (lit "true").

(** [str(e)] in the handler of line 312. *)
Definition str_of_exception (e : exception) : str :=
  match e with
  | Builtin e => str_of_exn e
  | Other msg => msg
  end.

(** apex.py lines 289-307: the saving of a report.  [Some e]: the
    exception raised. *)
Definition save_report (r : report) (m : machine) : option exception * machine :=
  let auto_save := flag (lit "AUTO_SAVE_REPORTS") in
  match (if auto_save then inl (lit "y")
         else match input (newline ++ lit "Save detailed data to JSON file? (y/n): ") with
              | inl line => inl (str_strip (str_lower line))
              | inr e => inr e
              end) with
  | inr e => (Some (Other e), m)
  | inl save_to_file =>
      if str_eqb save_to_file (lit "y") then
        let reports_dir := getenv_default (lit "REPORTS_DIR") (lit "./reports") in
        let m1 := {| process := process m;
                     directories := reports_dir :: directories m;
                     files := files m |} in
        match makedirs reports_dir with
        | Some e => (Some (Other e), m1)
        | None =>
            let filename :=
              path_join reports_dir
                (lit "apex_balance_" ++ str_of_int time_s ++ lit ".json") in
            let m2 := {| process := process m1;
                         directories := directories m1;
                         files := (filename, r) :: files m1 |} in
            match dump filename r with
            | Some e => (Some (Other e), m2)
            | None => (None, say (lit "Data saved to " ++ filename) m2)
            end
        end
      else (None, m)
  end.

(** apex.py lines 277-310: the body of the [try] statement. *)
Definition main_try (API_KEY SECRET PASSPHRASE : str) (IS_TESTNET : bool)
    (m : machine) : option exception * machine :=
  let checker := __init__ API_KEY SECRET PASSPHRASE IS_TESTNET in
  let m :=
    say (lit "Using " ++ (if IS_TESTNET then lit "TESTNET" else lit "MAINNET")
           ++ lit " environment") m in
  match calculate_total_balance checker (process m) with
  | (Raise e, p) => (Some (Builtin e), with_process m p)
  | (Ok EmptyReport, p) =>
      (None, say (cross ++ lit " Failed to retrieve balance data") (with_process m p))
  | (Ok (Report r), p) =>
      match print_summary checker (Report r) p with
      | (Raise e, p') => (Some (Builtin e), with_process m p')
      | (Ok _, p') => save_report r (with_process m p')
      end
  end.

(** [all([API_KEY, SECRET, PASSPHRASE])]: every variable is set, to a text
    that is not empty. *)
Definition all_set (values : list (option str)) : bool :=
  forallb (fun v => match v with Some (_ :: _) => true | _ => false end) values.

(** apex.py lines 259-265. *)
Definition credentials_missing (m : machine) : machine :=
  (say (newline ++ lit "Please check your .env file and ensure all credentials are set.") (
    say (lit "- IS_TESTNET (optional, defaults to false)") (
    say (lit "- APEX_PASSPHRASE") (
    say (lit "- APEX_SECRET") (
    say (lit "- APEX_API_KEY") (
    say (newline ++ lit "Required environment variables:") (
    say (cross ++ lit " Missing API credentials in environment variables!") m))))))).

(** apex.py lines 269-273. *)
Definition credentials_placeholder (m : machine) : machine :=
  (say (lit "3. Update your .env file with the actual values") (
    say (lit "2. Click 'Generate API' to create new credentials") (
    say (lit "1. Go to https://omni.apex.exchange/keyManagement (or testnet version)") (
    say (newline ++ lit "To get your credentials:") (
    say (cross ++ lit " Please update your .env file with actual API credentials!") m))))).

(** apex.py lines 313-317: the handler of [except Exception as e]. *)
Definition troubleshooting (e : exception) (m : machine) : machine :=
  (say (lit "3. Check if you're using the right environment (testnet vs mainnet)") (
    say (lit "2. Ensure your API key has the required permissions") (
    say (lit "1. Check your .env file contains correct API credentials") (
    say (newline ++ lit "Troubleshooting:") (
    say (cross ++ lit " Error: " ++ str_of_exception e) m))))).

(** apex.py lines 245-317.  [main] returns [None] on every path. *)
Definition main (m : machine) : machine :=
  let API_KEY := getenv (lit "APEX_API_KEY") in
  let SECRET := getenv (lit "APEX_SECRET") in
  let PASSPHRASE := getenv (lit "APEX_PASSPHRASE") in
  let IS_TESTNET := flag (lit "IS_TESTNET") in
  match API_KEY, SECRET, PASSPHRASE with
  | Some api_key, Some secret, Some passphrase =>
      if negb (all_set [API_KEY; SECRET; PASSPHRASE]) then credentials_missing m
      else if str_eqb api_key (lit "your-api-key-here") then
        credentials_placeholder m
      else
        match main_try api_key secret passphrase IS_TESTNET m with
        | (None, m') => m'
        | (Some e, m') => troubleshooting e m'
        end
  | _, _, _ => credentials_missing m
  end.

End Main.

(* ================================================================== *)
(** * The deposit script as a whole (deposit.py lines 16-75) *)

Module Script.
Import Deposit.

(** The rest of the SDK client, whose package is outside this repository:
    each call returns, or raises an exception. *)
Class Client : Type := {
  (** what [deposit_to_exchange] returns *)
  tx_hash : Type;
  (** [HttpPrivateSign(APEX_OMNI_HTTP_TEST, network_id=NETWORKID_TEST, ...)] *)
  HttpPrivateSign :
    forall (eth_private_key zk_seeds zk_l2Key key secret passphrase : str),
      option exception;
  (** [client.configs_v3()] *)
  configs_v3 : option exception;
  (** [client.eth.deposit_to_exchange(position_id, amount)] *)
  deposit_to_exchange : forall (position_id : pyval) (amount : float),
      exception + tx_hash;
  (** [client.eth.wait_for_tx(tx)] *)
  wait_for_tx : tx_hash -> option exception
}.

Section Run.
Context {W : World} {K : Sdk} {C : Client}.

(** The state of the whole script: that of the poll loop, whether the
    client has been built, and the deposits asked for and the transactions
    waited for so far (latest first). *)
Record run : Type := {
  polled : Deposit.state;
  connected : bool;
  deposits : list (pyval * float);
  waits : list tx_hash
}.

(** [print(line)]. *)
Definition tell (line : str) (st : run) : run :=
  {| polled := {| lookups := lookups (polled st);
                  sleeps := sleeps (polled st);
                  stdout := Line line :: Deposit.stdout (polled st) |};
     connected := connected st;
     deposits := deposits st;
     waits := waits st |}.

(** The amount of line 69, [0.1]. *)
Definition amount : float := 0x1.999999999999ap-4%float.

(** deposit.py lines 54-75: what the script does with the account. *)
Definition deposit (account : pyval) (st : run) : option exception * run :=
  let st := tell (lit "Account fetched:" ++ lit " " ++ py_str account) st in
  match py_get account (lit "id") VNone with
  | Raise e => (Some (Builtin e), st)
  | Ok position_id =>
      let st := {| polled := polled st; connected := connected st;
                   deposits := (position_id, amount) :: deposits st;
                   waits := waits st |} in
      match deposit_to_exchange position_id amount with
      | inl e => (Some e, st)
      | inr deposit_tx_hash =>
          let st := tell (lit "Waiting for deposit...") st in
          let st := {| polled := polled st; connected := connected st;
                       deposits := deposits st;
                       waits := deposit_tx_hash :: waits st |} in
          match wait_for_tx deposit_tx_hash with
          | Some e => (Some e, st)
          | None =>
              (None,
               tell (lit "Deposit complete. Check your account balance.")
                 (tell (lit "...done.") st))
          end
      end
  end.

(** deposit.py lines 16-75.  [Some e]: the script ends with the exception
    [e]; the outer [None]: the poll loop is still running when [fuel]
    turns are done. *)
Definition script (fuel : nat) (st : run) : option (option exception * run) :=
  let st := tell (lit "Hello, apexomni") st in
  let priKey := getenv (lit "ETH_PRIVATE_KEY") in
  let seeds := getenv_default (lit "ZK_SEEDS") (lit "") in
  let l2Key := getenv_default (lit "ZK_L2_KEY") (lit "") in
  let key := getenv_default (lit "API_KEY") (lit "") in
  let secret := getenv_default (lit "API_SECRET") (lit "") in
  let passphrase := getenv_default (lit "API_PASSPHRASE") (lit "") in
  match priKey with
  | None | Some [] =>
      Some (Some (Builtin (ValueError
              (Some (lit "ETH_PRIVATE_KEY environment variable is required")))),
            st)
  | Some priKey =>
      let st := tell (lit "Environment variables loaded successfully") st in
      let st := {| polled := polled st; connected := true;
                   deposits := deposits st; waits := waits st |} in
      match HttpPrivateSign priKey seeds l2Key key secret passphrase with
      | Some e => Some (Some e, st)
      | None =>
          match configs_v3 with
          | Some e => Some (Some e, st)
          | None =>
              match poll_account fuel (polled st) with
              | None => None
              | Some (r, p) =>
                  let st := {| polled := p; connected := connected st;
                               deposits := deposits st; waits := waits st |} in
                  match r with
                  | Raise e => Some (Some (Builtin e), st)
                  | Ok account => Some (deposit account st)
                  end
              end
          end
      end
  end.

End Run.

End Script.

(* ================================================================== *)
(** * Vocabulary of the properties of [main] and of the script *)

(** A total of the aggregator: the [int] 0 it starts from, or a float. *)
Definition is_total (n : num) : Prop := n = NInt 0 \/ exists x, n = NFloat x.

(** An environment variable that [all] of apex.py line 258 takes as
    missing: not set, or set to the empty text. *)
Definition unset (v : option str) : Prop := v = None \/ v = Some [].

Section MainVocabulary.
Context {W : World} {C : Console}.

(** The user has asked for the report file: AUTO_SAVE_REPORTS is on, or
    the answer to the question of line 295 is [y] once lowered and
    stripped. *)
Definition consent : Prop :=
  flag (lit "AUTO_SAVE_REPORTS") = true
  \/ exists line,
      input (newline ++ lit "Save detailed data to JSON file? (y/n): ") = inl line
      /\ str_strip (str_lower line) = lit "y".

End MainVocabulary.

(** The lookups made are those of the poll loop: the rest of the script
    makes none. *)
Definition polled_lookups_kept (before after : Deposit.state) : Prop :=
  Deposit.lookups after = Deposit.lookups before.

(* ================================================================== *)
(** * Vocabulary of the amount fields *)

Section AmountVocabulary.
Context {W : World}.

(** The three amount fields of a wallet, in the order in which lines
    134-136 (and 160-162) read them. *)
Definition amount_keys : list str :=
  [lit "balance"; lit "pendingDepositAmount"; lit "pendingWithdrawAmount"].

(** The exception of the first field of [keys], in that order, that is
    present with a value that [float] rejects; [None] when every field is
    missing or converted. *)
Fixpoint first_rejection (fields : list (str * pyval)) (keys : list str)
  : option exn :=
  match keys with
  | [] => None
  | key :: keys' =>
      match lookup key fields with
      | Some v =>
          match py_float v with
          | Raise e => Some e
          | Ok _ => first_rejection fields keys'
          end
      | None => first_rejection fields keys'
      end
  end.

(** A wallet that a loop gets through: a dict whose three amounts are
    missing or converted by [float], and whose identifier can be the key
    of a dict. *)
Definition processable (identifier : pyval -> pyval) (wallet : pyval) : Prop :=
  exists fields k,
    wallet = VDict fields
    /\ first_rejection fields amount_keys = None
    /\ hash_key (identifier wallet) = Some k.


End AmountVocabulary.

(* ================================================================== *)
(** * More worlds, to run the model *)

Module Cases.

(** The world of [Demo.world] with one environment variable, [name], set
    to [setting]. *)
Definition setting_world (name setting : str)
    (h : nat -> http_request -> http_outcome) : World :=
  {| time_ms := fun _ => 1700000000000%Z;
     now_isoformat := fun _ => lit "2023-11-14T22:13:20";
     getenv := fun n => if str_eqb n name then Some setting else None;
     http := h;
     float_of_str := Demo.decimal_float;
     int_of_str := Demo.decimal_int;
     str_of_other := fun _ => lit "?" |}.

(** The world of [Demo.world] with REQUEST_TIMEOUT set to [setting]. *)
Definition timeout_world (setting : str)
    (h : nat -> http_request -> http_outcome) : World :=
  setting_world (lit "REQUEST_TIMEOUT") setting h.

(** The world of [Demo.world] with the three credentials set. *)
Definition credentials_world (key secret passphrase : str)
    (h : nat -> http_request -> http_outcome) : World :=
  {| time_ms := fun _ => 1700000000000%Z;
     now_isoformat := fun _ => lit "2023-11-14T22:13:20";
     getenv := fun n =>
       if str_eqb n (lit "APEX_API_KEY") then Some key
       else if str_eqb n (lit "APEX_SECRET") then Some secret
       else if str_eqb n (lit "APEX_PASSPHRASE") then Some passphrase
       else None;
     http := h;
     float_of_str := Demo.decimal_float;
     int_of_str := Demo.decimal_int;
     str_of_other := fun _ => lit "?" |}.

(** A checker whose secret holds a lone surrogate. *)
Definition surrogate_checker : ApexBalanceChecker :=
  __init__ (lit "key") (lit "s3cr" ++ [0xD800%N]) (lit "pass") false.

(** [s.lower()] on the ASCII letters. *)
Definition ascii_lower (s : str) : str :=
  map (fun c => if ((65 <=? c) && (c <=? 90))%N then (c + 32)%N else c) s.

(** ASCII white space. *)
Definition is_space (c : N) : bool :=
  ((c =? 32) || ((9 <=? c) && (c <=? 13)))%N.

Fixpoint lstrip (s : str) : str :=
  match s with
  | c :: rest => if is_space c then lstrip rest else s
  | [] => []
  end.

(** [s.strip()] for ASCII white space. *)
Definition ascii_strip (s : str) : str := rev (lstrip (rev (lstrip s))).

(** A console whose user types [answer], on a machine whose disk never
    fails; amounts are shown without their digits. *)
Definition console (answer : str) : Console :=
  {| format_amount := fun _ => lit "#.##";
     str_lower := ascii_lower;
     str_strip := ascii_strip;
     input := fun _ => inl answer;
     time_s := 1700000000%Z;
     path_join := fun a b => a ++ lit "/" ++ b;
     makedirs := fun _ => None;
     dump := fun _ _ => None;
     str_of_exn := fun _ => lit "error" |}.

Definition machine0 : machine :=
  {| process := Demo.state0; directories := []; files := [] |}.

(** An SDK whose lookup finds nothing before the call numbered [n] (from
    0) and raises [e] from then on. *)
Definition fails_at (n : nat) (e : exn) : Deposit.Sdk :=
  {| Deposit.get_account_v3 :=
       fun call => if Nat.ltb call n then Ok VNone else Raise e |}.

(** A client whose calls all return. *)
Definition client : Script.Client :=
  {| Script.tx_hash := str;
     Script.HttpPrivateSign := fun _ _ _ _ _ _ => None;
     Script.configs_v3 := None;
     Script.deposit_to_exchange := fun _ _ => inr (lit "0xabc");
     Script.wait_for_tx := fun _ => None |}.

(** An account with the position 42. *)
Definition account : pyval := VDict [(lit "id", VStr (lit "42"))].

End Cases.

(* ================================================================== *)
(** * Reference vectors for the library functions *)

(** RFC 4648, section 10. *)
Example base64_rfc4648 :
  map (fun s => string_of_list_byte (Base64.standard_b64encode (list_byte_of_string s)))
      ["f"; "fo"; "foo"; "foob"; "fooba"; "foobar"]%string
  = ["Zg=="; "Zm8="; "Zm9v"; "Zm9vYg=="; "Zm9vYmE="; "Zm9vYmFy"]%string.
Proof. vm_compute. reflexivity. Qed.

(** FIPS 180-4, section 4.2.2: the first and the last round constant. *)
Example sha256_constants :
  List.length SHA256.K = 64
  /\ nth 0 SHA256.K 0%Z = 0x428a2f98%Z /\ nth 63 SHA256.K 0%Z = 0xc67178f2%Z
  /\ nth 0 SHA256.H0 0%Z = 0x6a09e667%Z /\ nth 7 SHA256.H0 0%Z = 0x5be0cd19%Z.
Proof. vm_compute. repeat split. Qed.

(** FIPS 180-4: SHA-256 of "abc", as big-endian words. *)
Example sha256_abc :
  SHA256.words (SHA256.digest (list_byte_of_string "abc"))
  = [0xba7816bf; 0x8f01cfea; 0x414140de; 0x5dae2223;
     0xb00361a3; 0x96177a9c; 0xb410ff61; 0xf20015ad]%Z.
Proof. vm_compute. reflexivity. Qed.

(** SHA-256 of the empty message. *)
Example sha256_empty :
  SHA256.words (SHA256.digest [])
  = [0xe3b0c442; 0x98fc1c14; 0x9afbf4c8; 0x996fb924;
     0x27ae41e4; 0x649b934c; 0xa495991b; 0x7852b855]%Z.
Proof. vm_compute. reflexivity. Qed.

(** HMAC-SHA256 with key "key" over the usual pangram. *)
Example hmac_sha256_pangram :
  SHA256.words
    (HMAC.hmac_sha256 (list_byte_of_string "key")
       (list_byte_of_string "The quick brown fox jumps over the lazy dog"))
  = [0xf7bc83f4; 0x30538424; 0xb13298e6; 0xaa6fb143;
     0xef4d59a1; 0x49461759; 0x97479dbc; 0x2d1a3cd8]%Z.
Proof. vm_compute. reflexivity. Qed.

(** UTF-8 of U+0041, U+00E9, U+20AC and U+1F600. *)
Example utf8_samples :
  Utf8.encode [0x41; 0xE9; 0x20AC; 0x1F600]%N
  = Ok [x41; xc3; xa9; xe2; x82; xac; xf0; x9f; x98; x80].
Proof. vm_compute. reflexivity. Qed.

(** A lone surrogate cannot be encoded. *)
Example utf8_surrogate : Utf8.encode [0x41; 0xD800]%N = Raise UnicodeEncodeError.
Proof. vm_compute. reflexivity. Qed.

(* ================================================================== *)
(** * The signer *)

Lemma encode_app (a b : str) :
  Utf8.encode (a ++ b)
  = (let? x := Utf8.encode a in let? y := Utf8.encode b in Ok (x ++ y)).
Proof.
  induction a as [|c a IH]; simpl.
  - destruct (Utf8.encode b); reflexivity.
  - destruct (Utf8.encode_char c) as [bc|e]; simpl; [|reflexivity].
    rewrite IH.
    destruct (Utf8.encode a) as [ba|e]; simpl; [|reflexivity].
    destruct (Utf8.encode b) as [bb|e]; simpl; [|reflexivity].
    now rewrite app_assoc.
Qed.

Lemma encode_char_scalar (c : N) :
  Utf8.scalar c -> exists b, Utf8.encode_char c = Ok b.
Proof.
  intros [Hmax Hsur]. unfold Utf8.encode_char.
  destruct (c <? 128)%N; [eauto|].
  destruct (c <? 2048)%N; [eauto|].
  destruct ((55296 <=? c) && (c <=? 57343))%N eqn:S.
  - apply andb_true_iff in S as [S1 S2].
    apply N.leb_le in S1, S2. now destruct Hsur.
  - destruct (c <? 65536)%N; [eauto|].
    apply N.ltb_lt in Hmax. rewrite Hmax. eauto.
Qed.

Lemma encode_scalar (s : str) :
  Forall Utf8.scalar s -> exists b, Utf8.encode s = Ok b.
Proof.
  induction 1 as [|c s Hc _ [bs IH]]; simpl.
  - eauto.
  - destruct (encode_char_scalar Hc) as [bc ->]. rewrite IH. simpl. eauto.
Qed.

(** The signature in terms of the encoded parts. *)
Lemma generate_signature_bytes (self : ApexBalanceChecker)
    (timestamp method path data : str) (sb tb mb pb db : bytes) :
  Utf8.encode (secret self) = Ok sb ->
  Utf8.encode timestamp = Ok tb ->
  Utf8.encode method = Ok mb ->
  Utf8.encode path = Ok pb ->
  Utf8.encode data = Ok db ->
  _generate_signature self timestamp method path data
  = Ok (Utf8.decode_ascii
          (Base64.standard_b64encode
             (HMAC.hmac_sha256 (Base64.standard_b64encode sb)
                (tb ++ mb ++ pb ++ db)))).
Proof.
  intros Hs Ht Hm Hp Hd.
  unfold _generate_signature, sign_message, message.
  rewrite Hs. simpl.
  rewrite !encode_app, Ht, Hm, Hp, Hd. reflexivity.
Qed.

(** C1.  For strings Python can encode (no lone surrogate),
    [_generate_signature] returns
    base64(HMAC-SHA256(base64(secret bytes), timestamp ++ method ++ path ++ body)):
    the message is the bare concatenation of the four encoded parts, with
    no separator.  The function takes no world and no state, and two runs
    on the same five strings give the same result. *)
Theorem generate_signature_spec :
  forall (self : ApexBalanceChecker) (timestamp method path body : str),
    Forall Utf8.scalar (secret self) ->
    Forall Utf8.scalar timestamp ->
    Forall Utf8.scalar method ->
    Forall Utf8.scalar path ->
    Forall Utf8.scalar body ->
    (exists secret_bytes t m p b,
        Utf8.encode (secret self) = Ok secret_bytes /\
        Utf8.encode timestamp = Ok t /\
        Utf8.encode method = Ok m /\
        Utf8.encode path = Ok p /\
        Utf8.encode body = Ok b /\
        _generate_signature self timestamp method path body
        = Ok (Utf8.decode_ascii
                (Base64.standard_b64encode
                   (HMAC.hmac_sha256 (Base64.standard_b64encode secret_bytes)
                      (t ++ m ++ p ++ b)))))
    /\ (forall r1 r2,
           _generate_signature self timestamp method path body = r1 ->
           _generate_signature self timestamp method path body = r2 ->
           r1 = r2).
Proof.
  intros self timestamp method path body Hs Ht Hm Hp Hb. split.
  - destruct (encode_scalar Hs) as [sb Es], (encode_scalar Ht) as [tb Et],
      (encode_scalar Hm) as [mb Em], (encode_scalar Hp) as [pb Ep],
      (encode_scalar Hb) as [bb Eb].
    exists sb, tb, mb, pb, bb. repeat (split; [assumption|]).
    now apply generate_signature_bytes.
  - intros r1 r2 <- <-. reflexivity.
Qed.

(** An ASCII literal is made of scalar values. *)
Lemma lit_scalar (s : string) : Forall Utf8.scalar (lit s).
Proof.
  unfold lit. induction s as [|a s IH]; simpl; constructor; [|exact IH].
  assert (N_of_ascii a < 256)%N by apply N_ascii_bounded.
  unfold Utf8.scalar. lia.
Qed.

Lemma generate_signature_spec_witness :
  Forall Utf8.scalar (secret Demo.checker) /\
  exists secret_bytes t m p b,
    Utf8.encode (secret Demo.checker) = Ok secret_bytes /\
    Utf8.encode (lit "1700000000000") = Ok t /\
    Utf8.encode (lit "GET") = Ok m /\
    Utf8.encode (lit "/v3/account") = Ok p /\
    Utf8.encode (lit "") = Ok b /\
    _generate_signature Demo.checker (lit "1700000000000") (lit "GET")
      (lit "/v3/account") (lit "")
    = Ok (Utf8.decode_ascii
            (Base64.standard_b64encode
               (HMAC.hmac_sha256 (Base64.standard_b64encode secret_bytes)
                  (t ++ m ++ p ++ b)))).
Proof.
  split; [apply lit_scalar|].
  apply (generate_signature_spec Demo.checker
           (timestamp := lit "1700000000000") (method := lit "GET")
           (path := lit "/v3/account") (body := lit ""));
    apply lit_scalar.
Defined.

(** The signature of a request, computed: the value Python's [hmac],
    [hashlib] and [base64] give for the same inputs. *)
Example signature_value :
  _generate_signature Demo.checker (lit "1700000000000") (lit "GET")
    (lit "/v3/account") (lit "")
  = Ok (lit "Z/H5v1NJacaoHfEQQcW/5lz7Q1jsaj0r5MqfcZjXYrY=").
Proof. vm_compute. reflexivity. Qed.

(* ================================================================== *)
(** * Query canonicalization *)

Lemma str_ltb_irrefl (a : str) : str_ltb a a = false.
Proof.
  induction a as [|x a IH]; simpl; [reflexivity|].
  rewrite N.ltb_irrefl, N.eqb_refl, IH. reflexivity.
Qed.

Lemma str_ltb_trans (a b c : str) :
  str_ltb a b = true -> str_ltb b c = true -> str_ltb a c = true.
Proof.
  revert b c. induction a as [|x a IH]; intros [|y b] [|z c]; simpl;
    try discriminate; try reflexivity.
  rewrite !orb_true_iff, !andb_true_iff, !N.ltb_lt, !N.eqb_eq.
  intros [H1|[H1 H1']] [H2|[H2 H2']].
  - left. lia.
  - left. lia.
  - left. lia.
  - right. split; [lia|]. eapply IH; eassumption.
Qed.

Lemma str_ltb_total (a b : str) :
  str_ltb a b = false -> str_ltb b a = false -> a = b.
Proof.
  revert b. induction a as [|x a IH]; intros [|y b]; simpl;
    try discriminate; try reflexivity.
  rewrite !orb_false_iff, !andb_false_iff, !N.ltb_ge, !N.eqb_neq.
  intros [H1 H1'] [H2 H2'].
  assert (x = y) by lia. subst y. f_equal.
  apply IH.
  - destruct H1' as [H|H]; [congruence|exact H].
  - destruct H2' as [H|H]; [congruence|exact H].
Qed.

Lemma insert_item_perm (x : str * pyval) (l : items) :
  Permutation (x :: l) (insert_item x l).
Proof.
  induction l as [|y l IH]; simpl; [reflexivity|].
  destruct (str_leb (fst x) (fst y)); [reflexivity|].
  rewrite perm_swap. now apply perm_skip.
Qed.

Lemma sorted_perm (l : items) : Permutation l (sorted l).
Proof.
  induction l as [|x l IH]; simpl; [reflexivity|].
  rewrite <- insert_item_perm. now apply perm_skip.
Qed.

Lemma insert_item_sorted (x : str * pyval) (l : items) :
  StronglySorted key_lt l ->
  ~ In (fst x) (map fst l) ->
  StronglySorted key_lt (insert_item x l).
Proof.
  induction 1 as [|y l Hl IH Hy]; simpl; intros Hx.
  - repeat constructor.
  - unfold str_leb. destruct (str_ltb (fst y) (fst x)) eqn:E; simpl.
    + constructor.
      * apply IH. tauto.
      * rewrite <- insert_item_perm. constructor; assumption.
    + assert (Hxy : key_lt x y).
      { unfold key_lt. destruct (str_ltb (fst x) (fst y)) eqn:E'; [reflexivity|].
        exfalso. apply Hx. left. symmetry. now apply str_ltb_total. }
      constructor; [now constructor|].
      constructor; [exact Hxy|].
      eapply Forall_impl; [|exact Hy].
      intros z Hz. unfold key_lt in *. eapply str_ltb_trans; eassumption.
Qed.

Lemma sorted_sorted (l : items) :
  NoDup (map fst l) -> StronglySorted key_lt (sorted l).
Proof.
  induction l as [|x l IH]; simpl; intros H.
  - constructor.
  - inversion H as [|? ? Hx Hl]; subst.
    apply insert_item_sorted; [auto|].
    intros Hin. apply Hx.
    eapply Permutation_in; [|exact Hin].
    apply Permutation_map, Permutation_sym, sorted_perm.
Qed.

(** Two lists ordered by key with the same entries are one list. *)
Lemma key_sorted_unique (l1 l2 : items) :
  StronglySorted key_lt l1 -> StronglySorted key_lt l2 ->
  Permutation l1 l2 -> l1 = l2.
Proof.
  intros H1. revert l2.
  induction H1 as [|a l1 Hl1 IH Ha]; intros l2 H2 HP.
  - apply Permutation_nil in HP. now subst.
  - destruct H2 as [|b l2 Hl2 Hb].
    + symmetry in HP. apply Permutation_nil in HP. discriminate.
    + assert (a = b).
      { assert (Ia : In a (b :: l2))
          by (eapply Permutation_in; [exact HP|now left]).
        assert (Ib : In b (a :: l1))
          by (eapply Permutation_in; [symmetry; exact HP|now left]).
        destruct Ia as [->|Ia]; [reflexivity|].
        destruct Ib as [->|Ib]; [reflexivity|].
        rewrite Forall_forall in Ha, Hb.
        specialize (Ha _ Ib). specialize (Hb _ Ia). unfold key_lt in *.
        pose proof (str_ltb_trans _ _ _ Ha Hb) as C.
        rewrite str_ltb_irrefl in C. discriminate. }
      subst b. f_equal. apply IH; [exact Hl2|].
      eapply Permutation_cons_inv; exact HP.
Qed.

Lemma Permutation_filter' {A} (f : A -> bool) (l l' : list A) :
  Permutation l l' -> Permutation (filter f l) (filter f l').
Proof.
  induction 1 as [|x l l' _ IH|x y l|l l' l'' _ IH1 _ IH2]; simpl.
  - constructor.
  - destruct (f x); [now constructor|exact IH].
  - destruct (f x), (f y); try reflexivity. apply perm_swap.
  - now rewrite IH1.
Qed.

Lemma StronglySorted_filter {A} (R : A -> A -> Prop) (f : A -> bool) (l : list A) :
  StronglySorted R l -> StronglySorted R (filter f l).
Proof.
  induction 1 as [|a l _ IH Ha]; simpl; [constructor|].
  destruct (f a); [|exact IH].
  constructor; [exact IH|].
  rewrite Forall_forall in *. intros x Hx.
  apply filter_In in Hx. now apply Ha.
Qed.

Section Canonical.
Context {W : World}.

(** The loop of lines 65-67 is a filter and a map over the sorted items. *)
Lemma query_params_filter_map (params : items) :
  query_params params = map render (filter present (sorted params)).
Proof.
  unfold query_params. induction (sorted params) as [|[k v] l IH].
  - reflexivity.
  - cbn [flat_map filter]. rewrite IH.
    unfold present at 2. destruct v; reflexivity.
Qed.

Lemma canonical_query_is_canonical (params : items) :
  NoDup (map fst params) -> is_canonical params (canonical_query params).
Proof.
  intros H. exists (filter present (sorted params)). repeat split.
  - apply Permutation_filter', Permutation_sym, sorted_perm.
  - apply StronglySorted_filter, sorted_sorted, H.
  - unfold canonical_query. now rewrite query_params_filter_map.
Qed.

Lemma is_canonical_unique (params : items) (qs qs' : str) :
  is_canonical params qs -> is_canonical params qs' -> qs = qs'.
Proof.
  intros (l & Pl & Sl & ->) (l' & Pl' & Sl' & ->).
  rewrite (key_sorted_unique Sl Sl'); [reflexivity|].
  now rewrite Pl, Pl'.
Qed.

(** C2.  For a dict of GET parameters (distinct keys), the canonical query
    string is the entries whose value is not [None], sorted
    lexicographically by key, each rendered [k=v] and joined by [&];
    entries with a [None] value are left out; it is the only string of
    that description, and it does not depend on the order in which the
    dict holds its entries. *)
Theorem canonical_query_spec :
  forall (params : items),
    NoDup (map fst params) ->
    is_canonical params (canonical_query params)
    /\ (forall qs, is_canonical params qs -> qs = canonical_query params)
    /\ (forall params', Permutation params params' ->
                        canonical_query params' = canonical_query params).
Proof.
  intros params H. split; [|split].
  - now apply canonical_query_is_canonical.
  - intros qs Hqs. eapply is_canonical_unique; [exact Hqs|].
    now apply canonical_query_is_canonical.
  - intros params' HP.
    assert (H' : NoDup (map fst params'))
      by (eapply Permutation_NoDup; [apply Permutation_map; exact HP|exact H]).
    eapply is_canonical_unique; [|apply canonical_query_is_canonical; exact H].
    destruct (canonical_query_is_canonical _ H') as (l & Pl & Sl & E).
    exists l. repeat split; try assumption.
    rewrite Pl. apply Permutation_filter'. now symmetry.
Qed.

End Canonical.

Lemma canonical_query_spec_witness :
  let W := Demo.world (Demo.always VNone) in
  let params :=
    [(lit "symbol", VStr (lit "BTC-USDT")); (lit "limit", VInt 10);
     (lit "cursor", VNone); (lit "active", VBool true)] in
  NoDup (map fst params) /\
  canonical_query params = lit "active=True&limit=10&symbol=BTC-USDT" /\
  is_canonical params (canonical_query params) /\
  (forall params', Permutation params params' ->
                   canonical_query params' = canonical_query params).
Proof.
  intros W params.
  assert (H : NoDup (map fst params)).
  { repeat constructor; simpl; intros H;
      repeat (destruct H as [H|H]; [discriminate H|]); exact H. }
  split; [exact H|]. split; [vm_compute; reflexivity|].
  destruct (canonical_query_spec (W := W) params H) as (H1 & _ & H3).
  split; assumption.
Defined.

(* ================================================================== *)
(** * The request client *)

Lemma join_nil_inv (sep : str) (parts : list str) :
  Forall (fun p => p <> []) parts -> join sep parts = [] -> parts = [].
Proof.
  destruct parts as [|p [|q parts]]; simpl; intros H E.
  - reflexivity.
  - inversion H; subst. contradiction.
  - inversion H; subst. apply app_eq_nil in E as [E _]. contradiction.
Qed.

Section Request.
Context {W : World}.

Lemma query_params_nonempty (params : items) :
  Forall (fun p => p <> []) (query_params params).
Proof.
  rewrite query_params_filter_map. apply Forall_forall.
  intros p Hp. apply in_map_iff in Hp as ([k v] & <- & _).
  unfold render. cbn [fst snd]. intros E.
  apply app_eq_nil in E as [_ E]. discriminate E.
Qed.

(** What [_make_request] does, in terms of the message it signs. *)
Lemma make_request_signed (self : ApexBalanceChecker) (method endpoint : str)
    (params : option items) (st : state) :
  _make_request self method endpoint params st
  = let timestamp := str_of_int (time_ms (tick st)) in
    match sign_message (secret self)
            (signed_message timestamp method endpoint params) with
    | Raise e => (Raise e, st)
    | Ok signature =>
        try_request method
          (base_url self ++ fst (path_and_query method endpoint params))
          (request_headers self signature timestamp) params st
    end.
Proof.
  unfold _make_request, signed_message, _generate_signature.
  destruct (path_and_query method endpoint params) as [path query_string].
  reflexivity.
Qed.

Lemma path_and_query_get (endpoint : str) (params : items) :
  canonical_query params <> [] ->
  path_and_query (lit "GET") endpoint (Some params)
  = (lit "/v3" ++ endpoint ++ lit "?" ++ canonical_query params,
     lit "&" ++ canonical_query params).
Proof.
  intros H. unfold path_and_query, canonical_query in *.
  replace (str_eqb (lit "GET") (lit "GET")) with true by reflexivity.
  destruct params as [|kv params]; [now elim H|].
  cbn [params_truthy andb].
  destruct (query_params (kv :: params)) as [|q qs] eqn:E; [now elim H|].
  now rewrite <- app_assoc.
Qed.

(** C3.  For a GET request whose canonical query string [qs] is not
    empty, the message signed is
    timestamp ++ "GET" ++ "/v3" ++ endpoint ++ "?" ++ qs ++ "&" ++ qs:
    [qs] is appended to the path after [?] and passed again as the data
    component after [&].  [_make_request] sends the signature of exactly
    this message in its headers, to the URL that carries [?qs]. *)
Theorem get_request_signs_query_twice :
  forall (self : ApexBalanceChecker) (endpoint : str) (params : items)
         (st : state),
    canonical_query params <> [] ->
    let timestamp := str_of_int (time_ms (tick st)) in
    let qs := canonical_query params in
    let msg :=
      timestamp ++ lit "GET" ++ lit "/v3" ++ endpoint
        ++ lit "?" ++ qs ++ lit "&" ++ qs in
    signed_message timestamp (lit "GET") endpoint (Some params) = msg
    /\ _make_request self (lit "GET") endpoint (Some params) st
       = match sign_message (secret self) msg with
         | Raise e => (Raise e, st)
         | Ok signature =>
             try_request (lit "GET")
               (base_url self ++ lit "/v3" ++ endpoint ++ lit "?" ++ qs)
               (request_headers self signature timestamp) (Some params) st
         end.
Proof.
  intros self endpoint params st H timestamp qs msg.
  assert (E : signed_message timestamp (lit "GET") endpoint (Some params) = msg).
  { unfold signed_message. rewrite path_and_query_get by exact H.
    unfold message, msg, qs. now rewrite <- !app_assoc. }
  split; [exact E|].
  rewrite make_request_signed. cbv zeta. fold timestamp. rewrite E.
  rewrite path_and_query_get by exact H. reflexivity.
Qed.

Lemma path_and_query_post (endpoint : str) (params : option items) :
  path_and_query (lit "POST") endpoint params = (lit "/v3" ++ endpoint, []).
Proof. reflexivity. Qed.

(** C10.  For a POST request the data component of the signed message is
    empty, whatever the parameters: the message is
    timestamp ++ "POST" ++ "/v3" ++ endpoint, [_make_request] sends the
    signature of that message, and the parameters travel only as the JSON
    body of the call. *)
Theorem post_request_signs_no_body :
  forall (self : ApexBalanceChecker) (endpoint : str)
         (params : option items) (st : state),
    let timestamp := str_of_int (time_ms (tick st)) in
    let msg := timestamp ++ lit "POST" ++ lit "/v3" ++ endpoint in
    snd (path_and_query (lit "POST") endpoint params) = []
    /\ signed_message timestamp (lit "POST") endpoint params = msg
    /\ _make_request self (lit "POST") endpoint params st
       = match sign_message (secret self) msg with
         | Raise e => (Raise e, st)
         | Ok signature =>
             try_request (lit "POST") (base_url self ++ lit "/v3" ++ endpoint)
               (request_headers self signature timestamp) params st
         end
    /\ forall url headers timeout,
         json (build_request (lit "POST") url headers params timeout)
         = Some (VDict (match params with Some p => p | None => [] end)).
Proof.
  intros self endpoint params st timestamp msg.
  assert (E : signed_message timestamp (lit "POST") endpoint params = msg).
  { unfold signed_message. rewrite path_and_query_post.
    unfold message, msg. now rewrite app_nil_r. }
  repeat split.
  - exact E.
  - rewrite make_request_signed. cbv zeta. fold timestamp. rewrite E.
    rewrite path_and_query_post. reflexivity.
Qed.

(** C5, as amended.  Once the request is signed and the timeout read, if
    [requests] raises a [RequestException] (timeout, connection error or
    any other) or the response has a 4xx or 5xx status, the client prints
    "API request failed: ..." and returns the empty dict; it does not
    raise.  A response with any other status, 2xx or not, is no failure:
    its JSON payload is the result and nothing is printed. *)
Theorem transport_failure_returns_empty :
  forall (self : ApexBalanceChecker) (method endpoint : str)
         (params : option items) (st : state) (signature : str) (timeout : Z),
    let timestamp := str_of_int (time_ms (tick st)) in
    let path := fst (path_and_query method endpoint params) in
    let query_string := snd (path_and_query method endpoint params) in
    let outcome :=
      http (tick st)
        (build_request method (base_url self ++ path)
           (request_headers self signature timestamp) params timeout) in
    _generate_signature self timestamp method path query_string = Ok signature ->
    int_getenv (lit "REQUEST_TIMEOUT") 30 = Ok timeout ->
    (transport_failure outcome ->
     exists e,
       _make_request self method endpoint params st
       = (Ok (VDict []),
          {| tick := S (tick st);
             stdout := Line (lit "API request failed: " ++ e) :: stdout st |}))
    /\ (forall status reason response_url v,
           outcome = Response status reason response_url (Json v) ->
           ~ (400 <= status < 600)%Z ->
           _make_request self method endpoint params st
           = (Ok v, {| tick := S (tick st); stdout := stdout st |})).
Proof.
  intros self method endpoint params st signature timeout
    timestamp path query_string outcome Hsig Htimeout.
  assert (E : _make_request self method endpoint params st
              = match outcome with
                | Crashes e => (Raise e, {| tick := S (tick st); stdout := stdout st |})
                | Fails e =>
                    request_failed (transport_msg e)
                      {| tick := S (tick st); stdout := stdout st |}
                | Response status reason response_url body =>
                    match raise_for_status status reason response_url with
                    | Some e =>
                        request_failed e {| tick := S (tick st); stdout := stdout st |}
                    | None =>
                        match body with
                        | Json v => (Ok v, {| tick := S (tick st); stdout := stdout st |})
                        | NotJson e =>
                            request_failed e
                              {| tick := S (tick st); stdout := stdout st |}
                        end
                    end
                end).
  { unfold _make_request. fold timestamp.
    subst outcome path query_string.
    destruct (path_and_query method endpoint params) as [path query_string].
    cbn [fst snd] in *. rewrite Hsig.
    unfold try_request, bind, lift. rewrite Htimeout. reflexivity. }
  rewrite E. clear E. split.
  - intros Hfail.
    destruct outcome as [status reason response_url body|e|e]; cbn in Hfail.
    + unfold raise_for_status.
      destruct ((400 <=? status) && (status <? 500))%Z eqn:E4; [eexists; reflexivity|].
      destruct ((500 <=? status) && (status <? 600))%Z eqn:E5; [eexists; reflexivity|].
      rewrite andb_false_iff, Z.leb_gt, Z.ltb_ge in E4, E5. lia.
    + eexists. reflexivity.
    + contradiction.
  - intros status reason response_url v -> Hstatus.
    unfold raise_for_status.
    destruct ((400 <=? status) && (status <? 500))%Z eqn:E4;
      [rewrite andb_true_iff, Z.leb_le, Z.ltb_lt in E4; lia|].
    destruct ((500 <=? status) && (status <? 600))%Z eqn:E5;
      [rewrite andb_true_iff, Z.leb_le, Z.ltb_lt in E5; lia|].
    reflexivity.
Qed.

End Request.

(* ================================================================== *)
(** * The state monad *)

Lemma bind_ok {A B} (m : M A) (k : A -> M B) (st st' : state) (b : B) :
  bind m k st = (Ok b, st') ->
  exists a st1, m st = (Ok a, st1) /\ k a st1 = (Ok b, st').
Proof.
  unfold bind. destruct (m st) as [[a|e] st1]; [eauto|discriminate].
Qed.

Lemma lift_ok {A} (r : result A) (st st' : state) (a : A) :
  lift r st = (Ok a, st') -> r = Ok a /\ st' = st.
Proof. unfold lift. intros E. now inversion E. Qed.

Lemma rbind_ok {A B} (r : result A) (k : A -> result B) (b : B) :
  rbind r k = Ok b -> exists a, r = Ok a /\ k a = Ok b.
Proof. destruct r as [a|e]; simpl; [eauto|discriminate]. Qed.

(** Peel the first statement off a block that ran to the end. *)
Ltac step H :=
  let a := fresh "a" in
  let st1 := fresh "st" in
  let E := fresh "E" in
  apply bind_ok in H as (a & st1 & E & H);
  try (apply lift_ok in E as [E ->]).

(* ================================================================== *)
(** * Dicts built by the aggregator *)

Lemma hkey_eqb_refl (k : hkey) : hkey_eqb k k = true.
Proof. unfold hkey_eqb. now destruct (hkey_eq_dec k k). Qed.

Lemma hkey_eqb_neq (k k' : hkey) : k <> k' -> hkey_eqb k k' = false.
Proof. unfold hkey_eqb. now destruct (hkey_eq_dec k k'). Qed.

Lemma hkey_eqb_eq (k k' : hkey) : hkey_eqb k k' = true -> k = k'.
Proof. unfold hkey_eqb. now destruct (hkey_eq_dec k k'). Qed.

Lemma dict_get_put_same {V} (d : pydict V) (key : pyval) (k : hkey) (v : V) :
  dict_get (dict_put d key k v) k = Some v.
Proof.
  induction d as [|[[key' k'] v'] d IH]; simpl.
  - now rewrite hkey_eqb_refl.
  - destruct (hkey_eqb k' k) eqn:E; simpl; rewrite E; [reflexivity|exact IH].
Qed.

Lemma dict_get_put_other {V} (d : pydict V) (key : pyval) (k k' : hkey) (v : V) :
  k' <> k -> dict_get (dict_put d key k' v) k = dict_get d k.
Proof.
  intros N. induction d as [|[[key1 k1] v1] d IH]; simpl.
  - now rewrite hkey_eqb_neq.
  - destruct (hkey_eqb k1 k') eqn:E; simpl.
    + apply hkey_eqb_eq in E. subst k1. now rewrite hkey_eqb_neq.
    + now rewrite IH.
Qed.

(** An entry of a dict after [d[key] = v]: an older entry, or the value
    just stored. *)
Lemma dict_put_values {V} (P : V -> Prop) (d : pydict V) (key : pyval)
    (k : hkey) (v : V) :
  P v -> Forall (fun e => P (snd e)) d ->
  Forall (fun e => P (snd e)) (dict_put d key k v).
Proof.
  intros Hv. induction 1 as [|[[key' k'] v'] d Hx Hd IH]; simpl.
  - repeat constructor. exact Hv.
  - destruct (hkey_eqb k' k); constructor; auto.
Qed.

(* ================================================================== *)
(** * The balance aggregator *)

Section AggregatorProperties.
Context {W : World}.

Lemma wallet_amounts_formula (wallet : pyval) (rec : wallet_record) :
  wallet_amounts wallet = Ok rec -> available_formula rec.
Proof.
  unfold wallet_amounts. intros H.
  apply rbind_ok in H as (b & _ & H).
  apply rbind_ok in H as (pd & _ & H).
  apply rbind_ok in H as (pw & _ & H).
  inversion H. reflexivity.
Qed.

(** One turn of the spot loop that ran to its end. *)
Lemma spot_step_ok (d d' : pydict wallet_record) (total total' : num)
    (wallet : pyval) (st st' : state) :
  spot_step (d, total) wallet st = (Ok (d', total'), st') ->
  exists k rec,
    hash_key (token_of wallet) = Some k /\
    wallet_amounts wallet = Ok rec /\
    d' = dict_put d (token_of wallet) k rec /\
    (if allow_listed wallet
     then num_add total (NFloat (available rec)) = Ok total'
     else total' = total) /\
    st' = {| tick := tick st;
             stdout := WalletLine (token_of wallet) (balance rec) (available rec)
                         :: stdout st |}.
Proof.
  unfold spot_step. intros H.
  step H. step H. step H. step H. step H.
  unfold print in E3. inversion E3; subst. clear E3.
  unfold ret in H. inversion H; subst. clear H.
  unfold allow_listed, token_of. rewrite E.
  unfold setitem in E1. destruct (hash_key a) as [k|] eqn:K; [|discriminate].
  inversion E1; subst. exists k, a0. repeat split; try assumption.
  destruct (stablecoin a); [exact E2|now inversion E2].
Qed.

(** One turn of the contract loop that ran to its end. *)
Lemma contract_step_ok (d d' : pydict wallet_record) (total total' : num)
    (wallet : pyval) (st st' : state) :
  contract_step (d, total) wallet st = (Ok (d', total'), st') ->
  exists asset k rec,
    py_get wallet (lit "asset") (VStr (lit "Unknown")) = Ok asset /\
    hash_key asset = Some k /\
    wallet_amounts wallet = Ok rec /\
    d' = dict_put d asset k rec /\
    num_add total (NFloat (available rec)) = Ok total'.
Proof.
  unfold contract_step. intros H.
  step H. step H. step H. step H. step H.
  unfold ret in H. inversion H; subst. clear H.
  unfold setitem in E1. destruct (hash_key a) as [k|] eqn:K; [|discriminate].
  inversion E1; subst. exists a, k, a0. repeat split; assumption.
Qed.

(** Every record filed by the spot loop is the record of one of its
    wallets. *)
Lemma spot_loop_records (P : wallet_record -> Prop) (wallets : list pyval) :
  (forall wallet rec, In wallet wallets -> wallet_amounts wallet = Ok rec -> P rec) ->
  forall d total st d' total' st',
    Forall (fun e => P (snd e)) d ->
    for_each wallets spot_step (d, total) st = (Ok (d', total'), st') ->
    Forall (fun e => P (snd e)) d'.
Proof.
  induction wallets as [|w wallets IH]; intros HP d total st d' total' st' Hd H.
  - inversion H; subst. exact Hd.
  - cbn [for_each] in H. step H. destruct a as [d1 total1].
    apply spot_step_ok in E as (k & rec & _ & Hrec & -> & _).
    eapply IH; [| |exact H].
    + intros w' rec' Hin. apply HP. now right.
    + apply dict_put_values; [|exact Hd]. eapply HP; [now left|exact Hrec].
Qed.

Lemma contract_loop_records (P : wallet_record -> Prop) (wallets : list pyval) :
  (forall wallet rec, In wallet wallets -> wallet_amounts wallet = Ok rec -> P rec) ->
  forall d total st d' total' st',
    Forall (fun e => P (snd e)) d ->
    for_each wallets contract_step (d, total) st = (Ok (d', total'), st') ->
    Forall (fun e => P (snd e)) d'.
Proof.
  induction wallets as [|w wallets IH]; intros HP d total st d' total' st' Hd H.
  - inversion H; subst. exact Hd.
  - cbn [for_each] in H. step H. destruct a as [d1 total1].
    apply contract_step_ok in E as (asset & k & rec & _ & _ & Hrec & -> & _).
    eapply IH; [| |exact H].
    + intros w' rec' Hin. apply HP. now right.
    + apply dict_put_values; [|exact Hd]. eapply HP; [now left|exact Hrec].
Qed.

(** The total of the spot loop: the allow-listed wallets, added in turn. *)
Lemma spot_loop_total (wallets : list pyval) :
  forall d total st d' total' st',
    for_each wallets spot_step (d, total) st = (Ok (d', total'), st') ->
    sum_available total (filter allow_listed wallets) = Ok total'.
Proof.
  induction wallets as [|w wallets IH]; intros d total st d' total' st' H.
  - inversion H; subst. reflexivity.
  - cbn [for_each] in H. step H. destruct a as [d1 total1].
    apply spot_step_ok in E as (k & rec & _ & Hrec & _ & Htotal & _).
    apply IH in H. cbn [filter].
    destruct (allow_listed w).
    + unfold sum_available in *. cbn [fold_left rbind].
      unfold available_of. rewrite Hrec, Htotal. exact H.
    + now subst total1.
Qed.

(** A key filed by the spot loop stays in the dict. *)
Lemma spot_loop_keeps (wallets : list pyval) (k : hkey) :
  forall d total st d' total' st' rec,
    dict_get d k = Some rec ->
    for_each wallets spot_step (d, total) st = (Ok (d', total'), st') ->
    (exists rec', dict_get d' k = Some rec') /\
    ((forall w, In w wallets -> hash_key (token_of w) <> Some k) ->
     dict_get d' k = Some rec).
Proof.
  induction wallets as [|w wallets IH]; intros d total st d' total' st' rec Hd H.
  - inversion H; subst. eauto.
  - cbn [for_each] in H. step H. destruct a as [d1 total1].
    apply spot_step_ok in E as (k1 & rec1 & Hk1 & _ & -> & _).
    destruct (hkey_eq_dec k1 k) as [->|N].
    + destruct (IH _ _ _ _ _ _ rec1 (dict_get_put_same d (token_of w) k rec1) H)
        as [Hex _].
      split; [exact Hex|]. intros Hno. exfalso. eapply Hno; [now left|exact Hk1].
    + assert (Hd1 : dict_get (dict_put d (token_of w) k1 rec1) k = Some rec)
        by (rewrite dict_get_put_other; assumption).
      destruct (IH _ _ _ _ _ _ rec Hd1 H) as [Hex Hsame].
      split; [exact Hex|]. intros Hno. apply Hsame.
      intros w' Hin. apply Hno. now right.
Qed.

(** Every wallet of the spot loop leaves a record under its identifier:
    its own, unless a later wallet carries the same identifier. *)
Lemma spot_loop_files (pre post : list pyval) (wallet : pyval) :
  forall d total st d' total' st',
    for_each (pre ++ wallet :: post) spot_step (d, total) st
    = (Ok (d', total'), st') ->
    exists k rec,
      hash_key (token_of wallet) = Some k /\
      dict_get d' k = Some rec /\
      ((forall w, In w post -> hash_key (token_of w) <> Some k) ->
       wallet_amounts wallet = Ok rec).
Proof.
  induction pre as [|w pre IH]; intros d total st d' total' st' H.
  - cbn [app for_each] in H. step H. destruct a as [d1 total1].
    apply spot_step_ok in E as (k & rec & Hk & Hrec & -> & _).
    destruct (@spot_loop_keeps post k _ _ _ _ _ _ rec
                (dict_get_put_same d (token_of wallet) k rec) H)
      as [[rec' Hex] Hsame].
    exists k, rec'. repeat split; [exact Hk|exact Hex|].
    intros Hno. specialize (Hsame Hno). congruence.
  - cbn [app for_each] in H. step H. destruct a as [d1 total1].
    eapply IH. exact H.
Qed.

(** ** The report as a whole *)

Lemma aggregate_report (account_data balance_data : pyval) (st st' : state)
    (r : report) :
  aggregate account_data balance_data st = (Ok (Report r), st') ->
  truthy account_data = true /\ truthy balance_data = true /\
  (exists st1 st2,
      for_each (wallets_of account_data (lit "spotWallets")) spot_step
        ([], NInt 0) st1
      = (Ok (spot_balances r, spot_total (calculated_totals r)), st2)) /\
  (exists st1 st2,
      for_each (wallets_of account_data (lit "contractWallets")) contract_step
        ([], NInt 0) st1
      = (Ok (contract_balances r, contract_total (calculated_totals r)), st2)) /\
  (exists positions st1 st2,
      (let? v := py_get account_data (lit "positions") (VList []) in py_iter v)
      = Ok positions /\
      for_each positions position_step [] st1 = (Ok (positions_summary r), st2)) /\
  (exists te ab im mm,
      float_field balance_data (lit "totalEquityValue") = Ok te /\
      float_field balance_data (lit "availableBalance") = Ok ab /\
      float_field balance_data (lit "initialMargin") = Ok im /\
      float_field balance_data (lit "maintenanceMargin") = Ok mm /\
      total_equity r = NFloat te /\ available_balance r = NFloat ab /\
      initial_margin r = Some im /\ maintenance_margin r = Some mm) /\
  num_add (spot_total (calculated_totals r)) (contract_total (calculated_totals r))
  = Ok (combined_liquid_assets (calculated_totals r)).
Proof.
  unfold aggregate. intros H.
  destruct (truthy account_data) eqn:Ta; cbn [negb orb] in H.
  2:{ step H. inversion H. }
  destruct (truthy balance_data) eqn:Tb; cbn [negb orb] in H.
  2:{ step H. inversion H. }
  step H. step H. step H. step H. step H. destruct a3 as [sb ts].
  step H. step H. step H. step H. destruct a6 as [cb tc].
  step H. step H. step H. step H. step H.
  step E12. step E12. step E12. step E12.
  inversion E12; subst. clear E12.
  step H. inversion H; subst. clear H.
  assert (Ws : wallets_of account_data (lit "spotWallets") = a2)
    by (unfold wallets_of; rewrite E0; cbn [rbind]; now rewrite E2).
  assert (Wc : wallets_of account_data (lit "contractWallets") = a5)
    by (unfold wallets_of; rewrite E4; cbn [rbind]; now rewrite E6).
  rewrite Ws, Wc, E8. cbn.
  repeat split; eauto 12.
Qed.

(** [calculate_total_balance] is [aggregate] on the two responses it has
    fetched. *)
Lemma calculate_total_balance_aggregate (self : ApexBalanceChecker)
    (st st' : state) (rep : balance_report) :
  calculate_total_balance self st = (Ok rep, st') ->
  exists account_data balance_data st1 st2,
    get_account_data self
      {| tick := tick st;
         stdout := Line (lit "Fetching account data...") :: stdout st |}
    = (Ok account_data, st1)
    /\ get_account_balance self st1 = (Ok balance_data, st2)
    /\ aggregate account_data balance_data st2 = (Ok rep, st').
Proof.
  unfold calculate_total_balance. intros H.
  step H. unfold print in E. inversion E; subst; clear E.
  step H. step H. eauto 8.
Qed.

(** One turn of the positions loop keeps a property of the summary that
    holds of every position with a size other than 0. *)
Lemma position_loop_sizes (positions : list pyval) :
  forall summary st summary' st',
    Forall (fun p => PrimFloat.eqb (size p) 0 = false) summary ->
    for_each positions position_step summary st = (Ok summary', st') ->
    Forall (fun p => PrimFloat.eqb (size p) 0 = false) summary'.
Proof.
  induction positions as [|p positions IH]; intros summary st summary' st' Hs H.
  - inversion H; subst. exact Hs.
  - cbn [for_each] in H. step H.
    eapply IH; [|exact H].
    unfold position_step in E. step E.
    destruct (PrimFloat.eqb a0 0) eqn:Z0; cbn [negb] in E.
    + inversion E; subst. exact Hs.
    + step E. step E. step E. step E. step E.
      inversion E; subst; clear E.
      apply Forall_app. split; [exact Hs|].
      constructor; [|constructor]. cbn [size]. congruence.
Qed.

(** X1.  The computed totals add up: combined_liquid_assets is
    spot_total + contract_total. *)
Theorem combined_is_spot_plus_contract :
  forall (account_data balance_data : pyval) (st st' : state) (r : report),
    aggregate account_data balance_data st = (Ok (Report r), st') ->
    num_add (spot_total (calculated_totals r)) (contract_total (calculated_totals r))
    = Ok (combined_liquid_assets (calculated_totals r)).
Proof.
  intros account_data balance_data st st' r H.
  now apply aggregate_report in H as (_ & _ & _ & _ & _ & _ & H).
Qed.

(** X2.  A position of size 0 never appears in positions_summary. *)
Theorem zero_size_positions_left_out :
  forall (account_data balance_data : pyval) (st st' : state) (r : report),
    aggregate account_data balance_data st = (Ok (Report r), st') ->
    Forall (fun p => PrimFloat.eqb (size p) 0 = false) (positions_summary r).
Proof.
  intros account_data balance_data st st' r H.
  apply aggregate_report in H as (_ & _ & _ & _ & (ps & p1 & p2 & _ & H) & _).
  eapply position_loop_sizes; [constructor|exact H].
Qed.

(** C8.  When the account data or the balance data is empty or missing
    (any falsy value: [{}], [None], ...), aggregation prints "Failed to
    fetch account data" and returns the empty report [{}]; it does not
    raise.  In particular for [account_data = {}]. *)
Theorem aggregate_empty_input :
  forall (account_data balance_data : pyval) (st : state),
    truthy account_data = false \/ truthy balance_data = false ->
    aggregate account_data balance_data st
    = (Ok EmptyReport,
       {| tick := tick st;
          stdout := Line (lit "Failed to fetch account data") :: stdout st |}).
Proof.
  intros account_data balance_data st H. unfold aggregate.
  destruct H as [-> | ->]; [|rewrite orb_true_r]; reflexivity.
Qed.







(** C6.  Every wallet record of the aggregated report, spot or contract,
    has available = balance - pending_withdraw + pending_deposit.  For the
    account of the example (one spot wallet with tokenId "1", balance
    "100.5", pendingDepositAmount "0", pendingWithdrawAmount "10"), where
    [float] reads these three literals as 100.5, 0 and 10, the record has
    available = 90.5 and spot_total is 90.5. *)
Theorem available_is_balance_less_withdraw_plus_deposit :
  forall (account_data balance_data : pyval) (st st' : state) (r : report),
    aggregate account_data balance_data st = (Ok (Report r), st') ->
    Forall (fun e => available_formula (snd e)) (spot_balances r)
    /\ Forall (fun e => available_formula (snd e)) (contract_balances r)
    /\ (account_data = example_account ->
        float_of_str (lit "100.5") = Some 100.5%float ->
        float_of_str (lit "0") = Some 0%float ->
        float_of_str (lit "10") = Some 10%float ->
        spot_balances r
        = [(VStr (lit "1"), KStr (lit "1"),
            {| balance := 100.5; available := 90.5;
               pending_deposit := 0; pending_withdraw := 10 |})]
        /\ spot_total (calculated_totals r) = NFloat 90.5).
Proof.
  intros account_data balance_data st st' r H.
  apply aggregate_report in H
    as (_ & _ & (s1 & s2 & Hs) & (c1 & c2 & Hc) & _).
  split; [|split].
  - eapply (spot_loop_records available_formula);
      [intros w rec _; apply wallet_amounts_formula|constructor|exact Hs].
  - eapply (contract_loop_records available_formula);
      [intros w rec _; apply wallet_amounts_formula|constructor|exact Hc].
  - intros -> F1 F2 F3.
    change (wallets_of example_account (lit "spotWallets"))
      with [example_wallet] in Hs.
    cbn [for_each] in Hs. step Hs. destruct a as [d total].
    inversion Hs; subst; clear Hs.
    apply spot_step_ok in E as (k & rec & Hk & Hrec & -> & Htotal & _).
    change (hash_key (token_of example_wallet)) with (Some (KStr (lit "1"))) in Hk.
    inversion Hk; subst k; clear Hk.
    change (allow_listed example_wallet) with true in Htotal.
    assert (Erec : wallet_amounts example_wallet
                   = Ok {| balance := 100.5; available := 90.5;
                           pending_deposit := 0; pending_withdraw := 10 |}).
    { unfold wallet_amounts, float_field.
      change (py_get example_wallet (lit "balance") (VInt 0))
        with (Ok (VStr (lit "100.5"))).
      change (py_get example_wallet (lit "pendingDepositAmount") (VInt 0))
        with (Ok (VStr (lit "0"))).
      change (py_get example_wallet (lit "pendingWithdrawAmount") (VInt 0))
        with (Ok (VStr (lit "10"))).
      cbn [rbind py_float]. rewrite F1, F2, F3. reflexivity. }
    rewrite Erec in Hrec. inversion Hrec; subst rec; clear Hrec.
    split; [reflexivity|].
    cbn in Htotal. inversion Htotal. reflexivity.
Qed.

(** C7.  The spot total is the sum, in list order from the initial 0, of
    the [available] of the wallets whose identifier is in the allow-list
    {"1", "17", "140"}: a wallet outside it adds nothing, and leaving it
    out of the response would give the same total.  Every spot wallet,
    allow-listed or not, still has a record in spot_balances under its
    identifier: its own record, unless a later wallet of the response
    carries the same identifier and replaced it. *)
Theorem spot_total_counts_allow_list_only :
  forall (account_data balance_data : pyval) (st st' : state) (r : report),
    aggregate account_data balance_data st = (Ok (Report r), st') ->
    let wallets := wallets_of account_data (lit "spotWallets") in
    sum_available (NInt 0) (filter allow_listed wallets)
    = Ok (spot_total (calculated_totals r))
    /\ (forall pre wallet post,
           wallets = pre ++ wallet :: post ->
           allow_listed wallet = false ->
           sum_available (NInt 0) (filter allow_listed (pre ++ post))
           = Ok (spot_total (calculated_totals r)))
    /\ (forall pre wallet post,
           wallets = pre ++ wallet :: post ->
           exists k rec,
             hash_key (token_of wallet) = Some k /\
             dict_get (spot_balances r) k = Some rec /\
             ((forall w, In w post -> hash_key (token_of w) <> Some k) ->
              wallet_amounts wallet = Ok rec)).
Proof.
  intros account_data balance_data st st' r H wallets.
  apply aggregate_report in H as (_ & _ & (s1 & s2 & Hs) & _).
  fold wallets in Hs.
  pose proof (spot_loop_total _ _ _ _ Hs) as Htotal.
  split; [exact Htotal|]. split.
  - intros pre wallet post E Hout. rewrite E in Htotal.
    rewrite filter_app in Htotal. cbn [filter] in Htotal.
    rewrite Hout in Htotal. now rewrite filter_app.
  - intros pre wallet post E. rewrite E in Hs.
    eapply spot_loop_files. exact Hs.
Qed.

End AggregatorProperties.

(* ================================================================== *)
(** * The account poll loop of the deposit script *)

Section PollProperties.
Context {C : Deposit.Sdk}.
Import Deposit.

Lemma waited_lookups (n : nat) (attempt : Z) (st : Deposit.state) :
  lookups (waited n attempt st) = lookups st + n.
Proof.
  revert attempt st. induction n as [|n IH]; intros attempt st; simpl.
  - lia.
  - rewrite IH. simpl. lia.
Qed.

Lemma waited_sleeps (n : nat) (attempt : Z) (st : Deposit.state) :
  sleeps (waited n attempt st) = repeat 6%Z n ++ sleeps st.
Proof.
  revert attempt st. induction n as [|n IH]; intros attempt st; simpl.
  - reflexivity.
  - rewrite IH. cbn [sleeps].
    change (6%Z :: repeat 6%Z n ++ sleeps st)
      with ((6%Z :: repeat 6%Z n) ++ sleeps st).
    rewrite (repeat_cons n 6%Z), <- app_assoc. reflexivity.
Qed.

(** [n] empty-handed turns in a row. *)
Lemma poll_waits (n : nat) :
  forall (fuel : nat) (attempt : Z) (st : Deposit.state),
    n <= fuel ->
    (0 <= attempt)%Z -> (attempt + Z.of_nat n <= max_attempts)%Z ->
    (forall j, j < n -> get_account_v3 (lookups st + j) = Ok VNone) ->
    poll fuel VNone attempt st
    = poll (fuel - n) VNone (attempt + Z.of_nat n) (waited n attempt st).
Proof.
  induction n as [|n IH]; intros fuel attempt st Hfuel H0 Hmax Hnone.
  - rewrite Nat.sub_0_r, Z.add_0_r. reflexivity.
  - destruct fuel as [|fuel]; [lia|].
    cbn [poll is_None andb].
    replace (attempt <? max_attempts)%Z with true
      by (symmetry; apply Z.ltb_lt; lia).
    pose proof (Hnone 0 ltac:(lia)) as H1. rewrite Nat.add_0_r in H1.
    rewrite H1. cbn [is_None].
    rewrite IH; try lia.
    + cbn [waited Nat.sub]. f_equal. lia.
    + intros j Hj. cbn [lookups]. specialize (Hnone (S j)).
      replace (S (lookups st) + j) with (lookups st + S j) by lia.
      apply Hnone. lia.
Qed.

(** The loop is over once the counter has reached the bound. *)
Lemma poll_exhausted (fuel : nat) (st : Deposit.state) :
  poll fuel VNone max_attempts st = Some (Ok (VNone, max_attempts), st).
Proof. destruct fuel; reflexivity. Qed.

(** The loop is over once an account is held. *)
Lemma poll_found (fuel : nat) (account : pyval) (attempt : Z) (st : Deposit.state) :
  is_None account = false ->
  poll fuel account attempt st = Some (Ok (account, attempt), st).
Proof. intros H. destruct fuel; cbn [poll]; rewrite H; reflexivity. Qed.

(** C9, as amended.  With fuel for 20 turns, the poll loop always ends.
    If every lookup returns [None], it makes exactly 20 lookups (each
    followed by a sleep of 6) and then raises the [ValueError] of line 52.
    If the first lookup that returns a value other than [None] is the
    [k]-th, with [k <= 20], it makes exactly [k] lookups and hands that
    account on to the rest of the script.  Only [None] keeps the loop
    going: an empty value such as [{}] is handed on like any other. *)
Theorem poll_account_bound :
  forall (fuel : nat) (st : Deposit.state),
    20 <= fuel ->
    ((forall call, get_account_v3 call = Ok VNone) ->
     poll_account fuel st
     = Some (Raise (ValueError (Some failure_message)),
             waited 20 0 (started st))
     /\ lookups (waited 20 0 (started st)) = lookups st + 20
     /\ sleeps (waited 20 0 (started st)) = repeat 6%Z 20 ++ sleeps st)
    /\ (forall (k : nat) (account : pyval),
           1 <= k <= 20 ->
           (forall j, j < k - 1 -> get_account_v3 (lookups st + j) = Ok VNone) ->
           get_account_v3 (lookups st + (k - 1)) = Ok account ->
           is_None account = false ->
           exists st',
             poll_account fuel st = Some (Ok account, st')
             /\ lookups st' = lookups st + k
             /\ sleeps st' = repeat 6%Z (k - 1) ++ sleeps st).
Proof.
  intros fuel st Hfuel. split.
  - intros Hnone. split; [|split].
    + unfold poll_account.
      rewrite (@poll_waits 20 fuel 0%Z (started st)); try lia.
      * change (0 + Z.of_nat 20)%Z with max_attempts.
        rewrite poll_exhausted. reflexivity.
      * unfold max_attempts. lia.
      * intros j _. apply Hnone.
    + rewrite waited_lookups. reflexivity.
    + rewrite waited_sleeps. reflexivity.
  - intros k account Hk Hnone Hfound Hsome.
    set (st1 := waited (k - 1) 0 (started st)).
    exists {| lookups := S (lookups st1); sleeps := sleeps st1;
              stdout := Deposit.stdout st1 |}.
    split; [|split].
    + unfold poll_account.
      rewrite (@poll_waits (k - 1) fuel 0%Z (started st)); try lia.
      * fold st1. destruct (fuel - (k - 1)) as [|fuel'] eqn:Ef; [lia|].
        cbn [poll is_None andb].
        replace (0 + Z.of_nat (k - 1) <? max_attempts)%Z with true
          by (symmetry; apply Z.ltb_lt; unfold max_attempts; lia).
        unfold st1 at 1. rewrite waited_lookups. cbn [started lookups].
        rewrite Hfound, Hsome.
        rewrite poll_found by exact Hsome.
        rewrite Hsome. reflexivity.
      * unfold max_attempts. lia.
      * intros j Hj. apply Hnone. exact Hj.
    + cbn [lookups]. unfold st1. rewrite waited_lookups. cbn [started lookups]. lia.
    + cbn [sleeps]. unfold st1. rewrite waited_sleeps. reflexivity.
Qed.

End PollProperties.

(* ================================================================== *)
(** * The properties at concrete inputs *)

Lemma get_request_signs_query_twice_witness :
  let W := Demo.world (Demo.always VNone) in
  let params := [(lit "symbol", VStr (lit "BTC-USDT")); (lit "limit", VInt 10)] in
  canonical_query params <> [] /\
  signed_message (lit "1700000000000") (lit "GET") (lit "/orders") (Some params)
  = lit "1700000000000GET/v3/orders?limit=10&symbol=BTC-USDT&limit=10&symbol=BTC-USDT".
Proof.
  intros W params.
  assert (H : canonical_query params <> []) by (vm_compute; discriminate).
  split; [exact H|].
  destruct (@get_request_signs_query_twice W Demo.checker (lit "/orders")
              params Demo.state0 H) as [E _].
  etransitivity; [exact E|]. vm_compute. reflexivity.
Defined.

(** C5 as stated fails: a response with status 300 is not a 2xx response,
    and the client returns its payload, which is not empty, and prints
    nothing. *)
Lemma non_2xx_response_is_returned :
  let W := Demo.world Demo.multiple_choices in
  (forall tick request,
      exists reason response_url body,
        http tick request = Response 300 reason response_url body)
  /\ _make_request Demo.checker (lit "GET") (lit "/account") None Demo.state0
     = (Ok (VDict [(lit "choices", VList [VStr (lit "/v3/account")])]),
        {| tick := 1; stdout := [] |}).
Proof.
  intros W. split.
  - intros tick request. do 3 eexists. reflexivity.
  - vm_compute. reflexivity.
Qed.

Lemma transport_failure_returns_empty_witness :
  let W := Demo.world Demo.unavailable in
  int_getenv (lit "REQUEST_TIMEOUT") 30 = Ok 30%Z /\
  exists e,
    _make_request Demo.checker (lit "GET") (lit "/account") None Demo.state0
    = (Ok (VDict []),
       {| tick := 1; stdout := [Line (lit "API request failed: " ++ e)] |}).
Proof.
  intros W. split; [reflexivity|].
  refine (proj1 (@transport_failure_returns_empty W Demo.checker (lit "GET")
                   (lit "/account") None Demo.state0 _ 30%Z _ _) _).
  - vm_compute. reflexivity.
  - reflexivity.
  - vm_compute. split; [discriminate|reflexivity].
Defined.


Lemma available_is_balance_less_withdraw_plus_deposit_witness :
  let W := Demo.world (Demo.always VNone) in
  (float_of_str (lit "100.5") = Some 100.5%float /\
   float_of_str (lit "0") = Some 0%float /\
   float_of_str (lit "10") = Some 10%float)
  /\ exists r st',
      aggregate example_account Demo.summary Demo.state0 = (Ok (Report r), st')
      /\ Forall (fun e => available_formula (snd e)) (spot_balances r)
      /\ spot_balances r
         = [(VStr (lit "1"), KStr (lit "1"),
             {| balance := 100.5; available := 90.5;
                pending_deposit := 0; pending_withdraw := 10 |})]
      /\ spot_total (calculated_totals r) = NFloat 90.5.
Proof.
  intros W.
  assert (F1 : float_of_str (lit "100.5") = Some 100.5%float) by reflexivity.
  assert (F2 : float_of_str (lit "0") = Some 0%float) by reflexivity.
  assert (F3 : float_of_str (lit "10") = Some 10%float) by reflexivity.
  split; [auto|]. do 2 eexists.
  assert (H : aggregate example_account Demo.summary Demo.state0 = _)
    by (vm_compute; reflexivity).
  split; [exact H|].
  destruct (@available_is_balance_less_withdraw_plus_deposit W _ _ _ _ _ H)
    as (Hs & _ & Hex).
  split; [exact Hs|]. exact (Hex eq_refl F1 F2 F3).
Defined.

Lemma spot_total_counts_allow_list_only_witness :
  let W := Demo.world (Demo.always VNone) in
  exists r st',
    aggregate (Demo.account_of [example_wallet; Demo.other_wallet])
      Demo.summary Demo.state0
    = (Ok (Report r), st')
    /\ allow_listed Demo.other_wallet = false
    /\ spot_total (calculated_totals r) = NFloat 90.5
    /\ sum_available (NInt 0) (filter allow_listed [example_wallet])
       = Ok (spot_total (calculated_totals r))
    /\ exists k rec,
        hash_key (token_of Demo.other_wallet) = Some k /\
        dict_get (spot_balances r) k = Some rec /\
        wallet_amounts Demo.other_wallet = Ok rec.
Proof.
  intros W. do 2 eexists.
  assert (H : aggregate (Demo.account_of [example_wallet; Demo.other_wallet])
                Demo.summary Demo.state0 = _) by (vm_compute; reflexivity).
  split; [exact H|]. split; [reflexivity|]. split; [reflexivity|].
  destruct (@spot_total_counts_allow_list_only W _ _ _ _ _ H) as (_ & Hout & Hrec).
  split.
  - exact (Hout [example_wallet] Demo.other_wallet [] eq_refl eq_refl).
  - destruct (Hrec [example_wallet] Demo.other_wallet [] eq_refl)
      as (k & rec & Hk & Hget & Hown).
    exists k, rec. repeat split; [exact Hk|exact Hget|].
    apply Hown. intros w [].
Defined.

Lemma aggregate_empty_input_witness :
  let W := Demo.world (Demo.always VNone) in
  truthy (VDict []) = false
  /\ aggregate (VDict []) Demo.summary Demo.state0
     = (Ok EmptyReport,
        {| tick := 0; stdout := [Line (lit "Failed to fetch account data")] |}).
Proof.
  intros W. split; [reflexivity|].
  exact (@aggregate_empty_input W (VDict []) Demo.summary Demo.state0
           (or_introl eq_refl)).
Defined.

Lemma poll_account_bound_witness :
  (exists st',
      @Deposit.poll_account Deposit.never 20 Deposit.initial
      = Some (Raise (ValueError (Some Deposit.failure_message)), st')
      /\ Deposit.lookups st' = 20
      /\ Deposit.sleeps st' = repeat 6%Z 20)
  /\ (exists st',
         @Deposit.poll_account (Deposit.found_at 5 Demo.summary) 20 Deposit.initial
         = Some (Ok Demo.summary, st')
         /\ Deposit.lookups st' = 6
         /\ Deposit.sleeps st' = repeat 6%Z 5).
Proof.
  split.
  - destruct (@poll_account_bound Deposit.never 20 Deposit.initial (le_n 20))
      as [Hnever _].
    destruct (Hnever (fun _ => eq_refl)) as (E & L & S).
    eexists. split; [exact E|]. split; [exact L|].
    rewrite S. apply app_nil_r.
  - destruct (@poll_account_bound (Deposit.found_at 5 Demo.summary) 20
                Deposit.initial (le_n 20)) as [_ Hfound].
    destruct (Hfound 6 Demo.summary) as (st' & E & L & S).
    + lia.
    + intros j Hj. cbn.
      destruct j as [|[|[|[|[|j]]]]]; try reflexivity. lia.
    + reflexivity.
    + reflexivity.
    + exists st'. split; [exact E|]. split; [exact L|].
      rewrite S. apply app_nil_r.
Defined.

Lemma combined_is_spot_plus_contract_witness :
  let W := Demo.world (Demo.always VNone) in
  exists r st',
    aggregate Demo.full_account Demo.summary Demo.state0 = (Ok (Report r), st')
    /\ calculated_totals r
       = {| spot_total := NFloat 90.5; contract_total := NFloat 20.25;
            combined_liquid_assets := NFloat 110.75 |}
    /\ num_add (spot_total (calculated_totals r)) (contract_total (calculated_totals r))
       = Ok (combined_liquid_assets (calculated_totals r)).
Proof.
  intros W. do 2 eexists.
  assert (H : aggregate Demo.full_account Demo.summary Demo.state0 = _)
    by (vm_compute; reflexivity).
  split; [exact H|]. split; [reflexivity|].
  exact (@combined_is_spot_plus_contract W _ _ _ _ _ H).
Defined.

Lemma zero_size_positions_left_out_witness :
  let W := Demo.world (Demo.always VNone) in
  exists r st',
    aggregate Demo.full_account Demo.summary Demo.state0 = (Ok (Report r), st')
    /\ map symbol (positions_summary r) = [VStr (lit "BTC-USDT")]
    /\ Forall (fun p => PrimFloat.eqb (size p) 0 = false) (positions_summary r).
Proof.
  intros W. do 2 eexists.
  assert (H : aggregate Demo.full_account Demo.summary Demo.state0 = _)
    by (vm_compute; reflexivity).
  split; [exact H|]. split; [reflexivity|].
  exact (@zero_size_positions_left_out W _ _ _ _ _ H).
Defined.

(* ================================================================== *)
(** * Further properties of the balance aggregator *)

Lemma prints_only_ret {A} (a : A) : prints_only (ret a).
Proof. intros st. split; [reflexivity|]. now exists []. Qed.

Lemma prints_only_lift {A} (r : result A) : prints_only (lift r).
Proof. intros st. split; [reflexivity|]. now exists []. Qed.

Lemma prints_only_print (o : output) : prints_only (print o).
Proof. intros st. split; [reflexivity|]. now exists [o]. Qed.

Lemma prints_only_bind {A B} (m : M A) (k : A -> M B) :
  prints_only m -> (forall a, prints_only (k a)) -> prints_only (bind m k).
Proof.
  intros Hm Hk st. unfold bind.
  destruct (Hm st) as [Ht [out Ho]].
  destruct (m st) as [[a|e] st1]; cbn [snd] in *.
  - destruct (Hk a st1) as [Ht' [out' Ho']].
    split; [congruence|]. exists (out' ++ out).
    now rewrite Ho', Ho, app_assoc.
  - split; [exact Ht|]. now exists out.
Qed.

Lemma prints_only_for_each {A S} (body : S -> A -> M S) (xs : list A) :
  (forall s x, prints_only (body s x)) ->
  forall s, prints_only (for_each xs body s).
Proof.
  intros Hbody. induction xs as [|x xs IH]; intros s; cbn [for_each].
  - apply prints_only_ret.
  - apply prints_only_bind; [apply Hbody|exact IH].
Qed.

(** Break a block into its statements. *)
Ltac quiet :=
  repeat first
    [ apply prints_only_ret
    | apply prints_only_lift
    | apply prints_only_print
    | apply prints_only_bind; [|intros]
    | match goal with
      | |- prints_only (let '(_, _) := ?x in _) => destruct x
      | |- prints_only (if ?b then _ else _) => destruct b
      end ].

Section AggregatorFurther.
Context {W : World}.

Lemma spot_step_prints_only (acc : pydict wallet_record * num) (wallet : pyval) :
  prints_only (spot_step acc wallet).
Proof. destruct acc. unfold spot_step. quiet. Qed.

Lemma contract_step_prints_only (acc : pydict wallet_record * num) (wallet : pyval) :
  prints_only (contract_step acc wallet).
Proof. destruct acc. unfold contract_step. quiet. Qed.

Lemma position_step_prints_only (summary : list position_info) (position : pyval) :
  prints_only (position_step summary position).
Proof. unfold position_step. quiet. Qed.

Lemma aggregate_quiet (account_data balance_data : pyval) :
  prints_only (aggregate account_data balance_data).
Proof.
  unfold aggregate.
  destruct (negb (truthy account_data) || negb (truthy balance_data)).
  - quiet.
  - apply prints_only_bind; [intros st; split; [reflexivity|now exists []]|intros].
    apply prints_only_bind; [quiet|intros].
    apply prints_only_bind; [quiet|intros].
    apply prints_only_bind; [quiet|intros].
    apply prints_only_bind;
      [apply prints_only_for_each; apply spot_step_prints_only|intros [? ?]].
    apply prints_only_bind; [quiet|intros].
    apply prints_only_bind; [quiet|intros].
    apply prints_only_bind; [quiet|intros].
    apply prints_only_bind;
      [apply prints_only_for_each; apply contract_step_prints_only|intros [? ?]].
    apply prints_only_bind; [quiet|intros].
    apply prints_only_bind; [quiet|intros].
    apply prints_only_bind; [quiet|intros].
    apply prints_only_bind;
      [apply prints_only_for_each; apply position_step_prints_only|intros].
    apply prints_only_bind; [quiet|intros [[[? ?] ?] ?]].
    quiet.
Qed.

(** X3.  The aggregation itself never touches the network: whatever the
    two responses hold, and whether it returns a report, returns [{}] or
    raises, it makes no request and only adds lines to the output. *)
Theorem aggregate_prints_only :
  forall (account_data balance_data : pyval) (st : state),
    tick (snd (aggregate account_data balance_data st)) = tick st
    /\ exists out,
        stdout (snd (aggregate account_data balance_data st)) = out ++ stdout st.
Proof.
  intros account_data balance_data. exact (aggregate_quiet account_data balance_data).
Qed.

(** The total of the contract loop: every wallet, added in turn. *)
Lemma contract_loop_total (wallets : list pyval) :
  forall d total st d' total' st',
    for_each wallets contract_step (d, total) st = (Ok (d', total'), st') ->
    sum_available total wallets = Ok total'.
Proof.
  induction wallets as [|w wallets IH]; intros d total st d' total' st' H.
  - inversion H; subst. reflexivity.
  - cbn [for_each] in H. step H. destruct a as [d1 total1].
    apply contract_step_ok in E as (asset & k & rec & _ & _ & Hrec & _ & Htotal).
    apply IH in H. unfold sum_available in *. cbn [fold_left rbind].
    unfold available_of. rewrite Hrec, Htotal. exact H.
Qed.

(** X4.  The contract total is the sum, in list order from the initial 0,
    of the [available] of every contract wallet, whatever its asset: no
    allow-list applies to the contract account. *)
Theorem contract_total_counts_every_wallet :
  forall (account_data balance_data : pyval) (st st' : state) (r : report),
    aggregate account_data balance_data st = (Ok (Report r), st') ->
    sum_available (NInt 0) (wallets_of account_data (lit "contractWallets"))
    = Ok (contract_total (calculated_totals r)).
Proof.
  intros account_data balance_data st st' r H.
  apply aggregate_report in H as (_ & _ & _ & (c1 & c2 & Hc) & _).
  eapply contract_loop_total. exact Hc.
Qed.

(** The summary built by the positions loop: the entries of the open
    positions, appended in turn. *)
Lemma position_loop_entries (positions : list pyval) :
  forall summary st summary' st',
    for_each positions position_step summary st = (Ok summary', st') ->
    map Ok summary'
    = map Ok summary ++ map position_entry (filter open_position positions).
Proof.
  induction positions as [|p positions IH]; intros summary st summary' st' H.
  - inversion H; subst. cbn. now rewrite app_nil_r.
  - cbn [for_each] in H. step H. apply IH in H. rewrite H. clear H IH.
    unfold position_step in E. step E.
    cbn [filter]. unfold open_position. rewrite E0.
    destruct (PrimFloat.eqb a0 0) eqn:Z0; cbn [negb] in *.
    + inversion E; subst. reflexivity.
    + step E. step E. step E. step E. step E.
      inversion E; subst; clear E.
      rewrite map_app, <- app_assoc. f_equal. cbn [map app]. f_equal.
      unfold position_entry. rewrite E1, E2, E3, E4. reflexivity.
Qed.

(** X5.  positions_summary holds exactly the positions whose size is not
    0, in the order of the response, each as the dict of lines 187-193
    with value = size * entry_price. *)
Theorem positions_summary_is_open_positions :
  forall (account_data balance_data : pyval) (st st' : state) (r : report),
    aggregate account_data balance_data st = (Ok (Report r), st') ->
    map Ok (positions_summary r)
    = map position_entry (filter open_position (positions_of account_data))
    /\ Forall (fun p => value p = (size p * entry_price p)%float)
              (positions_summary r).
Proof.
  intros account_data balance_data st st' r H.
  apply aggregate_report in H as (_ & _ & _ & _ & (ps & p1 & p2 & Hps & H) & _).
  assert (E : positions_of account_data = ps)
    by (unfold positions_of, wallets_of; now rewrite Hps).
  apply position_loop_entries in H. cbn [map app] in H.
  rewrite E. split; [exact H|].
  clear E Hps. revert H. generalize (filter open_position ps) as l.
  induction (positions_summary r) as [|p s IH]; intros [|q l] H;
    try discriminate H; constructor.
  - cbn [map] in H. inversion H as [[Hq Hl]].
    unfold position_entry in Hq. symmetry in Hq.
    apply rbind_ok in Hq as (? & _ & Hq).
    apply rbind_ok in Hq as (? & _ & Hq).
    apply rbind_ok in Hq as (? & _ & Hq).
    apply rbind_ok in Hq as (? & _ & Hq).
    inversion Hq. reflexivity.
  - cbn [map] in H. inversion H. eapply IH. eassumption.
Qed.

(** [d[key] = v] keeps the keys of a dict distinct. *)
Lemma dict_put_keys {V} (d : pydict V) (key : pyval) (k : hkey) (v : V) :
  NoDup (map entry_key d) ->
  NoDup (map entry_key (dict_put d key k v))
  /\ (forall k', In k' (map entry_key (dict_put d key k v)) <->
                 k' = k \/ In k' (map entry_key d)).
Proof.
  induction d as [|[[key1 k1] v1] d IH]; cbn [dict_put map]; intros H.
  - split; [repeat constructor; auto|]. cbn. intuition.
  - inversion H as [|? ? Hk1 Hd]; subst.
    destruct (hkey_eqb k1 k) eqn:E.
    + apply hkey_eqb_eq in E. subst k1.
      split; [exact H|]. cbn [map In entry_key fst snd]. intuition.
    + destruct (IH Hd) as [Hnd Hin]. split.
      * cbn [map]. constructor; [|exact Hnd].
        intros Hc. apply Hin in Hc. destruct Hc as [Hc|Hc]; [|exact (Hk1 Hc)].
        cbn in Hc. subst k1. now rewrite hkey_eqb_refl in E.
      * intros k'. cbn [map In]. rewrite Hin. intuition.
Qed.

Lemma spot_loop_keys (wallets : list pyval) :
  forall d total st d' total' st',
    NoDup (map entry_key d) ->
    for_each wallets spot_step (d, total) st = (Ok (d', total'), st') ->
    NoDup (map entry_key d')
    /\ (forall k, In k (map entry_key d') <->
                  In k (map entry_key d)
                  \/ exists w, In w wallets /\ hash_key (token_of w) = Some k).
Proof.
  induction wallets as [|w wallets IH]; intros d total st d' total' st' Hd H.
  - inversion H; subst. split; [exact Hd|]. intros k. split; [auto|].
    intros [?|(? & [] & _)]. assumption.
  - cbn [for_each] in H. step H. destruct a as [d1 total1].
    apply spot_step_ok in E as (k1 & rec & Hk1 & _ & -> & _).
    destruct (dict_put_keys d (token_of w) k1 rec Hd) as [Hnd Hin].
    destruct (IH _ _ _ _ _ _ Hnd H) as [Hnd' Hin'].
    split; [exact Hnd'|]. intros k. rewrite Hin', Hin. split.
    + intros [[->|?]|(w' & ? & ?)]; [right; exists w|left|right; exists w'];
        cbn [In]; auto.
    + intros [?|(w' & [<-|?] & Hk)]; [auto| |right; eauto].
      left. left. congruence.
Qed.

Lemma contract_loop_keys (wallets : list pyval) :
  forall d total st d' total' st',
    NoDup (map entry_key d) ->
    for_each wallets contract_step (d, total) st = (Ok (d', total'), st') ->
    NoDup (map entry_key d')
    /\ (forall k, In k (map entry_key d') <->
                  In k (map entry_key d)
                  \/ exists w, In w wallets /\ hash_key (asset_of w) = Some k).
Proof.
  induction wallets as [|w wallets IH]; intros d total st d' total' st' Hd H.
  - inversion H; subst. split; [exact Hd|]. intros k. split; [auto|].
    intros [?|(? & [] & _)]. assumption.
  - cbn [for_each] in H. step H. destruct a as [d1 total1].
    apply contract_step_ok in E as (asset & k1 & rec & Ha & Hk1 & _ & -> & _).
    assert (Hw : hash_key (asset_of w) = Some k1)
      by (unfold asset_of; now rewrite Ha).
    destruct (dict_put_keys d asset k1 rec Hd) as [Hnd Hin].
    destruct (IH _ _ _ _ _ _ Hnd H) as [Hnd' Hin'].
    split; [exact Hnd'|]. intros k. rewrite Hin', Hin. split.
    + intros [[->|?]|(w' & ? & ?)]; [right; exists w|left|right; exists w'];
        cbn [In]; auto.
    + intros [?|(w' & [<-|?] & Hk)]; [auto| |right; eauto].
      left. left. congruence.
Qed.

End AggregatorFurther.

(* ================================================================== *)
(** * Further properties of the signer and of the request client *)

Lemma encode_char_ok_scalar (c : N) (b : bytes) :
  Utf8.encode_char c = Ok b -> Utf8.scalar c.
Proof.
  unfold Utf8.encode_char, Utf8.scalar.
  destruct (c <? 128)%N eqn:E1; [apply N.ltb_lt in E1; lia|].
  destruct (c <? 2048)%N eqn:E2; [apply N.ltb_lt in E2; lia|].
  destruct ((55296 <=? c) && (c <=? 57343))%N eqn:E3; [discriminate|].
  apply andb_false_iff in E3. rewrite !N.leb_gt in E3.
  destruct (c <? 65536)%N eqn:E4; [apply N.ltb_lt in E4; lia|].
  destruct (c <? 1114112)%N eqn:E5; [apply N.ltb_lt in E5; lia|discriminate].
Qed.

Lemma encode_char_raise (c : N) (e : exn) :
  Utf8.encode_char c = Raise e -> e = UnicodeEncodeError.
Proof.
  unfold Utf8.encode_char.
  repeat match goal with
         | |- context [if ?b then _ else _] => destruct b
         end; intros H; inversion H; reflexivity.
Qed.

(** [encode] succeeds exactly on the strings of scalar values, and raises
    nothing but [UnicodeEncodeError]. *)
Lemma encode_outcome (s : str) :
  (exists b, Utf8.encode s = Ok b /\ Forall Utf8.scalar s)
  \/ (Utf8.encode s = Raise UnicodeEncodeError /\ ~ Forall Utf8.scalar s).
Proof.
  induction s as [|c s IH]; cbn [Utf8.encode].
  - left. eauto.
  - destruct (Utf8.encode_char c) as [bc|e] eqn:Ec; cbn [rbind].
    + destruct IH as [(bs & -> & Hs)|[-> Hs]]; cbn [rbind].
      * left. eexists. split; [reflexivity|].
        constructor; [eapply encode_char_ok_scalar; eassumption|exact Hs].
      * right. split; [reflexivity|]. intros H. inversion H; auto.
    + right. rewrite (encode_char_raise _ Ec). split; [reflexivity|].
      intros H. inversion H as [|? ? Hc _]; subst.
      destruct (encode_char_scalar Hc) as [b Eb]. congruence.
Qed.

Lemma encode_not_scalar (s : str) :
  ~ Forall Utf8.scalar s -> Utf8.encode s = Raise UnicodeEncodeError.
Proof.
  intros H. destruct (encode_outcome s) as [(b & _ & Hs)|[E _]];
    [contradiction|exact E].
Qed.

Lemma sign_message_unencodable (secret msg : str) :
  ~ Forall Utf8.scalar secret \/ ~ Forall Utf8.scalar msg ->
  sign_message secret msg = Raise UnicodeEncodeError.
Proof.
  unfold sign_message. intros [H|H].
  - now rewrite (encode_not_scalar H).
  - destruct (Utf8.encode secret) as [b|e] eqn:E; cbn [rbind].
    + now rewrite (encode_not_scalar H).
    + destruct (encode_outcome secret) as [(b & Eb & _)|[Eb _]]; congruence.
Qed.

Section RequestFurther.
Context {W : World}.

Lemma path_starts_with_endpoint (method endpoint : str) (params : option items) :
  exists rest,
    fst (path_and_query method endpoint params) = lit "/v3" ++ endpoint ++ rest.
Proof.
  unfold path_and_query.
  destruct (str_eqb method (lit "GET") && params_truthy params).
  - destruct (query_params _); cbn [fst].
    + exists []. now rewrite app_nil_r.
    + eexists. rewrite <- app_assoc. reflexivity.
  - exists []. cbn [fst]. now rewrite app_nil_r.
Qed.

(** X7.  A secret, a method or an endpoint that holds a lone surrogate
    cannot be encoded: [_make_request] raises [UnicodeEncodeError] to its
    caller, before any request is made and with nothing printed. *)
Theorem unencodable_request_raises :
  forall (self : ApexBalanceChecker) (method endpoint : str)
         (params : option items) (st : state),
    ~ Forall Utf8.scalar (secret self)
    \/ ~ Forall Utf8.scalar method
    \/ ~ Forall Utf8.scalar endpoint ->
    _make_request self method endpoint params st = (Raise UnicodeEncodeError, st).
Proof.
  intros self method endpoint params st H.
  rewrite make_request_signed. cbv zeta.
  rewrite sign_message_unencodable; [reflexivity|].
  destruct H as [H|H]; [now left|right].
  unfold signed_message.
  destruct (path_starts_with_endpoint method endpoint params) as [rest E].
  destruct (path_and_query method endpoint params) as [path query_string].
  cbn [fst] in E. subst path. unfold message. intros Hall.
  apply Forall_app in Hall as [_ Hall].
  apply Forall_app in Hall as [Hm Hall].
  apply Forall_app in Hall as [Hall _].
  apply Forall_app in Hall as [_ Hall].
  apply Forall_app in Hall as [He _].
  tauto.
Qed.

(** X8.  When the environment variable REQUEST_TIMEOUT is set to a text
    that [int] rejects, [_make_request] raises [ValueError] to its caller:
    the handler of line 94 catches request exceptions only.  No request
    is made and nothing is printed. *)
Theorem malformed_timeout_raises :
  forall (self : ApexBalanceChecker) (method endpoint : str)
         (params : option items) (st : state) (signature setting : str),
    _generate_signature self (str_of_int (time_ms (tick st))) method
      (fst (path_and_query method endpoint params))
      (snd (path_and_query method endpoint params))
    = Ok signature ->
    getenv (lit "REQUEST_TIMEOUT") = Some setting ->
    int_of_str setting = None ->
    _make_request self method endpoint params st = (Raise (ValueError None), st).
Proof.
  intros self method endpoint params st signature setting Hsig Henv Hint.
  unfold _make_request.
  destruct (path_and_query method endpoint params) as [path query_string].
  cbn [fst snd] in Hsig. rewrite Hsig.
  unfold try_request, bind, lift, int_getenv. rewrite Henv, Hint. reflexivity.
Qed.

Lemma canonical_query_nil (params : items) :
  canonical_query params = [] -> query_params params = [].
Proof.
  unfold canonical_query. intros H.
  eapply join_nil_inv; [apply query_params_nonempty|exact H].
Qed.

(** X9.  A GET request without parameters to render ([params] is [None],
    an empty dict, or a dict all of whose values are [None]) has no query
    string: the signed message is timestamp ++ "GET" ++ "/v3" ++ endpoint,
    and the request goes to base_url ++ "/v3" ++ endpoint, with no [?]
    appended. *)
Theorem get_request_without_query :
  forall (self : ApexBalanceChecker) (endpoint : str)
         (params : option items) (st : state),
    match params with
    | Some p => canonical_query p = []
    | None => True
    end ->
    let timestamp := str_of_int (time_ms (tick st)) in
    let msg := timestamp ++ lit "GET" ++ lit "/v3" ++ endpoint in
    signed_message timestamp (lit "GET") endpoint params = msg
    /\ _make_request self (lit "GET") endpoint params st
       = match sign_message (secret self) msg with
         | Raise e => (Raise e, st)
         | Ok signature =>
             try_request (lit "GET") (base_url self ++ lit "/v3" ++ endpoint)
               (request_headers self signature timestamp) params st
         end.
Proof.
  intros self endpoint params st H timestamp msg.
  assert (P : path_and_query (lit "GET") endpoint params
              = (lit "/v3" ++ endpoint, [])).
  { unfold path_and_query.
    destruct (str_eqb (lit "GET") (lit "GET") && params_truthy params) eqn:T;
      [|reflexivity].
    destruct params as [p|]; [|discriminate T].
    now rewrite (canonical_query_nil p H). }
  assert (E : signed_message timestamp (lit "GET") endpoint params = msg).
  { unfold signed_message. rewrite P. unfold message, msg.
    now rewrite app_nil_r. }
  split; [exact E|].
  rewrite make_request_signed. cbv zeta. fold timestamp. rewrite E, P.
  reflexivity.
Qed.

Lemma str_ltb_asym (a b : str) : str_ltb a b = true -> str_ltb b a = false.
Proof.
  intros H. destruct (str_ltb b a) eqn:E; [|reflexivity].
  pose proof (str_ltb_trans _ _ _ H E) as C.
  rewrite str_ltb_irrefl in C. discriminate.
Qed.

(** X10.  Values are rendered verbatim, with no URL-encoding: one
    parameter whose text value holds [&] and [=] gives the same canonical
    query string, and so the same signed message, as the two parameters
    that the text spells. *)
Theorem query_values_are_not_escaped :
  forall (timestamp endpoint k1 v1 k2 v2 : str),
    str_ltb k1 k2 = true ->
    canonical_query [(k1, VStr (v1 ++ lit "&" ++ k2 ++ lit "=" ++ v2))]
    = canonical_query [(k1, VStr v1); (k2, VStr v2)]
    /\ signed_message timestamp (lit "GET") endpoint
         (Some [(k1, VStr (v1 ++ lit "&" ++ k2 ++ lit "=" ++ v2))])
       = signed_message timestamp (lit "GET") endpoint
           (Some [(k1, VStr v1); (k2, VStr v2)]).
Proof.
  intros timestamp endpoint k1 v1 k2 v2 H.
  assert (E : canonical_query [(k1, VStr (v1 ++ lit "&" ++ k2 ++ lit "=" ++ v2))]
              = canonical_query [(k1, VStr v1); (k2, VStr v2)]).
  { unfold canonical_query, query_params.
    cbn [sorted insert_item fst]. unfold str_leb.
    rewrite (str_ltb_asym _ _ H). cbn [negb flat_map app join py_str].
    now rewrite <- !app_assoc. }
  split; [exact E|].
  assert (N1 : canonical_query [(k1, VStr (v1 ++ lit "&" ++ k2 ++ lit "=" ++ v2))] <> []).
  { unfold canonical_query, query_params. cbn [sorted insert_item flat_map app join].
    intros C. apply app_eq_nil in C as [_ C]. discriminate C. }
  assert (N2 : canonical_query [(k1, VStr v1); (k2, VStr v2)] <> [])
    by (rewrite <- E; exact N1).
  unfold signed_message.
  rewrite !path_and_query_get by assumption. now rewrite E.
Qed.

(** One request that returns makes one HTTP call; one that raises makes
    one at most. *)
Lemma make_request_tick (self : ApexBalanceChecker) (method endpoint : str)
    (params : option items) (st : state) :
  let out := _make_request self method endpoint params st in
  tick st <= tick (snd out) <= S (tick st)
  /\ (forall v, fst out = Ok v -> tick (snd out) = S (tick st)).
Proof.
  unfold _make_request.
  destruct (path_and_query method endpoint params) as [path query_string].
  destruct (_generate_signature _ _ _ _ _) as [signature|e]; cbn [fst snd];
    [|split; [lia|discriminate]].
  unfold try_request, bind, lift.
  destruct (int_getenv _ _) as [timeout|e]; cbn [fst snd];
    [|split; [lia|discriminate]].
  destruct (http _ _) as [status reason response_url body|e|e].
  - destruct (raise_for_status _ _ _); [cbn; split; [lia|reflexivity]|].
    destruct body; cbn; split; try lia; reflexivity.
  - cbn. split; [lia|reflexivity].
  - cbn. split; [lia|reflexivity].
Qed.

(** The two requests of [calculate_total_balance]. *)
Lemma calculate_total_balance_ticks (self : ApexBalanceChecker) (st : state) :
  let out := calculate_total_balance self st in
  tick st <= tick (snd out) <= tick st + 2
  /\ (forall rep, fst out = Ok rep -> tick (snd out) = tick st + 2).
Proof.
  unfold calculate_total_balance, bind, print.
  set (st0 := {| tick := tick st; stdout := _ |}).
  assert (T0 : tick st0 = tick st) by reflexivity.
  pose proof (make_request_tick self (lit "GET") (lit "/account") None st0) as H1.
  unfold get_account_data, get_account_balance.
  destruct (_make_request self (lit "GET") (lit "/account") None st0)
    as [[account_data|e] st1]; cbn [fst snd] in *.
  2:{ split; [lia|discriminate]. }
  destruct H1 as [_ H1]. specialize (H1 _ eq_refl).
  pose proof (make_request_tick self (lit "GET") (lit "/account-balance") None st1)
    as H2.
  destruct (_make_request self (lit "GET") (lit "/account-balance") None st1)
    as [[balance_data|e] st2]; cbn [fst snd] in *.
  2:{ split; [lia|discriminate]. }
  destruct H2 as [_ H2]. specialize (H2 _ eq_refl).
  destruct (aggregate_quiet account_data balance_data st2) as [Ht _].
  split; [lia|]. intros rep _. lia.
Qed.

(** X11.  [calculate_total_balance] makes at most two requests, and
    exactly two whenever it returns: the balance summary is requested even
    when the account request has come back empty, and the emptiness is
    looked at only afterwards. *)
Theorem calculate_total_balance_requests :
  forall (self : ApexBalanceChecker) (st : state),
    let out := calculate_total_balance self st in
    tick st <= tick (snd out) <= tick st + 2
    /\ (forall rep, fst out = Ok rep -> tick (snd out) = tick st + 2).
Proof.
  intros self st. exact (calculate_total_balance_ticks self st).
Qed.

End RequestFurther.

(* ================================================================== *)
(** * The shape of a signature *)

Lemma digest_length (msg : bytes) : List.length (SHA256.digest msg) = 32.
Proof.
  unfold SHA256.digest.
  destruct (fold_left _ _ _) as [[[[[[[a b] c] d] e] f] g] h].
  cbn [flat_map SHA256.be_bytes app List.length]. reflexivity.
Qed.

Lemma digit_in_alphabet (n : N) : In (Base64.digit n) Base64.alphabet.
Proof.
  unfold Base64.digit. apply nth_In.
  change (List.length Base64.alphabet) with 64.
  assert (n mod 64 < 64)%N by (apply N.mod_lt; discriminate). lia.
Qed.
(** The encoding of 32 bytes: 43 characters of the alphabet and one
    padding sign. *)
Lemma b64encode_32 (b : bytes) :
  List.length b = 32 ->
  List.length (Base64.standard_b64encode b) = 44
  /\ Forall (fun c => In c Base64.alphabet) (firstn 43 (Base64.standard_b64encode b))
  /\ skipn 43 (Base64.standard_b64encode b) = [Base64.pad].
Proof.
  intros H.
  do 32 (destruct b as [|? b]; [discriminate H|]).
  destruct b; [|discriminate H]. clear H.
  cbn [Base64.standard_b64encode List.length firstn skipn].
  split; [reflexivity|]. split; [|reflexivity].
  repeat (apply Forall_cons; [apply digit_in_alphabet|]). apply Forall_nil.
Qed.

(** X12.  Every signature is 44 characters long: 43 characters of the
    base64 alphabet followed by one [=] (the encoding of the 32 bytes of
    an HMAC-SHA256), whatever the secret and the message. *)
Theorem signature_shape :
  forall (self : ApexBalanceChecker) (timestamp method path data signature : str),
    _generate_signature self timestamp method path data = Ok signature ->
    List.length signature = 44
    /\ Forall (fun c => In c (map Byte.to_N Base64.alphabet)) (firstn 43 signature)
    /\ skipn 43 signature = lit "=".
Proof.
  intros self timestamp method path data signature H.
  unfold _generate_signature, sign_message in H.
  apply rbind_ok in H as (key & _ & H).
  apply rbind_ok in H as (msg & _ & H).
  inversion H; subst signature; clear H.
  assert (L : List.length (HMAC.hmac_sha256 key msg) = 32)
    by (unfold HMAC.hmac_sha256; apply digest_length).
  destruct (b64encode_32 _ L) as (H1 & H2 & H3).
  unfold Utf8.decode_ascii. rewrite length_map. split; [exact H1|]. split.
  - rewrite firstn_map. apply Forall_map.
    eapply Forall_impl; [|exact H2]. intros c Hc. now apply in_map.
  - rewrite skipn_map, H3. reflexivity.
Qed.

(* ================================================================== *)
(** * Further properties of the account poll loop *)

Section PollFurther.
Context {C : Deposit.Sdk}.
Import Deposit.

(** The loop ends within the attempts that are left, whatever the SDK
    returns or raises. *)
Lemma poll_ends (fuel : nat) :
  forall (account : pyval) (attempt : Z) (st : Deposit.state),
    Z.to_nat (max_attempts - attempt) <= fuel ->
    exists r st',
      poll fuel account attempt st = Some (r, st')
      /\ lookups st <= lookups st' <= lookups st + Z.to_nat (max_attempts - attempt)
      /\ exists n,
          n <= lookups st' - lookups st
          /\ sleeps st' = repeat 6%Z n ++ sleeps st.
Proof.
  induction fuel as [|fuel IH]; intros account attempt st Hfuel.
  - cbn [poll].
    destruct (is_None account && (attempt <? max_attempts)%Z) eqn:E.
    + apply andb_true_iff in E as [_ E]. apply Z.ltb_lt in E. lia.
    + do 2 eexists. split; [reflexivity|]. split; [lia|]. exists 0.
      split; [lia|reflexivity].
  - cbn [poll].
    destruct (is_None account && (attempt <? max_attempts)%Z) eqn:E.
    + apply andb_true_iff in E as [_ E]. apply Z.ltb_lt in E.
      destruct (get_account_v3 (lookups st)) as [account'|e].
      * match goal with
        | |- context [poll fuel account' ?a ?s] =>
            destruct (IH account' a s) as (r & st' & Hp & Hl & n & Hn & Hs);
              [lia|]
        end.
        exists r, st'. split; [exact Hp|].
        destruct (is_None account'); cbn [lookups sleeps] in *.
        -- split; [lia|]. exists (S n). split; [lia|].
           rewrite Hs. cbn [repeat app].
           change (6%Z :: repeat 6%Z n ++ sleeps st)
             with ((6%Z :: repeat 6%Z n) ++ sleeps st).
           rewrite (repeat_cons n 6%Z), <- app_assoc. reflexivity.
        -- split; [lia|]. exists n. split; [lia|exact Hs].
      * do 2 eexists. split; [reflexivity|]. cbn [lookups sleeps].
        split; [lia|]. exists 0. split; [lia|reflexivity].
    + do 2 eexists. split; [reflexivity|]. split; [lia|]. exists 0.
      split; [lia|reflexivity].
Qed.

(** X13.  With fuel for 20 turns the poll loop ends for every behaviour
    of the SDK, values and exceptions alike: it makes at most 20 lookups,
    sleeps 6 at most once per lookup (120 in all at most), and hands on an
    account only if it is not [None]. *)
Theorem poll_account_always_ends :
  forall (fuel : nat) (st : Deposit.state),
    20 <= fuel ->
    exists r st',
      poll_account fuel st = Some (r, st')
      /\ lookups st <= lookups st' <= lookups st + 20
      /\ (exists n,
             n <= lookups st' - lookups st
             /\ sleeps st' = repeat 6%Z n ++ sleeps st)
      /\ (forall account, r = Ok account -> is_None account = false).
Proof.
  intros fuel st Hfuel. unfold poll_account.
  destruct (@poll_ends fuel VNone 0%Z (started st)) as (r & st' & Hp & Hl & Hs);
    [exact Hfuel|].
  rewrite Hp. cbn [started lookups sleeps] in Hl, Hs.
  change (Z.to_nat (max_attempts - 0)) with 20 in Hl.
  destruct r as [[account attempt]|e].
  - destruct (is_None account) eqn:E.
    + do 2 eexists. split; [reflexivity|]. repeat split; try lia; try exact Hs.
      intros ? H. discriminate H.
    + do 2 eexists. split; [reflexivity|]. repeat split; try lia; try exact Hs.
      intros ? H. inversion H; subst. exact E.
  - do 2 eexists. split; [reflexivity|]. repeat split; try lia; try exact Hs.
    intros ? H. discriminate H.
Qed.

(** X14.  An exception raised by the lookup is not retried: when the
    lookups before the [k]-th return [None] and that one raises, the loop
    stops there, after [k + 1] lookups and [k] sleeps, and the exception
    goes on to the caller. *)
Theorem poll_account_lookup_raises :
  forall (fuel k : nat) (st : Deposit.state) (e : exn),
    k < 20 -> k < fuel ->
    (forall j, j < k -> get_account_v3 (lookups st + j) = Ok VNone) ->
    get_account_v3 (lookups st + k) = Raise e ->
    exists st',
      poll_account fuel st = Some (Raise e, st')
      /\ lookups st' = lookups st + k + 1
      /\ sleeps st' = repeat 6%Z k ++ sleeps st.
Proof.
  intros fuel k st e Hk Hfuel Hnone Hraise.
  set (st1 := waited k 0 (started st)).
  exists {| lookups := S (lookups st1); sleeps := sleeps st1;
            stdout := Deposit.stdout st1 |}.
  split; [|split].
  - unfold poll_account.
    rewrite (@poll_waits _ k fuel 0%Z (started st)); try lia.
    + fold st1. destruct (fuel - k) as [|fuel'] eqn:Ef; [lia|].
      cbn [poll is_None andb].
      replace (0 + Z.of_nat k <? max_attempts)%Z with true
        by (symmetry; apply Z.ltb_lt; unfold max_attempts; lia).
      unfold st1 at 1. rewrite waited_lookups. cbn [started lookups].
      rewrite Hraise. reflexivity.
    + unfold max_attempts. lia.
    + intros j Hj. apply Hnone. exact Hj.
  - cbn [lookups]. unfold st1. rewrite waited_lookups. cbn [started lookups]. lia.
  - cbn [sleeps]. unfold st1. rewrite waited_sleeps. reflexivity.
Qed.

End PollFurther.

(* ================================================================== *)
(** * Properties of the report printer and of [main] *)

Lemma str_eqb_eq (a b : str) : str_eqb a b = true <-> a = b.
Proof.
  revert b. induction a as [|x a IH]; intros [|y b]; cbn [str_eqb];
    try (split; [discriminate|discriminate]); [split; reflexivity|].
  rewrite andb_true_iff, N.eqb_eq, IH. split.
  - intros [-> ->]. reflexivity.
  - intros H. inversion H. split; reflexivity.
Qed.

Lemma is_total_float (n : num) : is_total n -> exists x, num_float n = Ok x.
Proof.
  intros [->|[x ->]]; cbn [num_float]; [|now exists x].
  eexists. vm_compute. reflexivity.
Qed.

Lemma num_add_total (a b c : num) :
  is_total a -> is_total b -> num_add a b = Ok c -> is_total c.
Proof.
  intros [->|[x ->]] [->|[y ->]] H; cbn [num_add] in H.
  - inversion H. now left.
  - apply rbind_ok in H as (? & _ & H). cbn [num_float rbind] in H.
    inversion H. right. eauto.
  - cbn [num_float rbind] in H. apply rbind_ok in H as (? & _ & H).
    inversion H. right. eauto.
  - cbn [num_float rbind] in H. inversion H. right. eauto.
Qed.

Section PrinterProperties.
Context {W : World} {C : Console}.

Lemma spot_loop_is_total (wallets : list pyval) :
  forall d total st d' total' st',
    is_total total ->
    for_each wallets spot_step (d, total) st = (Ok (d', total'), st') ->
    is_total total'.
Proof.
  induction wallets as [|w wallets IH]; intros d total st d' total' st' Ht H.
  - inversion H; subst. exact Ht.
  - cbn [for_each] in H. step H. destruct a as [d1 total1].
    eapply IH; [|exact H].
    unfold spot_step in E. step E. step E. step E. step E. step E.
    inversion E; subst; clear E.
    destruct (stablecoin a).
    + eapply num_add_total; [exact Ht| |exact E3]. right. eauto.
    + inversion E3; subst. exact Ht.
Qed.

Lemma contract_loop_is_total (wallets : list pyval) :
  forall d total st d' total' st',
    is_total total ->
    for_each wallets contract_step (d, total) st = (Ok (d', total'), st') ->
    is_total total'.
Proof.
  induction wallets as [|w wallets IH]; intros d total st d' total' st' Ht H.
  - inversion H; subst. exact Ht.
  - cbn [for_each] in H. step H. destruct a as [d1 total1].
    eapply IH; [|exact H].
    unfold contract_step in E. step E. step E. step E. step E. step E.
    inversion E; subst; clear E.
    eapply num_add_total; [exact Ht| |exact E3]. right. eauto.
Qed.

Lemma print_amount_ok (label : str) (amount : num) (x : float) (st : state) :
  num_float amount = Ok x ->
  print_amount label amount st
  = (Ok tt, {| tick := tick st;
               stdout := Line (label ++ lit "$" ++ format_amount x) :: stdout st |}).
Proof. intros H. unfold print_amount, bind, lift, print. now rewrite H. Qed.

(** The positions of a report of the aggregator are all active. *)
Lemma active_positions_all (positions : list position_info) :
  Forall (fun p => PrimFloat.eqb (size p) 0 = false) positions ->
  active_positions positions = positions.
Proof.
  unfold active_positions.
  induction 1 as [|p l Hp _ IH]; cbn [filter]; [reflexivity|].
  rewrite Hp. cbn [negb]. now rewrite IH.
Qed.

(** X15.  The summary of a report that [aggregate] has built is printed
    in full: no amount fails to format, the printer makes no request, and
    the count it prints is that of the positions of the response whose size
    is not 0. *)
Theorem summary_counts_open_positions :
  forall (self : ApexBalanceChecker) (account_data balance_data : pyval)
         (st st' : state) (r : report) (st0 : state),
    aggregate account_data balance_data st = (Ok (Report r), st') ->
    exists body,
      List.length body = 11
      /\ print_summary self (Report r) st0
         = (Ok tt,
            {| tick := tick st0;
               stdout :=
                 Line rule
                 :: Line (newline ++ lit "Active Positions:         "
                            ++ str_of_int
                                 (Z.of_nat
                                    (List.length
                                       (filter open_position
                                          (positions_of account_data)))))
                 :: body ++ stdout st0 |}).
Proof.
  intros self account_data balance_data st st' r st0 H.
  apply aggregate_report in H
    as (_ & _ & (s1 & s2 & Hs) & (c1 & c2 & Hc) & (ps & p1 & p2 & Hps & Hp)
        & (te & ab & im & mm & _ & _ & _ & _ & Ete & Eab & Eim & Emm) & Hsum).
  assert (Ts : is_total (spot_total (calculated_totals r)))
    by (eapply spot_loop_is_total; [|exact Hs]; now left).
  assert (Tc : is_total (contract_total (calculated_totals r)))
    by (eapply contract_loop_is_total; [|exact Hc]; now left).
  pose proof (num_add_total Ts Tc Hsum) as Tk.
  apply is_total_float in Ts as [xs Xs], Tc as [xc Xc], Tk as [xk Xk].
  assert (Hn : List.length (active_positions (positions_summary r))
               = List.length (filter open_position (positions_of account_data))).
  { rewrite active_positions_all
      by (eapply position_loop_sizes; [constructor|exact Hp]).
    assert (E : positions_of account_data = ps)
      by (unfold positions_of, wallets_of; now rewrite Hps).
    apply position_loop_entries in Hp. cbn [map app] in Hp.
    rewrite E, <- (length_map Ok), Hp, length_map. reflexivity. }
  eexists [_; _; _; _; _; _; _; _; _; _; _]. split; [reflexivity|].
  { unfold print_summary. rewrite Ete, Eab, Eim, Emm. cbn [margin].
      unfold bind at 1. cbn [print].
      unfold bind at 1. cbn [print tick stdout].
      unfold bind at 1. cbn [print tick stdout].
      unfold bind at 1. rewrite (@print_amount_ok _ _ te) by reflexivity.
      unfold bind at 1. rewrite (@print_amount_ok _ _ ab) by reflexivity.
      unfold bind at 1. rewrite (@print_amount_ok _ _ im) by reflexivity.
      unfold bind at 1. rewrite (@print_amount_ok _ _ mm) by reflexivity.
      cbv zeta.
      unfold bind at 1. cbn [print tick stdout].
      unfold bind at 1. rewrite (@print_amount_ok _ _ xs) by exact Xs.
      unfold bind at 1. rewrite (@print_amount_ok _ _ xc) by exact Xc.
      unfold bind at 1. rewrite (@print_amount_ok _ _ xk) by exact Xk.
      unfold bind at 1. cbn [print tick stdout].
      rewrite Hn. reflexivity. }
Qed.

End PrinterProperties.

Lemma print_amount_quiet `{Console} (label : str) (amount : num) :
  prints_only (print_amount label amount).
Proof. unfold print_amount. quiet. Qed.

Lemma print_summary_quiet `{Console} (self : ApexBalanceChecker)
    (balance_data : balance_report) :
  prints_only (print_summary self balance_data).
Proof.
  destruct balance_data as [|r]; unfold print_summary; [quiet|].
  repeat first
    [ apply prints_only_print
    | apply print_amount_quiet
    | apply prints_only_bind; [|intros] ].
Qed.

(** The effects of a run that has gone as far as the report file. *)
Ltac saved :=
  split; [reflexivity|];
  right; split; [assumption|]; split; [reflexivity|];
  first [left; reflexivity|right; reflexivity].

Section MainProperties.
Context {W : World} {C : Console}.

(** Saving makes no request; it opens one file at most, the report's, and
    none without the user's consent. *)
Lemma save_report_effects (r : report) (m : machine) :
  let out := save_report r m in
  tick (process (snd out)) = tick (process m)
  /\ (files (snd out) = files m /\ directories (snd out) = directories m
      \/ consent
         /\ directories (snd out)
            = getenv_default (lit "REPORTS_DIR") (lit "./reports") :: directories m
         /\ (files (snd out) = files m
             \/ files (snd out)
                = (path_join (getenv_default (lit "REPORTS_DIR") (lit "./reports"))
                     (lit "apex_balance_" ++ str_of_int time_s ++ lit ".json"), r)
                  :: files m)).
Proof.
  unfold save_report.
  assert (Hk : flag (lit "AUTO_SAVE_REPORTS") = true
               \/ (exists line,
                      input (newline ++ lit "Save detailed data to JSON file? (y/n): ")
                      = inl line
                      /\ str_eqb (str_strip (str_lower line)) (lit "y") = true)
               -> consent).
  { intros [F|(line & I & Y)]; [now left|]. right. exists line.
    split; [exact I|]. now apply str_eqb_eq. }
  destruct (flag (lit "AUTO_SAVE_REPORTS")).
  - specialize (Hk (or_introl eq_refl)).
    replace (str_eqb (lit "y") (lit "y")) with true by reflexivity.
    cbv beta iota zeta.
    match goal with
    | |- context [makedirs ?d] => destruct (makedirs d)
    end; [cbn [snd process files directories tick]; saved|].
    match goal with
    | |- context [dump ?f ?x] => destruct (dump f x)
    end; cbn [snd process files directories tick say with_process]; saved.
  - destruct (input _) as [line|e] eqn:I; [|cbn [snd]; auto].
    destruct (str_eqb _ _) eqn:Y; [|cbn [snd]; auto].
    assert (K : consent) by (apply Hk; right; eauto). clear Hk.
    cbv beta iota zeta.
    match goal with
    | |- context [makedirs ?d] => destruct (makedirs d)
    end; [cbn [snd process files directories tick]; saved|].
    match goal with
    | |- context [dump ?f ?x] => destruct (dump f x)
    end; cbn [snd process files directories tick say with_process]; saved.
Qed.

(** The [try] block of [main]: the requests are those of
    [calculate_total_balance], and a file is opened only for the report that
    it has returned. *)
Lemma main_try_effects (API_KEY SECRET PASSPHRASE : str) (IS_TESTNET : bool)
    (m : machine) :
  let out := main_try API_KEY SECRET PASSPHRASE IS_TESTNET m in
  tick (process m) <= tick (process (snd out)) <= tick (process m) + 2
  /\ (files (snd out) = files m /\ directories (snd out) = directories m
      \/ exists r st st',
          calculate_total_balance
            (__init__ API_KEY SECRET PASSPHRASE IS_TESTNET) st
          = (Ok (Report r), st')
          /\ tick (process (snd out)) = tick (process m) + 2
          /\ consent
          /\ directories (snd out)
             = getenv_default (lit "REPORTS_DIR") (lit "./reports") :: directories m
          /\ (files (snd out) = files m
              \/ files (snd out)
                 = (path_join (getenv_default (lit "REPORTS_DIR") (lit "./reports"))
                      (lit "apex_balance_" ++ str_of_int time_s ++ lit ".json"), r)
                   :: files m)).
Proof.
  unfold main_try.
  set (checker := __init__ API_KEY SECRET PASSPHRASE IS_TESTNET).
  set (m0 := say _ m).
  pose proof (calculate_total_balance_ticks checker (process m0)) as [T1 T2].
  destruct (calculate_total_balance checker (process m0)) as [[[|r]|e] p] eqn:E;
    cbn [fst snd] in T1, T2.
  - cbn. split; [exact T1|left; auto].
  - specialize (T2 _ eq_refl).
    destruct (print_summary_quiet checker (Report r) p) as [Q _].
    destruct (print_summary checker (Report r) p) as [[[]|e] p'];
      cbn [snd] in Q.
    + pose proof (save_report_effects r (with_process m0 p')) as [S1 S2].
      cbn [with_process process files directories] in S1, S2.
      cbn [m0 say with_process process files directories tick] in T2, S2.
      split; [cbn [m0 say with_process process tick] in *; lia|].
      destruct S2 as [S2|(K & D & S2)]; [left; exact S2|].
      right. exists r, (process m0), p. split; [exact E|].
      split; [cbn [m0 say with_process process tick] in *; lia|].
      split; [exact K|]. split; [exact D|exact S2].
    + cbn. cbn [m0 say with_process process tick] in *.
      split; [lia|left; auto].
  - cbn. split; [exact T1|left; auto].
Qed.

(** X16.  [main] does nothing but explain itself when a credential is
    missing or the key is still the placeholder of the sample file: it
    makes no request, creates no directory and opens no file.  When
    APEX_API_KEY, APEX_SECRET or APEX_PASSPHRASE is not set or is empty, it
    prints the seven lines of 259-265; when the three are set and the key
    is the placeholder, it prints the five lines of 269-273. *)
Theorem main_needs_credentials :
  forall (m : machine),
    (unset (getenv (lit "APEX_API_KEY"))
     \/ unset (getenv (lit "APEX_SECRET"))
     \/ unset (getenv (lit "APEX_PASSPHRASE")) ->
     tick (process (main m)) = tick (process m)
     /\ directories (main m) = directories m
     /\ files (main m) = files m
     /\ stdout (process (main m))
        = rev [Line (cross ++ lit " Missing API credentials in environment variables!");
             Line (newline ++ lit "Required environment variables:");
             Line (lit "- APEX_API_KEY");
             Line (lit "- APEX_SECRET");
             Line (lit "- APEX_PASSPHRASE");
             Line (lit "- IS_TESTNET (optional, defaults to false)");
             Line (newline ++ lit "Please check your .env file and ensure all credentials are set.")]
            ++ stdout (process m))
    /\ (getenv (lit "APEX_API_KEY") = Some (lit "your-api-key-here") ->
        ~ unset (getenv (lit "APEX_SECRET")) ->
        ~ unset (getenv (lit "APEX_PASSPHRASE")) ->
        tick (process (main m)) = tick (process m)
        /\ directories (main m) = directories m
        /\ files (main m) = files m
        /\ stdout (process (main m))
           = rev [Line (cross ++ lit " Please update your .env file with actual API credentials!");
                Line (newline ++ lit "To get your credentials:");
                Line (lit "1. Go to https://omni.apex.exchange/keyManagement (or testnet version)");
                Line (lit "2. Click 'Generate API' to create new credentials");
                Line (lit "3. Update your .env file with the actual values")]
               ++ stdout (process m)).
Proof.
  intros m. split.
  - intros H.
    assert (E : main m = credentials_missing m).
    { unfold main, unset in *.
      destruct (getenv (lit "APEX_API_KEY")) as [[|a k]|];
        destruct (getenv (lit "APEX_SECRET")) as [[|b s]|];
        destruct (getenv (lit "APEX_PASSPHRASE")) as [[|c p]|];
        cbn [all_set forallb andb negb]; try reflexivity.
      destruct H as [[H|H]|[[H|H]|[H|H]]]; discriminate H. }
    rewrite E. repeat split.
  - intros Hkey Hs Hp.
    assert (E : main m = credentials_placeholder m).
    { unfold main, unset in *. rewrite Hkey.
      destruct (getenv (lit "APEX_SECRET")) as [[|b s]|];
        [exfalso; apply Hs; now right| |exfalso; apply Hs; now left].
      destruct (getenv (lit "APEX_PASSPHRASE")) as [[|c p]|];
        [exfalso; apply Hp; now right| |exfalso; apply Hp; now left].
      reflexivity. }
    rewrite E. repeat split.
Qed.

Lemma troubleshooting_effects (e : exception) (m : machine) :
  tick (process (troubleshooting e m)) = tick (process m)
  /\ directories (troubleshooting e m) = directories m
  /\ files (troubleshooting e m) = files m.
Proof. repeat split. Qed.


(** X18.  A run of [main] makes at most two requests, whatever the environment
    and the server do. *)
Theorem main_makes_two_requests_at_most :
  forall (m : machine),
    tick (process m) <= tick (process (main m)) <= tick (process m) + 2.
Proof.
  intros m.
  assert (Hm : tick (process (credentials_missing m)) = tick (process m))
    by reflexivity.
  unfold main.
  destruct (getenv (lit "APEX_API_KEY")) as [k|]; [|lia].
  destruct (getenv (lit "APEX_SECRET")) as [s|]; [|lia].
  destruct (getenv (lit "APEX_PASSPHRASE")) as [p|]; [|lia].
  destruct (negb _); [lia|].
  destruct (str_eqb k _); [cbn; lia|].
  pose proof (main_try_effects k s p (flag (lit "IS_TESTNET")) m) as [H _].
  destruct (main_try k s p (flag (lit "IS_TESTNET")) m) as [[e|] m'];
    cbn [snd] in H; [|exact H].
  destruct (troubleshooting_effects e m') as [T _]. lia.
Qed.

End MainProperties.

(* ================================================================== *)
(** * Properties of the deposit script as a whole *)

Section ScriptProperties.
Context {W : World} {K : Deposit.Sdk} {C : Script.Client}.
Import Deposit Script.

(** An account that the loop hands on is the value of its last lookup. *)
Lemma poll_source (fuel : nat) :
  forall (account : pyval) (attempt : Z) (st : Deposit.state)
         (account' : pyval) (attempt' : Z) (st' : Deposit.state),
    poll fuel account attempt st = Some (Ok (account', attempt'), st') ->
    account' = account /\ st' = st
    \/ lookups st < lookups st'
       /\ get_account_v3 (lookups st' - 1) = Ok account'.
Proof.
  induction fuel as [|fuel IH]; intros account attempt st account' attempt' st' H;
    cbn [poll] in H;
    destruct (is_None account && (attempt <? max_attempts)%Z);
    try discriminate H; try (inversion H; subst; now left).
  destruct (get_account_v3 (lookups st)) as [account1|e] eqn:E;
    [|discriminate H].
  apply IH in H. right.
  destruct H as [[-> ->]|[Hl Hg]].
  - destruct (is_None account1); cbn [lookups];
      (split; [lia|]); now replace (S (lookups st) - 1) with (lookups st) by lia.
  - destruct (is_None account1); cbn [lookups] in Hl; (split; [lia|exact Hg]).
Qed.

Lemma poll_account_source (fuel : nat) (st : Deposit.state) :
  20 <= fuel ->
  exists r st',
    poll_account fuel st = Some (r, st')
    /\ lookups st <= lookups st' <= lookups st + 20
    /\ forall account,
        r = Ok account ->
        is_None account = false
        /\ lookups st < lookups st'
        /\ get_account_v3 (lookups st' - 1) = Ok account.
Proof.
  intros Hfuel. unfold poll_account.
  destruct (@poll_ends _ fuel VNone 0%Z (started st)) as (r & st' & Hp & Hl & _);
    [exact Hfuel|].
  rewrite Hp. cbn [started lookups] in Hl.
  change (Z.to_nat (max_attempts - 0)) with 20 in Hl.
  destruct r as [[account attempt]|e].
  - destruct (is_None account) eqn:E;
      do 2 eexists; (split; [reflexivity|]); (split; [exact Hl|]);
      intros account' Ha; [discriminate Ha|].
    inversion Ha; subst account'. split; [exact E|].
    apply poll_source in Hp as [[-> _]|Hp]; [discriminate E|exact Hp].
  - do 2 eexists. split; [reflexivity|]. split; [exact Hl|].
    intros ? Ha. discriminate Ha.
Qed.

Lemma deposit_effects (account : pyval) (st : run) :
  let out := deposit account st in
  polled_lookups_kept (polled st) (polled (snd out))
  /\ (deposits (snd out) = deposits st /\ waits (snd out) = waits st
         /\ fst out <> None
      \/ exists position_id,
          py_get account (lit "id") VNone = Ok position_id
          /\ deposits (snd out) = (position_id, amount) :: deposits st
          /\ (waits (snd out) = waits st /\ fst out <> None
              \/ exists tx,
                  deposit_to_exchange position_id amount = inr tx
                  /\ waits (snd out) = tx :: waits st
                  /\ (fst out = None <-> wait_for_tx tx = None))).
Proof.
  unfold deposit, polled_lookups_kept.
  destruct (py_get account (lit "id") VNone) as [position_id|e].
  2:{ cbn. split; [reflexivity|]. left. repeat split. discriminate. }
  destruct (deposit_to_exchange position_id amount) as [e|tx] eqn:D.
  { cbn. split; [reflexivity|]. right. exists position_id.
    repeat split. left. split; [reflexivity|discriminate]. }
  destruct (wait_for_tx tx) eqn:Wt; cbn; (split; [reflexivity|]);
    right; exists position_id; repeat split; right; exists tx;
    rewrite Wt; repeat split; try discriminate; auto.
Qed.

(** X19.  With fuel for the 20 turns of the poll loop the script ends, and it
    asks for one deposit at most.  It asks for none unless
    ETH_PRIVATE_KEY is set and one of at most 20 lookups has returned an
    account that is not [None]; the deposit is then of 0.1, to the
    position [account.get('id')] of that account.  The script ends without
    an exception only if that deposit was made and the wait for its
    transaction has returned. *)
Theorem script_deposits_once :
  forall (fuel : nat) (st : run),
    20 <= fuel ->
    exists r st',
      script fuel st = Some (r, st')
      /\ (deposits st' = deposits st /\ waits st' = waits st /\ r <> None
          \/ exists account position_id call,
              ~ unset (getenv (lit "ETH_PRIVATE_KEY"))
              /\ lookups (polled st) <= call < lookups (polled st) + 20
              /\ lookups (polled st') = call + 1
              /\ get_account_v3 call = Ok account
              /\ is_None account = false
              /\ py_get account (lit "id") VNone = Ok position_id
              /\ deposits st' = (position_id, amount) :: deposits st
              /\ (waits st' = waits st /\ r <> None
                  \/ exists tx,
                      deposit_to_exchange position_id amount = inr tx
                      /\ waits st' = tx :: waits st
                      /\ (r = None <-> wait_for_tx tx = None))).
Proof.
  intros fuel st Hfuel. unfold script.
  destruct (getenv (lit "ETH_PRIVATE_KEY")) as [[|c priKey]|] eqn:Ekey.
  1,3: do 2 eexists; (split; [reflexivity|]); left; repeat split; discriminate.
  assert (Hset : ~ unset (Some (c :: priKey)))
    by (intros [H|H]; discriminate H).
  destruct (HttpPrivateSign _ _ _ _ _ _).
  { do 2 eexists. split; [reflexivity|]. left. repeat split. discriminate. }
  destruct configs_v3.
  { do 2 eexists. split; [reflexivity|]. left. repeat split. discriminate. }
  cbn [polled tell].
  match goal with
  | |- context [poll_account fuel ?p] =>
      destruct (@poll_account_source fuel p Hfuel) as (r & p' & Hp & Hl & Ha)
  end.
  rewrite Hp. cbn [lookups] in Hl.
  destruct r as [account|e].
  2:{ do 2 eexists. split; [reflexivity|]. left. repeat split. discriminate. }
  destruct (Ha account eq_refl) as (Hn & Hlt & Hg). cbn [lookups] in Hlt.
  match goal with
  | |- context [deposit account ?s] =>
      pose proof (deposit_effects account s) as [Hk Hd];
        destruct (deposit account s) as [r st'] eqn:Ed
  end.
  cbn [fst snd polled deposits waits connected] in Hk, Hd.
  unfold polled_lookups_kept in Hk.
  exists r, st'. split; [reflexivity|].
  destruct Hd as [Hd|(position_id & Hid & Hdep & Hw)]; [left; exact Hd|].
  right. exists account, position_id, (lookups p' - 1).
  split; [exact Hset|]. split; [lia|]. split; [lia|].
  split; [exact Hg|]. split; [exact Hn|]. split; [exact Hid|].
  split; [exact Hdep|exact Hw].
Qed.

End ScriptProperties.

(* ================================================================== *)
(** * The further properties at concrete inputs *)

(** Run the left-hand side of an equation and read the result off. *)
Ltac evaluate :=
  match goal with
  | |- ?lhs = _ =>
      let out := fresh "out" in
      set (out := lhs); vm_compute in out; unfold out; reflexivity
  end.

Lemma contract_total_counts_every_wallet_witness :
  let W := Demo.world (Demo.always VNone) in
  exists r st',
    aggregate Demo.full_account Demo.summary Demo.state0 = (Ok (Report r), st')
    /\ contract_total (calculated_totals r) = NFloat 20.25
    /\ sum_available (NInt 0)
         (wallets_of Demo.full_account (lit "contractWallets"))
       = Ok (contract_total (calculated_totals r)).
Proof.
  intros W. do 2 eexists.
  assert (H : aggregate Demo.full_account Demo.summary Demo.state0 = _)
    by evaluate.
  split; [exact H|]. split; [reflexivity|].
  exact (@contract_total_counts_every_wallet W _ _ _ _ _ H).
Defined.

Lemma positions_summary_is_open_positions_witness :
  let W := Demo.world (Demo.always VNone) in
  exists r st',
    aggregate Demo.full_account Demo.summary Demo.state0 = (Ok (Report r), st')
    /\ map symbol (positions_summary r) = [VStr (lit "BTC-USDT")]
    /\ map value (positions_summary r) = [15000%float]
    /\ map Ok (positions_summary r)
       = map position_entry
           (filter open_position (positions_of Demo.full_account)).
Proof.
  intros W. do 2 eexists.
  assert (H : aggregate Demo.full_account Demo.summary Demo.state0 = _)
    by evaluate.
  split; [exact H|]. split; [reflexivity|]. split; [reflexivity|].
  exact (proj1 (@positions_summary_is_open_positions W _ _ _ _ _ H)).
Defined.

Lemma unencodable_request_raises_witness :
  let W := Demo.world (Demo.always VNone) in
  ~ Forall Utf8.scalar (secret Cases.surrogate_checker)
  /\ _make_request Cases.surrogate_checker (lit "GET") (lit "/account") None
       Demo.state0
     = (Raise UnicodeEncodeError, Demo.state0).
Proof.
  intros W.
  assert (H : ~ Forall Utf8.scalar (secret Cases.surrogate_checker)).
  { intros H. cbn in H.
    do 4 (apply Forall_inv_tail in H). apply Forall_inv in H.
    unfold Utf8.scalar in H. lia. }
  split; [exact H|].
  exact (@unencodable_request_raises W Cases.surrogate_checker (lit "GET")
           (lit "/account") None Demo.state0 (or_introl H)).
Defined.

Lemma malformed_timeout_raises_witness :
  let W := Cases.timeout_world (lit "soon") (Demo.always VNone) in
  getenv (lit "REQUEST_TIMEOUT") = Some (lit "soon")
  /\ int_of_str (lit "soon") = None
  /\ _make_request Demo.checker (lit "GET") (lit "/account") None Demo.state0
     = (Raise (ValueError None), Demo.state0).
Proof.
  intros W. split; [reflexivity|]. split; [reflexivity|].
  eapply (@malformed_timeout_raises W Demo.checker (lit "GET") (lit "/account")
            None Demo.state0 _ (lit "soon")).
  - evaluate.
  - reflexivity.
  - reflexivity.
Defined.

Lemma get_request_without_query_witness :
  let W := Demo.world (Demo.always VNone) in
  let params := Some [(lit "symbol", VNone); (lit "limit", VNone)] in
  signed_message (lit "1700000000000") (lit "GET") (lit "/orders") params
  = lit "1700000000000GET/v3/orders".
Proof.
  intros W params.
  assert (H : canonical_query [(lit "symbol", VNone); (lit "limit", VNone)] = [])
    by reflexivity.
  exact (proj1 (@get_request_without_query W Demo.checker (lit "/orders")
                  params Demo.state0 H)).
Defined.

Lemma query_values_are_not_escaped_witness :
  let W := Demo.world (Demo.always VNone) in
  str_ltb (lit "limit") (lit "symbol") = true
  /\ canonical_query [(lit "limit", VStr (lit "10&symbol=BTC-USDT"))]
     = canonical_query [(lit "limit", VStr (lit "10"));
                        (lit "symbol", VStr (lit "BTC-USDT"))].
Proof.
  intros W. split; [reflexivity|].
  exact (proj1 (@query_values_are_not_escaped W (lit "1700000000000") (lit "/orders")
                  (lit "limit") (lit "10") (lit "symbol") (lit "BTC-USDT")
                  eq_refl)).
Defined.

Lemma signature_shape_witness :
  exists signature,
    _generate_signature Demo.checker (lit "1700000000000") (lit "GET")
      (lit "/v3/account") (lit "")
    = Ok signature
    /\ List.length signature = 44
    /\ skipn 43 signature = lit "=".
Proof.
  eexists.
  assert (H : _generate_signature Demo.checker (lit "1700000000000") (lit "GET")
                (lit "/v3/account") (lit "") = _)
    by evaluate.
  split; [exact H|].
  destruct (signature_shape _ _ _ _ _ H) as (L & _ & P).
  split; [exact L|exact P].
Defined.

Lemma poll_account_always_ends_witness :
  let C := Deposit.found_at 3 Cases.account in
  20 <= 25
  /\ exists r st',
      Deposit.poll_account 25 Deposit.initial = Some (r, st')
      /\ Deposit.lookups st' <= 20.
Proof.
  intros C. split; [lia|].
  destruct (@poll_account_always_ends C 25 Deposit.initial ltac:(lia))
    as (r & st' & E & L & _).
  exists r, st'. split; [exact E|]. exact (proj2 L).
Defined.

Lemma poll_account_lookup_raises_witness :
  let C := Cases.fails_at 2 TypeError in
  exists st',
    Deposit.poll_account 20 Deposit.initial = Some (Raise TypeError, st')
    /\ Deposit.lookups st' = 3
    /\ Deposit.sleeps st' = [6; 6]%Z.
Proof.
  intros C.
  refine (@poll_account_lookup_raises C 20 2 Deposit.initial TypeError _ _ _ _).
  - lia.
  - lia.
  - intros [|[|j]] Hj; [reflexivity|reflexivity|lia].
  - reflexivity.
Defined.

Lemma summary_counts_open_positions_witness :
  let W := Demo.world (Demo.always VNone) in
  let C := Cases.console (lit "n") in
  exists r st',
    aggregate Demo.full_account Demo.summary Demo.state0 = (Ok (Report r), st')
    /\ exists body,
        print_summary Demo.checker (Report r) Demo.state0
        = (Ok tt,
           {| tick := 0;
              stdout :=
                Line rule
                :: Line (newline ++ lit "Active Positions:         1")
                :: body |}).
Proof.
  intros W C. do 2 eexists.
  assert (H : aggregate Demo.full_account Demo.summary Demo.state0 = _)
    by evaluate.
  split; [exact H|].
  destruct (@summary_counts_open_positions W C Demo.checker _ _ _ _ _
              Demo.state0 H) as (body & _ & E).
  exists (body ++ []). exact E.
Defined.

Lemma script_deposits_once_witness :
  let W := Cases.setting_world (lit "ETH_PRIVATE_KEY") (lit "0x01")
             (Demo.always VNone) in
  let K := Deposit.found_at 3 Cases.account in
  let C := Cases.client in
  let st := {| Script.polled := Deposit.initial; Script.connected := false;
               Script.deposits := []; Script.waits := [] |} in
  20 <= 20
  /\ exists r st',
      Script.script 20 st = Some (r, st')
      /\ List.length (Script.deposits st') <= 1.
Proof.
  intros W K C st. split; [lia|].
  destruct (@script_deposits_once W K C 20 st ltac:(lia))
    as (r & st' & E & [(D & _)|(a & p & c & _ & _ & _ & _ & _ & _ & D & _)]).
  - exists r, st'. split; [exact E|]. rewrite D. cbn. lia.
  - exists r, st'. split; [exact E|]. rewrite D. cbn. lia.
Defined.

(* ================================================================== *)
(** * The amount fields of a wallet *)

Section AmountProperties.
Context {W : World}.


Lemma float_field_rejected (fields : list (str * pyval)) (key : str)
    (v : pyval) (e : exn) :
  lookup key fields = Some v -> py_float v = Raise e ->
  float_field (VDict fields) key = Raise e.
Proof. intros Hv He. unfold float_field, py_get. now rewrite Hv. Qed.

Lemma float_field_outcome (fields : list (str * pyval)) (key : str) :
  float_field (VDict fields) key
  = match lookup key fields with
    | Some v => py_float v
    | None => Ok 0%float
    end.
Proof.
  unfold float_field, py_get. destruct (lookup key fields); reflexivity.
Qed.

(** The three conversions of a wallet: the first that fails decides. *)
Lemma wallet_amounts_outcome (fields : list (str * pyval)) :
  match first_rejection fields amount_keys with
  | Some e => wallet_amounts (VDict fields) = Raise e
  | None => exists rec, wallet_amounts (VDict fields) = Ok rec
  end.
Proof.
  unfold wallet_amounts, amount_keys. cbn [first_rejection].
  rewrite !float_field_outcome.
  destruct (lookup (lit "balance") fields) as [v1|];
    [destruct (py_float v1); [|reflexivity]|];
    (destruct (lookup (lit "pendingDepositAmount") fields) as [v2|];
     [destruct (py_float v2); [|reflexivity]|]);
    (destruct (lookup (lit "pendingWithdrawAmount") fields) as [v3|];
     [destruct (py_float v3); [|reflexivity]|]);
    cbn [rbind]; eauto.
Qed.

(** A rejected field of a wallet makes its three conversions fail. *)
Lemma wallet_amounts_rejected (fields : list (str * pyval)) (key : str)
    (v : pyval) (e : exn) :
  In key amount_keys -> lookup key fields = Some v -> py_float v = Raise e ->
  exists e', first_rejection fields amount_keys = Some e'.
Proof.
  intros Hkey Hv He. unfold amount_keys in *. cbn [first_rejection].
  destruct Hkey as [<-|[<-|[<-|[]]]]; rewrite ?Hv, ?He;
    repeat match goal with
    | |- context [match lookup ?k fields with _ => _ end] =>
        destruct (lookup k fields)
    | |- context [match py_float ?x with _ => _ end] =>
        destruct (py_float x)
    end; eauto; try discriminate.
Qed.

Lemma num_add_float (total : num) (x : float) :
  is_total total -> exists y, num_add total (NFloat x) = Ok (NFloat y).
Proof.
  intros [->|[t ->]]; cbn [num_add num_float rbind]; [|eauto].
  replace (float_of_int 0) with (Ok 0%float) by reflexivity.
  cbn [rbind]. eauto.
Qed.


Lemma contract_step_processable (d : pydict wallet_record) (total : num)
    (wallet : pyval) (st : state) :
  processable asset_of wallet -> is_total total ->
  exists d' total' st',
    contract_step (d, total) wallet st = (Ok (d', total'), st')
    /\ is_total total'.
Proof.
  intros (fields & k & -> & Hr & Hk) Ht.
  pose proof (wallet_amounts_outcome fields) as Ha. rewrite Hr in Ha.
  destruct Ha as [rec Ha].
  unfold asset_of in Hk. unfold contract_step, bind, lift.
  assert (Et : exists asset,
             py_get (VDict fields) (lit "asset") (VStr (lit "Unknown")) = Ok asset)
    by (cbn [py_get]; destruct (lookup _ fields); eauto).
  destruct Et as [asset Et]. rewrite Et in Hk |- *.
  rewrite Ha. unfold setitem. rewrite Hk.
  destruct (num_add_float (available rec) Ht) as [y Hy]. rewrite Hy.
  cbn. do 3 eexists. split; [reflexivity|]. right. eauto.
Qed.




Lemma contract_loop_processable (wallets : list pyval) :
  Forall (processable asset_of) wallets ->
  forall d total st,
    is_total total ->
    exists d' total' st',
      for_each wallets contract_step (d, total) st = (Ok (d', total'), st')
      /\ is_total total'.
Proof.
  induction 1 as [|w wallets Hw _ IH]; intros d total st Ht; cbn [for_each].
  - do 3 eexists. split; [reflexivity|exact Ht].
  - destruct (contract_step_processable d st Hw Ht) as (d1 & t1 & st1 & E & Ht1).
    unfold bind. rewrite E. apply IH. exact Ht1.
Qed.






End AmountProperties.

(* ================================================================== *)
(** * The records of the balance dicts *)

Section RecordsFurther.
Context {W : World}.

(** An entry of a dict after [d[key] = v]: an older entry under another
    key, or the value just stored. *)
Lemma dict_put_entry {V} (d : pydict V) (key : pyval) (k : hkey) (v : V)
    (e : pyval * hkey * V) :
  NoDup (map entry_key d) ->
  In e (dict_put d key k v) ->
  In e d /\ entry_key e <> k \/ entry_key e = k /\ snd e = v.
Proof.
  induction d as [|[[key1 k1] v1] d IH]; cbn [dict_put map]; intros Hd Hin.
  - destruct Hin as [<-|[]]. right. split; reflexivity.
  - inversion Hd as [|? ? Hk1 Hd']; subst.
    destruct (hkey_eqb k1 k) eqn:E.
    + apply hkey_eqb_eq in E. subst k1.
      destruct Hin as [<-|Hin]; [right; split; reflexivity|].
      left. split; [now right|]. intros Hk. apply Hk1.
      change (entry_key (key1, k, v1)) with k. rewrite <- Hk.
      now apply in_map.
    + destruct Hin as [<-|Hin].
      * left. split; [now left|]. cbn. intros ->.
        now rewrite hkey_eqb_refl in E.
      * destruct (IH Hd' Hin) as [[Hin' Hk]|Hk]; [|now right].
        left. split; [now right|exact Hk].
Qed.

(** Every record of the spot loop is that of the last wallet with its
    identifier. *)
Lemma spot_loop_last (wallets : list pyval) :
  forall d total st d' total' st',
    NoDup (map entry_key d) ->
    for_each wallets spot_step (d, total) st = (Ok (d', total'), st') ->
    forall e,
      In e d' ->
      In e d
      /\ Forall (fun w => hash_key (token_of w) <> Some (entry_key e)) wallets
      \/ exists pre w post,
          wallets = pre ++ w :: post
          /\ hash_key (token_of w) = Some (entry_key e)
          /\ wallet_amounts w = Ok (snd e)
          /\ Forall (fun w' => hash_key (token_of w') <> Some (entry_key e)) post.
Proof.
  induction wallets as [|w wallets IH]; intros d total st d' total' st' Hd H e He.
  - inversion H; subst. left. split; [exact He|constructor].
  - cbn [for_each] in H. step H. destruct a as [d1 total1].
    apply spot_step_ok in E as (k & rec & Hk & Hrec & -> & _).
    destruct (dict_put_keys d (token_of w) k rec Hd) as [Hnd _].
    destruct (IH _ _ _ _ _ _ Hnd H e He)
      as [[Hin Hno]|(pre & w' & post & -> & Hk' & Hrec' & Hno)].
    + destruct (@dict_put_entry _ _ _ _ _ _ Hd Hin) as [[Hin' Hne]|[Hke Hv]].
      * left. split; [exact Hin'|]. constructor; [|exact Hno]. congruence.
      * right. exists [], w, wallets. rewrite Hke in Hno |- *. rewrite Hv.
        repeat split; assumption.
    + right. exists (w :: pre), w', post. auto.
Qed.

Lemma contract_loop_last (wallets : list pyval) :
  forall d total st d' total' st',
    NoDup (map entry_key d) ->
    for_each wallets contract_step (d, total) st = (Ok (d', total'), st') ->
    forall e,
      In e d' ->
      In e d
      /\ Forall (fun w => hash_key (asset_of w) <> Some (entry_key e)) wallets
      \/ exists pre w post,
          wallets = pre ++ w :: post
          /\ hash_key (asset_of w) = Some (entry_key e)
          /\ wallet_amounts w = Ok (snd e)
          /\ Forall (fun w' => hash_key (asset_of w') <> Some (entry_key e)) post.
Proof.
  induction wallets as [|w wallets IH]; intros d total st d' total' st' Hd H e He.
  - inversion H; subst. left. split; [exact He|constructor].
  - cbn [for_each] in H. step H. destruct a as [d1 total1].
    apply contract_step_ok in E as (asset & k & rec & Ha & Hk & Hrec & -> & _).
    assert (Hw : hash_key (asset_of w) = Some k)
      by (unfold asset_of; now rewrite Ha).
    destruct (dict_put_keys d asset k rec Hd) as [Hnd _].
    destruct (IH _ _ _ _ _ _ Hnd H e He)
      as [[Hin Hno]|(pre & w' & post & -> & Hk' & Hrec' & Hno)].
    + destruct (@dict_put_entry _ _ _ _ _ _ Hd Hin) as [[Hin' Hne]|[Hke Hv]].
      * left. split; [exact Hin'|]. constructor; [|exact Hno]. congruence.
      * right. exists [], w, wallets. rewrite Hke in Hno |- *. rewrite Hv.
        repeat split; assumption.
    + right. exists (w :: pre), w', post. auto.
Qed.

(** X6.  spot_balances and contract_balances hold one record per
    identifier: no identifier is filed twice, the identifiers filed are
    exactly those of the wallets of the response ([tokenId] for a spot
    wallet, [asset] for a contract wallet, "Unknown" when left out), equal
    keys such as [1] and [1.0] counting as one; and the record filed under
    an identifier is that of the last wallet of the response that carries
    it: a later wallet replaces the record of an earlier one. *)
Theorem balances_hold_one_record_per_identifier :
  forall (account_data balance_data : pyval) (st st' : state) (r : report),
    aggregate account_data balance_data st = (Ok (Report r), st') ->
    (NoDup (map entry_key (spot_balances r))
     /\ (forall k, In k (map entry_key (spot_balances r)) <->
                   exists w, In w (wallets_of account_data (lit "spotWallets"))
                             /\ hash_key (token_of w) = Some k)
     /\ forall e,
         In e (spot_balances r) ->
         exists pre w post,
           wallets_of account_data (lit "spotWallets") = pre ++ w :: post
           /\ hash_key (token_of w) = Some (entry_key e)
           /\ wallet_amounts w = Ok (snd e)
           /\ Forall (fun w' => hash_key (token_of w') <> Some (entry_key e)) post)
    /\ (NoDup (map entry_key (contract_balances r))
        /\ (forall k, In k (map entry_key (contract_balances r)) <->
                      exists w, In w (wallets_of account_data (lit "contractWallets"))
                                /\ hash_key (asset_of w) = Some k)
        /\ forall e,
            In e (contract_balances r) ->
            exists pre w post,
              wallets_of account_data (lit "contractWallets") = pre ++ w :: post
              /\ hash_key (asset_of w) = Some (entry_key e)
              /\ wallet_amounts w = Ok (snd e)
              /\ Forall (fun w' => hash_key (asset_of w') <> Some (entry_key e))
                        post).
Proof.
  intros account_data balance_data st st' r H.
  apply aggregate_report in H
    as (_ & _ & (s1 & s2 & Hs) & (c1 & c2 & Hc) & _).
  split.
  - destruct (@spot_loop_keys _ _ [] _ _ _ _ _ (NoDup_nil _) Hs) as [Hnd Hin].
    split; [exact Hnd|]. split; [intros k; rewrite Hin; cbn; tauto|].
    intros e He.
    destruct (@spot_loop_last _ [] _ _ _ _ _ (NoDup_nil _) Hs e He)
      as [[[] _]|Hlast].
    exact Hlast.
  - destruct (@contract_loop_keys _ _ [] _ _ _ _ _ (NoDup_nil _) Hc) as [Hnd Hin].
    split; [exact Hnd|]. split; [intros k; rewrite Hin; cbn; tauto|].
    intros e He.
    destruct (@contract_loop_last _ [] _ _ _ _ _ (NoDup_nil _) Hc e He)
      as [[[] _]|Hlast].
    exact Hlast.
Qed.

End RecordsFurther.

(* ================================================================== *)
(** * Amounts, records, credentials and the poll loop at concrete inputs *)


Lemma balances_hold_one_record_per_identifier_witness :
  let W := Demo.world (Demo.always VNone) in
  let wallets := [example_wallet; Demo.other_wallet; Demo.bare_wallet] in
  exists r st',
    aggregate (Demo.account_of wallets) Demo.summary Demo.state0
    = (Ok (Report r), st')
    /\ map entry_key (spot_balances r) = [KStr (lit "1"); KStr (lit "36")]
    /\ map (fun e => balance (snd e)) (spot_balances r) = [0%float; 7.25%float]
    /\ NoDup (map entry_key (spot_balances r))
    /\ forall e,
        In e (spot_balances r) ->
        exists pre w post,
          wallets_of (Demo.account_of wallets) (lit "spotWallets")
          = pre ++ w :: post
          /\ hash_key (token_of w) = Some (entry_key e)
          /\ wallet_amounts w = Ok (snd e)
          /\ Forall (fun w' => hash_key (token_of w') <> Some (entry_key e)) post.
Proof.
  intros W wallets. do 2 eexists.
  assert (H : aggregate (Demo.account_of wallets) Demo.summary Demo.state0 = _)
    by evaluate.
  split; [exact H|]. split; [reflexivity|]. split; [reflexivity|].
  destruct (proj1 (@balances_hold_one_record_per_identifier W _ _ _ _ _ H))
    as (Hnd & _ & Hlast).
  split; [exact Hnd|exact Hlast].
Defined.

Lemma main_needs_credentials_witness :
  (let W := Demo.world (Demo.always VNone) in
   let C := Cases.console (lit "y") in
   unset (getenv (lit "APEX_API_KEY"))
   /\ tick (process (main Cases.machine0)) = 0
   /\ files (main Cases.machine0) = []
   /\ List.length (stdout (process (main Cases.machine0))) = 7)
  /\ (let W := Cases.credentials_world (lit "your-api-key-here") (lit "s3cr3t")
                 (lit "pass") (Demo.always VNone) in
      let C := Cases.console (lit "y") in
      getenv (lit "APEX_API_KEY") = Some (lit "your-api-key-here")
      /\ tick (process (main Cases.machine0)) = 0
      /\ files (main Cases.machine0) = []
      /\ List.length (stdout (process (main Cases.machine0))) = 5).
Proof.
  split.
  - intros W C.
    assert (H : unset (getenv (lit "APEX_API_KEY"))) by (left; reflexivity).
    split; [exact H|].
    destruct (proj1 (@main_needs_credentials W C Cases.machine0) (or_introl H))
      as (T & _ & F & O).
    split; [exact T|]. split; [exact F|]. rewrite O. reflexivity.
  - intros W C.
    assert (H : getenv (lit "APEX_API_KEY") = Some (lit "your-api-key-here"))
      by reflexivity.
    split; [exact H|].
    destruct (proj2 (@main_needs_credentials W C Cases.machine0) H)
      as (T & _ & F & O).
    + intros [E|E]; discriminate E.
    + intros [E|E]; discriminate E.
    + split; [exact T|]. split; [exact F|]. rewrite O. reflexivity.
Defined.

(** C9 as stated fails for a lookup that returns an empty value other
    than [None]: with [{}] at every call the loop makes one lookup, does not
    sleep, raises nothing, and the script goes on to ask for a deposit to
    the position [None]. *)
Lemma empty_account_ends_poll :
  let W := Cases.setting_world (lit "ETH_PRIVATE_KEY") (lit "0x01")
             (Demo.always VNone) in
  let K := Deposit.found_at 0 (VDict []) in
  let C := Cases.client in
  (forall call, Deposit.get_account_v3 call = Ok (VDict []))
  /\ truthy (VDict []) = false
  /\ Deposit.poll_account 20 Deposit.initial
     = Some (Ok (VDict []),
             {| Deposit.lookups := 1;
                Deposit.sleeps := [];
                Deposit.stdout := [Line (lit "Fetching account...")] |})
  /\ exists st',
      Script.script 20
        {| Script.polled := Deposit.initial; Script.connected := false;
           Script.deposits := []; Script.waits := [] |}
      = Some (None, st')
      /\ Deposit.lookups (Script.polled st') = 1
      /\ Script.deposits st' = [(VNone, Script.amount)].
Proof.
  intros W K C. split; [reflexivity|]. split; [reflexivity|].
  split; [reflexivity|].
  eexists. split; [|split]; [evaluate|reflexivity|reflexivity].
Qed.
